(** * Attendance bot: status engine, conversation tracker and callback router

    A shallow embedding of the core of the Telegram attendance bot
    (src/database.py, src/admin.py, src/handlers.py, src/utils.py) and the
    properties of its specification that were checked against it.

    Conventions of the embedding
    - A Python [str] is the list of its code points.  The literals of the
      source are written with [u "..."], which decodes the UTF-8 text of
      the literal.
    - The SQLite store is a record of tables.  [users] is keyed by
      [telegram_id] (UNIQUE NOT NULL in the schema), [events] is the
      append-only journal in rowid order.  Timestamp columns are left out:
      they are filled by the engine's clock and no handler branches on
      them; where a function hands one back, the value is named, not
      given.
    - Statements are executed on an open, healthy connection; the
      [except Exception] arms that only fire on a store failure are not
      modelled.  The exceptions the code raises by itself (a failed
      [int()], a name that is not bound, [in] applied to [None]) are
      modelled where they occur, and they end where the source catches
      them.
    - The handlers of src/handlers.py call the store, the panel and the
      dispatcher through the global names [admin_panel],
      [notification_system] and [dp].  The module binds none of them
      ([register_handlers] takes them as arguments and is empty), so
      evaluating one raises [NameError]; the handlers are embedded with
      that behaviour.  The functions of src/database.py and src/admin.py
      are embedded as they are written and are called directly.
    - The FSM calls are read with their meaning: [set_state] selects the
      step of the calling user, [update_data] merges keys, [finish()]
      drops step and data.
    - A literal text sent to the chat is kept as it is; a formatted text
      is named by its first line and carries the values it interpolates. *)

From Stdlib Require Import ZArith NArith List String Ascii Lia Bool.
From Stdlib Require Import DecimalString.
From stdpp Require Import base option list gmap sorting.
Import ListNotations.

(** ** Python strings *)

Module Py.

Definition str := list N.

Section Decode.
Local Open Scope N_scope.

(** UTF-8 decoding, used only to write the literals of the source. *)
Fixpoint utf8 (bs : list N) : str :=
  match bs with
  | [] => []
  | b0 :: r0 =>
    if b0 <? 128 then b0 :: utf8 r0
    else match r0 with
    | [] => []
    | b1 :: r1 =>
      if b0 <? 224 then ((b0 - 192) * 64 + (b1 - 128)) :: utf8 r1
      else match r1 with
      | [] => []
      | b2 :: r2 =>
        if b0 <? 240
        then ((b0 - 224) * 4096 + (b1 - 128) * 64 + (b2 - 128)) :: utf8 r2
        else match r2 with
        | [] => []
        | b3 :: r3 =>
          ((b0 - 240) * 262144 + (b1 - 128) * 4096
           + (b2 - 128) * 64 + (b3 - 128)) :: utf8 r3
        end
      end
    end
  end.

Definition u (s : string) : str :=
  utf8 (map N_of_ascii (list_ascii_of_string s)).

Arguments u : simpl never.

(** [s.startswith(p)] *)
Fixpoint startswith (s p : str) : bool :=
  match p, s with
  | [], _ => true
  | _ :: _, [] => false
  | c :: p', d :: s' => (c =? d) && startswith s' p'
  end.

(** [p in s] for two strings *)
Fixpoint contains (p s : str) : bool :=
  startswith s p
  || match s with
     | [] => false
     | _ :: r => contains p r
     end.

(** [s.split(sep)] for a one-character separator: never empty. *)
Fixpoint split (sep : N) (s : str) : list str :=
  match s with
  | [] => [[]]
  | c :: r =>
    if c =? sep then [] :: split sep r
    else match split sep r with
         | h :: t => (c :: h) :: t
         | [] => [[c]]
         end
  end.

(** [s.split(sep, 1)] when [sep in s], [None] when it is not. *)
Fixpoint split_once (sep : N) (s : str) : option (str * str) :=
  match s with
  | [] => None
  | c :: r =>
    if c =? sep then Some ([], r)
    else match split_once sep r with
         | Some (h, t) => Some (c :: h, t)
         | None => None
         end
  end.

(** [str.isspace] on one code point; also the class [\s] of [re] on
    [str] patterns. *)
Definition isspace (c : N) : bool :=
  ((9 <=? c) && (c <=? 13)) || ((28 <=? c) && (c <=? 32))
  || (c =? 133) || (c =? 160) || (c =? 5760)
  || ((8192 <=? c) && (c <=? 8202))
  || (c =? 8232) || (c =? 8233) || (c =? 8239) || (c =? 8287)
  || (c =? 12288).

Fixpoint lstrip (s : str) : str :=
  match s with
  | [] => []
  | c :: r => if isspace c then lstrip r else s
  end.

(** [s.strip()] *)
Definition strip (s : str) : str := rev (lstrip (rev (lstrip s))).

(** [str.lower] on the Latin and Cyrillic capitals.  Other code points are
    left as they are; none of them lowers to a letter of the literals the
    result is compared with in this development. *)
Definition lower_char (c : N) : N :=
  if (65 <=? c) && (c <=? 90) then c + 32            (* A-Z *)
  else if (1040 <=? c) && (c <=? 1071) then c + 32   (* А-Я *)
  else if (1024 <=? c) && (c <=? 1039) then c + 80   (* Ѐ-Џ, with Ё *)
  else c.

Definition lower (s : str) : str := map lower_char s.

(** An ASCII decimal digit: the digits of the text that [int()] parses. *)
Definition isdigit (c : N) : bool := (48 <=? c) && (c <=? 57).

Fixpoint digits_value (acc : Z) (s : str) : Z :=
  match s with
  | [] => acc
  | c :: r => digits_value (10 * acc + Z.of_N (c - 48))%Z r
  end.

(** The code points of decimal value 0 in the character database of
    Python 3.11 (Unicode 14); the nine code points after each of them are
    its digits 1 to 9. *)
Definition decimal_zeros : list N :=
  [
    48; 1632; 1776; 1984; 2406; 2534; 2662; 2790; 2918; 3046; 3174; 3302;
    3430; 3558; 3664; 3792; 3872; 4160; 4240; 6112; 6160; 6470; 6608; 6784;
    6800; 6992; 7088; 7232; 7248; 42528; 43216; 43264; 43472; 43504; 43600;
    44016; 65296; 66720; 68912; 69734; 69872; 69942; 70096; 70384; 70736;
    70864; 71248; 71360; 71472; 71904; 72016; 72784; 73040; 73120; 92768;
    92864; 93008; 120782; 120792; 120802; 120812; 120822; 123200; 123632;
    125264; 130032 ].

Definition decimal_value (c : N) : option N :=
  (λ z, c - z)
    <$> List.find (λ z, (z <=? c) && (c <=? z + 9)) decimal_zeros.

(** The ranges of the code points for which [str.isdigit] holds in the same
    database: the decimal digits and the other characters of numeric type
    digit, such as the superscripts. *)
Definition digit_ranges : list (N * N) :=
  [
    (48, 57); (178, 179); (185, 185); (1632, 1641); (1776, 1785);
    (1984, 1993); (2406, 2415); (2534, 2543); (2662, 2671); (2790, 2799);
    (2918, 2927); (3046, 3055); (3174, 3183); (3302, 3311); (3430, 3439);
    (3558, 3567); (3664, 3673); (3792, 3801); (3872, 3881); (4160, 4169);
    (4240, 4249); (4969, 4977); (6112, 6121); (6160, 6169); (6470, 6479);
    (6608, 6618); (6784, 6793); (6800, 6809); (6992, 7001); (7088, 7097);
    (7232, 7241); (7248, 7257); (8304, 8304); (8308, 8313); (8320, 8329);
    (9312, 9320); (9332, 9340); (9352, 9360); (9450, 9450); (9461, 9469);
    (9471, 9471); (10102, 10110); (10112, 10120); (10122, 10130);
    (42528, 42537); (43216, 43225); (43264, 43273); (43472, 43481);
    (43504, 43513); (43600, 43609); (44016, 44025); (65296, 65305);
    (66720, 66729); (68160, 68163); (68912, 68921); (69216, 69224);
    (69714, 69722); (69734, 69743); (69872, 69881); (69942, 69951);
    (70096, 70105); (70384, 70393); (70736, 70745); (70864, 70873);
    (71248, 71257); (71360, 71369); (71472, 71481); (71904, 71913);
    (72016, 72025); (72784, 72793); (73040, 73049); (73120, 73129);
    (92768, 92777); (92864, 92873); (93008, 93017); (120782, 120831);
    (123200, 123209); (123632, 123641); (125264, 125273); (127232, 127242);
    (130032, 130041) ].

Definition unicode_digit (c : N) : bool :=
  existsb (λ r : N * N, (r.1 <=? c) && (c <=? r.2)) digit_ranges.

(** What [int()] makes of one character before it parses the text: a
    code point below 127 stays, white space outside ASCII becomes a blank,
    a decimal digit outside ASCII its ASCII digit; [None] is any other
    character, with which the text is no number. *)
Definition int_char (c : N) : option N :=
  if c <? 127 then Some c
  else if isspace c then Some 32
  else (λ v, 48 + v) <$> decimal_value c.

(** The white space that [int()] skips around the number: U+001C to
    U+001F are not part of it. *)
Definition int_space (c : N) : bool :=
  ((9 <=? c) && (c <=? 13)) || (c =? 32).

Fixpoint int_lstrip (s : str) : str :=
  match s with
  | [] => []
  | c :: r => if int_space c then int_lstrip r else s
  end.

(** Digits, with single underscores allowed between them. *)
Fixpoint grouped (s : str) : bool :=
  match s with
  | [] => false
  | c :: r =>
    isdigit c
    && match r with
       | [] => true
       | 95 :: r' => grouped r'
       | _ :: _ => grouped r
       end
  end.

(** [sys.get_int_max_str_digits()], the default of Python 3.11. *)
Definition max_str_digits : nat := 4300.

Definition unsigned_int (s : str) : option Z :=
  if grouped s then
    let digits := List.filter isdigit s in
    if (length digits <=? max_str_digits)%nat
    then Some (digits_value 0%Z digits) else None
  else None.

(** [int(s)] for a string; [None] stands for [ValueError].  White space
    around the number, an optional sign, decimal digits grouped by single
    underscores, at most [max_str_digits] of them. *)
Definition int (s : str) : option Z :=
  match mapM int_char s with
  | None => None
  | Some t =>
    match rev (int_lstrip (rev (int_lstrip t))) with
    | 43 :: r => unsigned_int r
    | 45 :: r => Z.opp <$> unsigned_int r
    | r => unsigned_int r
    end
  end.

End Decode.

(** [l[start:end]] with Python's treatment of negative and out-of-range
    bounds. *)
Definition slice_bound (len i : Z) : Z :=
  if (i <? 0)%Z then Z.max 0 (len + i) else Z.min i len.

Definition slice {A} (l : list A) (start_idx end_idx : Z) : list A :=
  let len := Z.of_nat (length l) in
  let lo := slice_bound len start_idx in
  let hi := slice_bound len end_idx in
  take (Z.to_nat (hi - lo)) (drop (Z.to_nat lo) l).

(** Truth value of a string or of [None]. *)
Definition truthy (o : option str) : bool :=
  match o with
  | Some (_ :: _) => true
  | _ => false
  end.

End Py.

Import Py.

(** ** The store (src/database.py) *)

(** A row of [users]; the key [telegram_id] is held by the table. *)
Record UserRow := {
  u_id : Z;                    (* id INTEGER PRIMARY KEY *)
  u_name : str;                (* name TEXT NOT NULL *)
  u_location : option str;     (* location TEXT *)
  u_status : str;              (* status TEXT DEFAULT 'в_части' *)
  u_is_admin : bool;           (* is_admin BOOLEAN DEFAULT FALSE *)
  u_username : option str      (* username TEXT *)
}.

(** The text of [details]: a string, or the f-string that prints the
    dictionary passed to [update_commander_permissions]. *)
Inductive Details :=
| Text (s : str)
| PermissionsText (permissions : gmap str bool).

Record EventRow := {
  e_user_id : option Z;        (* user_id INTEGER, NULL for the system *)
  e_action : str;              (* action TEXT NOT NULL *)
  e_details : option Details   (* details TEXT *)
}.

Record NotificationSettings := {
  ns_enabled : bool; ns_daily_summary : bool;
  ns_reminders : bool; ns_silent_mode : bool
}.

Record AttendanceRow := {
  a_location : option str;     (* location TEXT *)
  a_status : str               (* status TEXT DEFAULT 'present' *)
}.

Record Database := {
  users : gmap Z UserRow;                          (* by telegram_id *)
  events : list EventRow;                          (* oldest first *)
  notification_settings : gmap Z NotificationSettings;   (* by user_id *)
  commander_permissions : gmap Z (gmap str bool);  (* by user_id *)
  attendance : gmap (Z * Z) AttendanceRow          (* by (user_id, date) *)
}.

Definition IN_UNIT : str := u "в_части".
Definition AWAY : str := u "вне_части".

Definition empty_db : Database :=
  {| users := ∅; events := []; notification_settings := ∅;
     commander_permissions := ∅; attendance := ∅ |}.

Definition with_users (f : gmap Z UserRow → gmap Z UserRow) (d : Database) :=
  {| users := f (users d); events := events d;
     notification_settings := notification_settings d;
     commander_permissions := commander_permissions d;
     attendance := attendance d |}.

Definition with_events (f : list EventRow → list EventRow) (d : Database) :=
  {| users := users d; events := f (events d);
     notification_settings := notification_settings d;
     commander_permissions := commander_permissions d;
     attendance := attendance d |}.

Definition with_notification_settings
    (f : gmap Z NotificationSettings → gmap Z NotificationSettings)
    (d : Database) :=
  {| users := users d; events := events d;
     notification_settings := f (notification_settings d);
     commander_permissions := commander_permissions d;
     attendance := attendance d |}.

Definition with_commander_permissions
    (f : gmap Z (gmap str bool) → gmap Z (gmap str bool)) (d : Database) :=
  {| users := users d; events := events d;
     notification_settings := notification_settings d;
     commander_permissions := f (commander_permissions d);
     attendance := attendance d |}.

Definition with_attendance
    (f : gmap (Z * Z) AttendanceRow → gmap (Z * Z) AttendanceRow)
    (d : Database) :=
  {| users := users d; events := events d;
     notification_settings := notification_settings d;
     commander_permissions := commander_permissions d;
     attendance := f (attendance d) |}.

(** [INSERT OR IGNORE] on a table with a unique key. *)
Definition insert_or_ignore {V} (k : Z) (v : V) (t : gmap Z V) : gmap Z V :=
  match t !! k with
  | Some _ => t
  | None => <[k := v]> t
  end.

(** The rowid SQLite gives to a row inserted without one: one more than
    the largest in use. *)
Definition next_rowid (t : gmap Z UserRow) : Z :=
  (1 + map_fold (λ _ r acc, Z.max (u_id r) acc) 0 t)%Z.

Definition default_notification_settings : NotificationSettings :=
  {| ns_enabled := true; ns_daily_summary := true;
     ns_reminders := true; ns_silent_mode := false |}.

Module Db.

(** [Database.log_event] *)
Definition log_event (user_id : option Z) (action : str)
    (details : option Details) (d : Database) : Database :=
  with_events
    (λ es, es ++ [ {| e_user_id := user_id; e_action := action;
                      e_details := details |} ]) d.

(** [Database.add_user]: [INSERT OR REPLACE INTO users (telegram_id, name,
    location, username)], default notification settings for the new
    rowid, then the [user_added] event. *)
Definition add_user (telegram_id : Z) (name : str)
    (location username : option str) (d : Database) : bool * Database :=
  let user_id := next_rowid (users d) in
  let row := {| u_id := user_id; u_name := name; u_location := location;
                u_status := IN_UNIT; u_is_admin := false;
                u_username := username |} in
  let d := with_users (insert telegram_id row) d in
  let d := with_notification_settings
             (insert_or_ignore user_id default_notification_settings) d in
  (true, log_event (Some user_id) (u "user_added")
           (Some (Text (u "Добавлен пользователь: " ++ name))) d).

(** [Database.get_user] *)
Definition get_user (telegram_id : Z) (d : Database) : option UserRow :=
  users d !! telegram_id.

(** [Database.get_all_users]: [SELECT * FROM users ORDER BY name]; rows of
    equal name are listed by rowid. *)
Fixpoint str_leb (a b : str) : bool :=
  match a, b with
  | [], _ => true
  | _ :: _, [] => false
  | x :: a', y :: b' => (x <? y)%N || ((x =? y)%N && str_leb a' b')
  end.

Definition row_leb (x y : Z * UserRow) : bool :=
  if bool_decide (u_name x.2 = u_name y.2)
  then (u_id x.2 <=? u_id y.2)%Z
  else str_leb (u_name x.2) (u_name y.2).

Definition get_all_users (d : Database) : list (Z * UserRow) :=
  merge_sort (λ x y, Is_true (row_leb x y)) (map_to_list (users d)).

(** [Database.set_soldier_status] *)
Definition set_soldier_status (telegram_id : Z) (status : str)
    (location : option str) (d : Database) : bool * Database :=
  match get_user telegram_id d with
  | None => (false, d)
  | Some user =>
    let upd r := {| u_id := u_id r; u_name := u_name r;
                    u_location := location; u_status := status;
                    u_is_admin := u_is_admin r;
                    u_username := u_username r |} in
    let d := with_users (alter upd telegram_id) d in
    (true,
     log_event (Some (u_id user)) status
       (match location with
        | Some (c :: l) => Some (Text (u "Локация: " ++ c :: l))
        | _ => None
        end) d)
  end.

(** The dictionary returned by [Database.get_soldier_status]. *)
Record SoldierStatus := {
  ss_name : str; ss_status : str; ss_location : option str;
  ss_telegram_id : Z
}.

Definition get_soldier_status (telegram_id : Z) (d : Database)
    : option SoldierStatus :=
  match get_user telegram_id d with
  | None => None
  | Some user =>
    Some {| ss_name := u_name user; ss_status := u_status user;
            ss_location := u_location user;
            ss_telegram_id := telegram_id |}
  end.

(** [Database.mark_soldier_arrival] *)
Definition mark_soldier_arrival (telegram_id : Z) (d : Database) :=
  set_soldier_status telegram_id IN_UNIT None d.

(** [Database.mark_soldier_departure] *)
Definition mark_soldier_departure (telegram_id : Z) (location : str)
    (d : Database) :=
  set_soldier_status telegram_id AWAY (Some location) d.

(** [Database.mark_attendance]; [today] is [date.today()]. *)
Definition mark_attendance (today : Z) (telegram_id : Z)
    (location : option str) (d : Database) : bool * Database :=
  match get_user telegram_id d with
  | None => (false, d)
  | Some user =>
    let d := with_attendance
               (insert (u_id user, today)
                  {| a_location := location; a_status := u "present" |}) d in
    (true,
     log_event (Some (u_id user)) (u "attendance_marked")
       (Some (Text (u "Отметка: " ++
                    (if truthy location then default [] location
                     else u "не указано")))) d)
  end.

End Db.

(** *** Commander permissions *)

Definition capability_columns : list (str * bool) :=
  [ (u "can_view_personnel", true);
    (u "can_manage_personnel", false);
    (u "can_export_data", false);
    (u "can_view_journal", true);
    (u "can_clear_journal", false);
    (u "can_manage_notifications", false);
    (u "can_view_stats", true);
    (u "can_force_operations", false) ].

(** The capability columns of a fresh [commander_permissions] row.  The
    row has four more columns, [id], [user_id], [created_at] and
    [updated_at], which are no flags; see [PermissionValue]. *)
Definition default_commander_permissions : gmap str bool :=
  list_to_map capability_columns.

Definition is_capability_column (k : str) : bool :=
  bool_decide (k ∈ capability_columns.*1).

Module DbPerm.
Import Db.

(** [Database.create_default_commander_permissions] *)
Definition create_default_commander_permissions (user_id : Z)
    (d : Database) : bool * Database :=
  (true,
   with_commander_permissions
     (insert_or_ignore user_id default_commander_permissions) d).

(** [Database.get_commander_permissions]: a missing row is created and
    the query repeated.  The dictionary returned is given by its
    capability flags; its four other keys are supplied where a caller
    reads them, in [check_commander_permission]. *)
Definition get_commander_permissions (telegram_id : Z) (d : Database)
    : option (gmap str bool) * Database :=
  match get_user telegram_id d with
  | None => (None, d)
  | Some user =>
    match commander_permissions d !! u_id user with
    | Some row => (Some row, d)
    | None =>
      let d := (create_default_commander_permissions (u_id user) d).2 in
      (commander_permissions d !! u_id user, d)
    end
  end.

(** The keys that [update_commander_permissions] puts in its [SET]
    clause. *)
Definition update_fields (permissions : gmap str bool) : gmap str bool :=
  filter (λ kv, Is_true (startswith kv.1 (u "can_"))) permissions.

(** [Database.update_commander_permissions].  The result is [None] when
    the function falls off its end.  A [SET] clause naming something that
    is not a column makes SQLite reject the statement, which the function
    turns into [False].  The keys are taken to be plain names in the
    spelling of the schema: a key that SQLite would read as a column in
    another spelling (other letter case, a blank after it) or as a
    fragment of SQL is outside the model. *)
Definition update_commander_permissions (telegram_id : Z)
    (permissions : gmap str bool) (d : Database)
    : option bool * Database :=
  match get_user telegram_id d with
  | None => (Some false, d)
  | Some user =>
    let '(existing_permissions, d) :=
      get_commander_permissions telegram_id d in
    let d := match existing_permissions with
             | Some _ => d
             | None => (create_default_commander_permissions (u_id user) d).2
             end in
    let fields := update_fields permissions in
    if bool_decide (fields = ∅) then (None, d)
    else if bool_decide (map_Forall (λ k _, Is_true (is_capability_column k))
                           fields)
    then
      let d := with_commander_permissions
                 (alter (λ row, fields ∪ row) (u_id user)) d in
      (Some true,
       log_event (Some (u_id user)) (u "permissions_updated")
         (Some (PermissionsText permissions)) d)
    else (Some false, d)
  end.

(** What [check_commander_permission] returns.  Its annotation says
    [bool], but it hands back whatever the dictionary of the row holds
    under the name: the flag of a capability column, or the value of one
    of the four other columns that [SELECT *] returns.  [Flag false] is
    also the [False] of a name that is no column and of an unknown user.
    The row's own [id] and the two timestamps are values that the store of
    this model does not keep; they are named, not given. *)
Inductive PermissionValue :=
| Flag (b : bool)
| RowId
| UserId (user_id : Z)
| Timestamp (column : str).

(** The columns of [commander_permissions] that are no capability. *)
Definition other_permission_columns : list str :=
  [ u "id"; u "user_id"; u "created_at"; u "updated_at" ].

(** The truth value Python gives it: row ids count from 1 and a timestamp
    is a text that is not empty. *)
Definition permission_truth (v : PermissionValue) : bool :=
  match v with
  | Flag b => b
  | RowId => true
  | UserId user_id => negb (user_id =? 0)%Z
  | Timestamp _ => true
  end.

(** [Database.check_commander_permission] *)
Definition check_commander_permission (telegram_id : Z) (permission : str)
    (d : Database) : PermissionValue * Database :=
  let user := get_user telegram_id d in
  let '(permissions, d) := get_commander_permissions telegram_id d in
  (match permissions, user with
   | Some row, Some user =>
     if bool_decide (permission = u "id") then RowId
     else if bool_decide (permission = u "user_id") then UserId (u_id user)
     else if bool_decide (permission ∈ [u "created_at"; u "updated_at"])
     then Timestamp permission
     else Flag (default false (row !! permission))
   | _, _ => Flag false
   end, d).

End DbPerm.

(** ** Chat, conversation state and the bot *)

(** A text sent to the chat: a literal, a formatted text named by its first
    line with the values it interpolates, the listing of
    [format_users_list], or one of the configured notices with its
    fallback. *)
Inductive Msg :=
| Lit (s : string)
| Fmt (head : string) (args : list str)
| FmtCount (head : string) (count : Z)
| UsersListText (users : list (Z * UserRow)) (page total_pages : Z)
| Notice (key : string) (fallback : string).

(** The keyboards of src/keyboards.py, by the function that builds them. *)
Inductive Keyboard :=
| get_back_keyboard
| get_cancel_keyboard
| get_admin_keyboard
| get_soldier_keyboard
| get_commander_keyboard
| get_location_keyboard
| get_initial_status_keyboard
| get_personnel_keyboard
| get_danger_zone_keyboard
| get_journal_filters_keyboard
| get_text_confirmation_keyboard
| get_confirmation_keyboard (action : str)
| get_danger_confirmation_keyboard (action : str)
| get_users_pagination_keyboard (page total_pages : Z).

(** [get_main_keyboard] is [get_soldier_keyboard]. *)
Definition get_main_keyboard : Keyboard := get_soldier_keyboard.

(** The exceptions the handlers raise by themselves. *)
Inductive Exn :=
| NameError (name : string)
| UnboundLocalError (name : string)
| TypeError (what : string).

(** What a handler does to the outside: chat calls and notifications; and
    an exception that leaves the handler. *)
Inductive Effect :=
| MessageAnswer (text : Msg) (reply_markup : option Keyboard)
| EditText (text : Msg) (reply_markup : option Keyboard)
| CallbackAnswer (text : option Msg)
| MessageDelete
| AdminNotification (action : string) (details : str)
    (user_name : option str)
| EmergencyNotification (message : string)
| Uncaught (e : Exn).

(** [UserStates] of src/handlers.py *)
Inductive UserStates :=
| waiting_for_name
| waiting_for_location
| waiting_for_custom_location
| waiting_for_initial_status
| waiting_for_admin_action
| waiting_for_personnel_action
| waiting_for_settings_action
| waiting_for_confirmation
| waiting_for_danger_confirmation
| waiting_for_filter_input.

#[global] Instance UserStates_eq_dec : EqDecision UserStates.
Proof. solve_decision. Defined.

(** The keys the handlers keep in the FSM data.  [is_registration] and
    [text_confirmed] are only ever stored as [True]; [false] is the
    absent key. *)
Record FSMData := {
  user_name : option str;
  is_registration : bool;
  danger_action : option str;
  text_confirmed : bool;
  filter_type : option str
}.

Record FSMContext := {
  fsm_state : option UserStates;
  fsm_data : FSMData
}.

Definition no_data : FSMData :=
  {| user_name := None; is_registration := false; danger_action := None;
     text_confirmed := false; filter_type := None |}.

(** No conversation in progress. *)
Definition IDLE : FSMContext := {| fsm_state := None; fsm_data := no_data |}.

Record Bot := {
  db : Database;
  ADMIN_IDS : list Z;                (* config.ADMIN_IDS *)
  today : Z;                         (* date.today() *)
  storage : gmap Z FSMContext;       (* FSM storage, by user *)
  sent : list Effect                 (* oldest first *)
}.

(** Handlers are state transformers over the bot. *)
Definition M (A : Type) : Type := Bot → A * Bot.

Definition ret {A} (a : A) : M A := λ b, (a, b).

Definition bind {A B} (m : M A) (k : A → M B) : M B :=
  λ b, let '(a, b') := m b in k a b'.

Declare Scope bot_scope.
Delimit Scope bot_scope with bot.
Notation "x <- m ;; k" := (bind m (λ x, k))
  (at level 100, m at next level, right associativity) : bot_scope.
Notation "m ;;; k" := (bind m (λ _, k))
  (at level 100, right associativity) : bot_scope.
Local Open Scope bot_scope.

Definition pass : M unit := ret tt.

Definition with_db (f : Database → Database) (b : Bot) : Bot :=
  {| db := f (db b); ADMIN_IDS := ADMIN_IDS b; today := today b;
     storage := storage b; sent := sent b |}.

Definition with_storage (f : gmap Z FSMContext → gmap Z FSMContext)
    (b : Bot) : Bot :=
  {| db := db b; ADMIN_IDS := ADMIN_IDS b; today := today b;
     storage := f (storage b); sent := sent b |}.

Definition with_sent (f : list Effect → list Effect) (b : Bot) : Bot :=
  {| db := db b; ADMIN_IDS := ADMIN_IDS b; today := today b;
     storage := storage b; sent := f (sent b) |}.

(** A call into the store. *)
Definition query {A} (f : Database → A) : M A := λ b, (f (db b), b).

Definition exec {A} (f : Database → A * Database) : M A :=
  λ b, let '(a, d) := f (db b) in (a, with_db (λ _, d) b).

Definition exec_ (f : Database → Database) : M unit :=
  λ b, (tt, with_db f b).

Definition emit (e : Effect) : M unit :=
  λ b, (tt, with_sent (λ l, l ++ [e]) b).

(** The FSM context of a user. *)
Definition context (user_id : Z) (b : Bot) : FSMContext :=
  default IDLE (storage b !! user_id).

Definition get_state (user_id : Z) : M (option UserStates) :=
  λ b, (fsm_state (context user_id b), b).

Definition get_data (user_id : Z) : M FSMData :=
  λ b, (fsm_data (context user_id b), b).

Definition set_state (user_id : Z) (s : UserStates) : M unit :=
  λ b, (tt, with_storage
              (insert user_id {| fsm_state := Some s;
                                 fsm_data := fsm_data (context user_id b) |})
              b).

Definition update_data (user_id : Z) (f : FSMData → FSMData) : M unit :=
  λ b, (tt, with_storage
              (insert user_id {| fsm_state := fsm_state (context user_id b);
                                 fsm_data := f (fsm_data (context user_id b)) |})
              b).

Definition finish (user_id : Z) : M unit :=
  λ b, (tt, with_storage (delete user_id) b).

(** *** Exceptions

    The handlers of src/handlers.py refer to [admin_panel],
    [notification_system] and [dp], which the module never binds:
    [register_handlers] receives them as parameters and does nothing, and
    nothing else assigns them.  Evaluating one of these names raises
    [NameError]; the [try] of the handler, when there is one around the
    place, turns it into the handler's error reply. *)

(** A handler body, which returns or raises. *)
Definition E (A : Type) : Type := Bot → (Exn + A) * Bot.

Definition returns {A} (m : M A) : E A :=
  λ b, let '(a, b') := m b in (inr a, b').

Coercion returns : M >-> E.

Definition raise {A} (e : Exn) : E A := λ b, (inl e, b).

Definition bind_exn {A B} (m : E A) (k : A → E B) : E B :=
  λ b, match m b with
       | (inl e, b') => (inl e, b')
       | (inr a, b') => k a b'
       end.

Declare Scope exn_scope.
Delimit Scope exn_scope with exn.
Notation "x <- m ;; k" := (bind_exn m (λ x, k))
  (at level 100, m at next level, right associativity) : exn_scope.
Notation "m ;;; k" := (bind_exn m (λ _, k))
  (at level 100, right associativity) : exn_scope.

(** [try: body except Exception: handler] *)
Definition try_except (body : E unit) (handler : M unit) : M unit :=
  λ b, match body b with
       | (inl _, b') => handler b'
       | (inr _, b') => (tt, b')
       end.

(** An exception that no [try] of the handlers catches leaves the handler
    and reaches the dispatcher, which logs it; the update is over. *)
Definition uncaught (body : E unit) : M unit :=
  λ b, match body b with
       | (inl e, b') => emit (Uncaught e) b'
       | (inr _, b') => (tt, b')
       end.

(** The three unbound names.  The argument is the call the source makes
    through the name; it is never reached. *)
Definition admin_panel {A} (call : M A) : E A :=
  raise (NameError "admin_panel").

Definition notification_system {A} (call : M A) : E A :=
  raise (NameError "notification_system").

Definition dp {A} (call : M A) : E A := raise (NameError "dp").


(** ** The admin panel (src/admin.py) *)

Module AdminPanel.

(** [AdminPanel.is_admin] *)
Definition is_admin (user_id : Z) : M bool :=
  λ b, (bool_decide (user_id ∈ ADMIN_IDS b), b).

(** [NotificationSystem.send_admin_notification]: reads the notification
    settings of the admins and writes to their chats. *)
Definition send_admin_notification (action : string) (details : str)
    (user_name : option str) : M unit :=
  emit (AdminNotification action details user_name).

(** [AdminPanel.add_user] *)
Definition add_user (telegram_id : Z) (name : str) (location : option str)
    : M bool :=
  success <- exec (Db.add_user telegram_id name location None) ;;
  (if success : bool
   then send_admin_notification "user_added"
          (u "Добавлен новый боец: " ++ name) (Some name)
   else pass) ;;;
  ret success.

(** [AdminPanel.get_users_list]; a zero [per_page] raises
    [ZeroDivisionError] when there are soldiers, which the function turns
    into its fallback triple. *)
Definition get_users_list (page : Z) (per_page : Z) (d : Database)
    : list (Z * UserRow) * Z * Z :=
  let all_users := Db.get_all_users d in
  let soldiers := List.filter (λ user, negb (u_is_admin user.2)) all_users in
  let total_users := Z.of_nat (length soldiers) in
  if ((0 <? total_users) && (per_page =? 0))%Z then ([], 1, 1)%Z
  else
    let total_pages :=
      (if 0 <? total_users
       then (total_users + per_page - 1) `div` per_page else 1)%Z in
    let start_idx := ((page - 1) * per_page)%Z in
    let end_idx := (start_idx + per_page)%Z in
    (Py.slice soldiers start_idx end_idx, page, total_pages).

(** The default of [per_page]. *)
Definition per_page : Z := 8.

(** [AdminPanel.clear_events] *)
Definition clear_events (period : str) : M Z :=
  exec_ (Db.log_event None (u "journal_cleared")
           (Some (Text (u "Очищен журнал за период: " ++ period)))) ;;;
  ret 1%Z.

(** [AdminPanel.mark_all_arrived] *)
Fixpoint mark_each (today : Z) (location : str) (l : list (Z * UserRow))
    (count : Z) (d : Database) : Z * Database :=
  match l with
  | [] => (count, d)
  | user :: rest =>
    let '(ok, d) := Db.mark_attendance today user.1 (Some location) d in
    mark_each today location rest (if ok : bool then count + 1 else count)%Z d
  end.

Definition mark_all_arrived (location : str) : M Z :=
  count <- (λ b, let '(c, d) := mark_each (today b) location
                                  (Db.get_all_users (db b)) 0%Z (db b) in
                 (c, with_db (λ _, d) b)) ;;
  exec_ (Db.log_event None (u "mark_all_arrived")
           (Some (Text (u "Все отмечены прибывшими в " ++ location)))) ;;;
  send_admin_notification "admin_action"
    (u "Все бойцы отмечены прибывшими в " ++ location) None ;;;
  ret count.

(** [AdminPanel.clear_all_data] *)
Definition clear_all_data : M bool :=
  exec_ (Db.log_event None (u "clear_all_data")
           (Some (Text (u "Очищены все данные")))) ;;;
  emit (EmergencyNotification "Очищены все данные системы") ;;;
  ret true.

(** [AdminPanel.reset_settings] *)
Definition reset_settings : M bool :=
  exec_ (Db.log_event None (u "reset_settings")
           (Some (Text (u "Сброшены все настройки")))) ;;;
  ret true.

Section Callbacks.

(** The branches of [handle_callback] that serve the sections outside the
    core (dashboard, journal, settings, notifications, admins, permissions,
    monitoring, maintenance).  They run behind the admin check only. *)
Variable panel_section : str → str → M (Msg * Keyboard).

Definition outer_sections : list str :=
  [ u "dashboard"; u "journal"; u "journal_filter"; u "settings";
    u "notifications"; u "admins"; u "permissions"; u "monitoring";
    u "maintenance"; u "maintenance_confirm" ].

(** One page of the personnel listing: [get_users_list],
    [format_users_list], [get_users_pagination_keyboard]. *)
Definition users_page (page_num : Z) : M (Msg * Keyboard) :=
  r <- query (get_users_list page_num per_page) ;;
  let '(users, page, total_pages) := r in
  ret (UsersListText users page total_pages,
       get_users_pagination_keyboard page total_pages).

(** [AdminPanel.handle_callback] *)
Definition handle_callback (callback_data : str) (user_id : Z)
    : M (Msg * Keyboard) :=
  let '(action, subaction) :=
    match split_once 58 callback_data with
    | Some p => p
    | None => (callback_data, [])
    end in
  admin <- is_admin user_id ;;
  if negb admin
  then ret (Lit "❌ У вас нет доступа к админ-панели", get_back_keyboard)
  else if bool_decide (action = u "personnel") then
    if bool_decide (subaction = u "list_users") then users_page 1
    else if startswith subaction (u "list_users_") then
      match Py.int (List.last (split 95 subaction) []) with
      | Some page_num => users_page page_num
      | None => users_page 1
      end
    else ret (Lit "👥 *Управление личным составом*", get_personnel_keyboard)
  else if bool_decide (action = u "danger_zone") then
    if bool_decide (subaction = u "mark_all_arrived")
    then ret (Lit "⚠️ *ВНИМАНИЕ!*",
              get_confirmation_keyboard (u "mark_all_arrived"))
    else ret (Lit "⚠️ *Опасная зона*", get_danger_zone_keyboard)
  else if bool_decide (action = u "confirm") then
    if bool_decide (subaction = u "mark_all_arrived") then
      count <- mark_all_arrived (u "основная локация") ;;
      ret (FmtCount "✅ Все бойцы отмечены прибывшими!" count,
           get_back_keyboard)
    else ret (Lit "❌ Неизвестное действие", get_back_keyboard)
  else if bool_decide (action ∈ outer_sections)
  then panel_section action subaction
  else ret (Lit "❌ Неизвестное действие", get_back_keyboard).

End Callbacks.

End AdminPanel.

(** ** Validation (src/utils.py, src/handlers.py) *)

Definition cyrillic_upper (c : N) : bool :=
  (((1040 <=? c) && (c <=? 1071)) || (c =? 1025))%N.     (* [А-ЯЁ] *)

Definition cyrillic_lower (c : N) : bool :=
  (((1072 <=? c) && (c <=? 1103)) || (c =? 1105))%N.     (* [а-яё] *)

Fixpoint skip (p : N → bool) (s : str) : str :=
  match s with
  | [] => []
  | c :: r => if p c then skip p r else s
  end.

(** [validate_full_name]: after [strip], the pattern
    [^[А-ЯЁ][а-яё]+\s+[А-ЯЁ]\.[А-ЯЁ]\.$]. *)
Definition validate_full_name (full_name : str) : bool :=
  match full_name with
  | [] => false
  | _ :: _ =>
    match strip full_name with
    | [] => false
    | c :: r =>
      let r1 := skip cyrillic_lower r in
      let r2 := skip isspace r1 in
      cyrillic_upper c
      && bool_decide (length r1 < length r)
      && bool_decide (length r2 < length r1)
      && match r2 with
         | [a; 46; b; 46] => cyrillic_upper a && cyrillic_upper b
         | _ => false
         end%N
    end
  end.

(** One character of the class [[А-Яа-яёЁ\s\-]]. *)
Definition location_char (c : N) : bool :=
  (((1040 <=? c) && (c <=? 1103)) || (c =? 1105) || (c =? 1025)
   || isspace c || (c =? 45))%N.

(** [re.match(r'^[А-Яа-яёЁ\s\-]+$', location)] *)
Definition location_pattern (location : str) : bool :=
  match location with
  | [] => false
  | _ :: _ => forallb location_char location
  end.

(** ** Handlers (src/handlers.py) *)

Definition location_map : list (str * str) :=
  [
    (u "location_polyclinic", u "🏥 Поликлиника");
    (u "location_obrmp", u "⚓ ОБРМП");
    (u "location_kaliningrad", u "🌆 Калининград");
    (u "location_shop", u "🛍️ Магазин");
    (u "location_canteen", u "🍽️ Столовая");
    (u "location_hospital", u "🏥 Госпиталь");
    (u "location_workshop", u "⚙️ Рабочка");
    (u "location_vvk", u "🩺 ВВК");
    (u "location_mfc", u "🏛️ МФЦ");
    (u "location_patrol", u "🚓 Патруль") ].

Definition dangerous_actions : list str :=
  [ u "danger_zone:clear_all_data";
    u "danger_zone:reset_settings";
    u "danger_zone:mark_all_arrived" ].

Definition action_names : list (str * str) :=
  [ (u "clear_all_data", u "Очистка всех данных");
    (u "reset_settings", u "Сброс настроек");
    (u "mark_all_arrived", u "Отметка всех прибывшими") ].

(** [d.get(key, default)] on a dictionary literal. *)
Fixpoint dict_get (d : list (str * str)) (key default : str) : str :=
  match d with
  | [] => default
  | (k, v) :: r => if bool_decide (k = key) then v else dict_get r key default
  end.

(** The confirmation test of the dangerous-operation flow:
    [text.strip().lower() == 'да']. *)
Definition is_confirmation (text : str) : bool :=
  bool_decide (lower (strip text) = u "да").

Module Handlers.

Section Handlers.

Variable panel_section : str → str → M (Msg * Keyboard).

Local Open Scope exn_scope.

(** The keyboard of the main menu of a user: [admin_panel.is_admin] and
    the choice between the two keyboards. *)
Definition menu_keyboard (user_id : Z) : E Keyboard :=
  is_commander <- admin_panel (AdminPanel.is_admin user_id) ;;
  ret (if is_commander : bool
       then get_commander_keyboard else get_soldier_keyboard).

(** [start_command].  Only [message.delete()] is inside a [try]; the
    [NameError] of the next line leaves the handler. *)
Definition start_command (user_id : Z) : E unit :=
  emit MessageDelete ;;;
  user <- admin_panel (query (Db.get_user user_id)) ;;
  match user with
  | Some _ =>
    is_commander <- admin_panel (AdminPanel.is_admin user_id) ;;
    if is_commander : bool
    then emit (MessageAnswer (Lit "🎖️ *Меню командира*")
                 (Some get_commander_keyboard))
    else emit (MessageAnswer (Lit "🪖 *Меню солдата*")
                 (Some get_soldier_keyboard))
  | None =>
    emit (MessageAnswer (Lit "👋 *Добро пожаловать!*")
            (Some get_cancel_keyboard)) ;;;
    set_state user_id waiting_for_name
  end.

(** [handle_name_input] *)
Definition handle_name_input (user_id : Z) (username : option str)
    (name : str) : M unit :=
  try_except
    (success <- admin_panel (exec (Db.add_user user_id name None username)) ;;
     if success : bool then
       update_data user_id
         (λ data, {| user_name := Some name;
                     is_registration := is_registration data;
                     danger_action := danger_action data;
                     text_confirmed := text_confirmed data;
                     filter_type := filter_type data |}) ;;;
       emit (MessageAnswer (Fmt "✅ *Регистрация почти завершена!*" [name])
               (Some get_initial_status_keyboard)) ;;;
       set_state user_id waiting_for_initial_status
     else
       emit (MessageAnswer (Lit "❌ Ошибка регистрации. Попробуйте еще раз.")
               (Some get_cancel_keyboard)))
    (emit (MessageAnswer
             (Lit "❌ Произошла ошибка при регистрации. Попробуйте еще раз.")
             (Some get_cancel_keyboard))).

(** [handle_custom_location_input] *)
Definition handle_custom_location_input (user_id : Z) (location : str)
    : M unit :=
  try_except
    (emit MessageDelete ;;;
     if bool_decide (length location < 4) then
       emit (MessageAnswer
               (Lit "❌ Локация слишком короткая. Минимум 4 символа.")
               (Some get_cancel_keyboard))
     else if negb (location_pattern location) then
       emit (MessageAnswer
               (Lit "❌ Используйте только кириллицу для названия локации.")
               (Some get_cancel_keyboard))
     else
       data <- get_data user_id ;;
       if is_registration data then
         if negb (truthy (user_name data)) then
           emit (MessageAnswer (Lit "❌ Ошибка: имя пользователя не найдено")
                   None)
         else
           let name := default [] (user_name data) in
           success <- admin_panel
                        (exec (Db.set_soldier_status user_id AWAY
                                 (Some location))) ;;
           if success : bool then
             keyboard <- menu_keyboard user_id ;;
             emit (MessageAnswer (Fmt "🎉 *Регистрация завершена!*"
                                    [name; location]) (Some keyboard)) ;;;
             notification_system
               (AdminPanel.send_admin_notification "user_registered"
                  (u "Новый солдат зарегистрирован вне части (" ++ location
                   ++ u ")") (Some name)) ;;;
             finish user_id
           else
             emit (MessageAnswer
                     (Lit "❌ Ошибка установки статуса. Попробуйте еще раз.")
                     (Some get_cancel_keyboard))
       else
         status <- admin_panel (query (Db.get_soldier_status user_id)) ;;
         match status with
         | None =>
           emit (MessageAnswer (Lit "❌ Вы не зарегистрированы") None)
         | Some status =>
           success <- admin_panel
                        (exec (Db.mark_soldier_departure user_id location)) ;;
           if success : bool then
             keyboard <- menu_keyboard user_id ;;
             emit (MessageAnswer (Fmt "❌ *Убытие зарегистрировано!*"
                                    [Db.ss_name status; location])
                     (Some keyboard)) ;;;
             notification_system
               (AdminPanel.send_admin_notification "soldier_departed"
                  (u "Убыл в " ++ location) (Some (Db.ss_name status))) ;;;
             finish user_id
           else
             emit (MessageAnswer
                     (Lit "❌ Ошибка регистрации убытия. Попробуйте еще раз.")
                     (Some get_cancel_keyboard))
         end)
    (emit (MessageAnswer (Lit "❌ Произошла ошибка. Попробуйте еще раз.")
             (Some get_cancel_keyboard))).

(** [handle_danger_confirmation_input]: no unbound name is on its way. *)
Definition handle_danger_confirmation_input (user_id : Z) (text : str)
    : M unit :=
  (emit MessageDelete ;;;
   state_data <- get_data user_id ;;
   let action := danger_action state_data in
   if is_confirmation text then
     emit (MessageAnswer (Fmt "⚠️ **ВНИМАНИЕ!**" (option_list action))
             (Some get_text_confirmation_keyboard)) ;;;
     update_data user_id
       (λ data, {| user_name := user_name data;
                   is_registration := is_registration data;
                   danger_action := danger_action data;
                   text_confirmed := true;
                   filter_type := filter_type data |})
   else
     emit (MessageAnswer (Fmt "❌ **Операция отменена**" [text]) None) ;;;
     finish user_id)%bot.

(** [handle_filter_input]; the events found would only shape the text.
    The function has no [try] around the two queries, and the [finish()]
    call sits in the [by_action] arm. *)
Definition handle_filter_input (user_id : Z) (text : str) : E unit :=
  emit MessageDelete ;;;
  state_data <- get_data user_id ;;
  if bool_decide (filter_type state_data = Some (u "by_name")) then
    admin_panel (query events) ;;;
    emit (MessageAnswer (Fmt "📋 **Журнал событий (фильтр по ФИО)**" [text])
            (Some get_journal_filters_keyboard))
  else if bool_decide (filter_type state_data = Some (u "by_action")) then
    admin_panel (query events) ;;;
    emit (MessageAnswer
            (Fmt "📋 **Журнал событий (фильтр по действию)**" [text])
            (Some get_journal_filters_keyboard)) ;;;
    finish user_id
  else pass.

(** [handle_text_message]; it has no [try] of its own, and the call of a
    handler is the last thing it does. *)
Definition handle_text_message (user_id : Z) (username : option str)
    (text : str) : M unit :=
  (current_state <- get_state user_id ;;
   match current_state with
   | Some waiting_for_name => handle_name_input user_id username text
   | Some waiting_for_custom_location =>
     handle_custom_location_input user_id text
   | Some waiting_for_danger_confirmation =>
     handle_danger_confirmation_input user_id text
   | Some waiting_for_filter_input =>
     uncaught (handle_filter_input user_id text)
   | _ => pass
   end)%bot.

(** The [except Exception] arm of the callback handlers. *)
Definition error_alert : M unit :=
  emit (CallbackAnswer (Some (Lit "❌ Произошла ошибка"))).

(** [handle_admin_callback].  The two prompts are sent before [dp] is
    looked up.  In the [confirm_text] branch the name [get_admin_keyboard]
    is local to the function, bound by the [from keyboards import
    get_admin_keyboard] of the confirmed arm only. *)
Definition handle_admin_callback (user_id : Z) (data : str) : M unit :=
  let parts := split 58 data in
  let action := default [] (parts !! 1) in
  let subaction := if bool_decide (3 ≤ length parts)
                   then default [] (parts !! 2) else [] in
  try_except
    (if bool_decide (action = u "journal_filter")
        && bool_decide (subaction ∈ [u "by_name"; u "by_action"]) then
       emit (EditText (Fmt "🔍 **Фильтр журнала**" [subaction]) None) ;;;
       dp (set_state user_id waiting_for_filter_input) ;;;
       update_data user_id
         (λ data, {| user_name := user_name data;
                     is_registration := is_registration data;
                     danger_action := danger_action data;
                     text_confirmed := text_confirmed data;
                     filter_type := Some subaction |}) ;;;
       emit (CallbackAnswer None)
     else if bool_decide (action ++ u ":" ++ subaction ∈ dangerous_actions)
     then
       let operation := dict_get action_names subaction
                          (u "Неизвестная операция") in
       emit (EditText (Fmt "⚠️ **ОПАСНАЯ ОПЕРАЦИЯ**" [operation])
               (Some (get_danger_confirmation_keyboard subaction))) ;;;
       dp (set_state user_id waiting_for_danger_confirmation) ;;;
       update_data user_id
         (λ data, {| user_name := user_name data;
                     is_registration := is_registration data;
                     danger_action := Some operation;
                     text_confirmed := text_confirmed data;
                     filter_type := filter_type data |}) ;;;
       emit (CallbackAnswer None)
     else if bool_decide (action = u "confirm_text") then
       state_data <- dp (get_data user_id) ;;
       (if bool_decide (subaction = u "yes") && text_confirmed state_data
        then
          match danger_action state_data with
          | None => raise (TypeError "argument of type 'NoneType'")
          | Some danger_action =>
            message <-
              (if contains (u "Очистка всех данных") danger_action then
                 success <- admin_panel AdminPanel.clear_all_data ;;
                 ret (Lit (if success : bool then "✅ Все данные очищены!"
                           else "❌ Ошибка очистки данных"))
               else if contains (u "Сброс настроек") danger_action then
                 success <- admin_panel AdminPanel.reset_settings ;;
                 ret (Lit (if success : bool then "✅ Настройки сброшены!"
                           else "❌ Ошибка сброса настроек"))
               else if contains (u "Отметка всех прибывшими") danger_action
               then
                 count <- admin_panel
                            (AdminPanel.mark_all_arrived
                               (u "основная локация")) ;;
                 ret (FmtCount "✅ Все бойцы отмечены прибывшими!" count)
               else ret (Lit "❌ Неизвестная операция")) ;;
            emit (EditText message (Some get_admin_keyboard)) ;;;
            finish user_id
          end
        else raise (UnboundLocalError "get_admin_keyboard")) ;;;
       emit (CallbackAnswer None)
     else
       r <- admin_panel (AdminPanel.handle_callback panel_section data
                           user_id) ;;
       emit (EditText r.1 (Some r.2)) ;;;
       emit (CallbackAnswer None))
    error_alert.

(** [handle_arrival_callback].  The notice of a repeated arrival is built
    in a [try] of its own, whose bare [except] answers with the fixed
    text. *)
Definition handle_arrival_callback (user_id : Z) : M unit :=
  try_except
    (status <- admin_panel (query (Db.get_soldier_status user_id)) ;;
     match status with
     | None => emit (CallbackAnswer (Some (Lit "❌ Вы не зарегистрированы")))
     | Some status =>
       if bool_decide (Db.ss_status status = IN_UNIT) then
         try_except
           (notification_system (ret tt) ;;;
            emit (CallbackAnswer
                    (Some (Notice "already_in_unit"
                             "🪖 Товарищ, вы уже в расположении!"))))
           (emit (CallbackAnswer (Some (Lit "🪖 Вы уже в части!"))))
       else
         success <- admin_panel (exec (Db.mark_soldier_arrival user_id)) ;;
         if success : bool then
           keyboard <- menu_keyboard user_id ;;
           emit (EditText (Fmt "✅ *Прибытие зарегистрировано!*"
                             [Db.ss_name status]) (Some keyboard)) ;;;
           notification_system
             (AdminPanel.send_admin_notification "soldier_arrived"
                (u "Прибыл в часть") (Some (Db.ss_name status))) ;;;
           emit (CallbackAnswer (Some (Lit "✅ Прибытие зарегистрировано!")))
         else emit (CallbackAnswer (Some (Lit "❌ Ошибка регистрации")))
     end)
    error_alert.

(** [handle_departure_callback] *)
Definition handle_departure_callback (user_id : Z) : M unit :=
  try_except
    (status <- admin_panel (query (Db.get_soldier_status user_id)) ;;
     match status with
     | None => emit (CallbackAnswer (Some (Lit "❌ Вы не зарегистрированы")))
     | Some status =>
       if bool_decide (Db.ss_status status = AWAY) then
         try_except
           (notification_system (ret tt) ;;;
            emit (CallbackAnswer
                    (Some (Notice "already_away"
                             "🚪 Солдат, вы уже вне части!"))))
           (emit (CallbackAnswer (Some (Lit "🚪 Вы уже вне части!"))))
       else
         emit (EditText (Fmt "📍 *Выберите локацию убытия:*"
                           [Db.ss_name status])
                 (Some get_location_keyboard)) ;;;
         set_state user_id waiting_for_location
     end)
    error_alert.

(** [handle_my_status_callback] *)
Definition handle_my_status_callback (user_id : Z) : M unit :=
  try_except
    (status <- admin_panel (query (Db.get_soldier_status user_id)) ;;
     match status with
     | None => emit (CallbackAnswer (Some (Lit "❌ Вы не зарегистрированы")))
     | Some status =>
       keyboard <- menu_keyboard user_id ;;
       emit (EditText
               (Fmt "📊 *Ваш статус:*"
                  (Db.ss_name status :: Db.ss_status status
                   :: option_list (Db.ss_location status)))
               (Some keyboard)) ;;;
       emit (CallbackAnswer (Some (Lit "📊 Статус обновлен")))
     end)
    error_alert.

(** [handle_initial_status_callback] *)
Definition handle_initial_status_callback (user_id : Z) (status : str)
    : M unit :=
  try_except
    (data <- get_data user_id ;;
     if negb (truthy (user_name data)) then
       emit (CallbackAnswer
               (Some (Lit "❌ Ошибка: имя пользователя не найдено")))
     else
       let name := default [] (user_name data) in
       if bool_decide (status = AWAY) then
         emit (EditText (Fmt "📍 *Выберите локацию:*" [name])
                 (Some get_location_keyboard))
       else
         success <- admin_panel
                      (exec (Db.set_soldier_status user_id status None)) ;;
         if success : bool then
           keyboard <- menu_keyboard user_id ;;
           emit (EditText (Fmt "🎉 *Регистрация завершена!*" [name])
                   (Some keyboard)) ;;;
           notification_system
             (AdminPanel.send_admin_notification "user_registered"
                (u "Новый солдат зарегистрирован в части") (Some name)) ;;;
           emit (CallbackAnswer (Some (Lit "✅ Регистрация завершена!"))) ;;;
           finish user_id
         else emit (CallbackAnswer (Some (Lit "❌ Ошибка установки статуса"))))
    error_alert.

(** [handle_initial_location_callback]; its [except] arm also ends the
    conversation. *)
Definition handle_initial_location_callback (user_id : Z) (action : str)
    : M unit :=
  try_except
    (data <- get_data user_id ;;
     if negb (truthy (user_name data)) then
       emit (CallbackAnswer
               (Some (Lit "❌ Ошибка: имя пользователя не найдено")))
     else
       let name := default [] (user_name data) in
       if bool_decide (action = u "location_custom") then
         emit (EditText (Fmt "✏️ *Введите локацию:*" [name])
                 (Some get_cancel_keyboard)) ;;;
         set_state user_id waiting_for_custom_location ;;;
         update_data user_id
           (λ data, {| user_name := user_name data;
                       is_registration := true;
                       danger_action := danger_action data;
                       text_confirmed := text_confirmed data;
                       filter_type := filter_type data |})
       else if bool_decide (action = u "cancel") then
         emit (EditText (Fmt "📍 *Выберите ваш текущий статус:*" [name])
                 (Some get_initial_status_keyboard))
       else
         let location := dict_get location_map action
                           (u "Неизвестная локация") in
         success <- admin_panel
                      (exec (Db.set_soldier_status user_id AWAY
                               (Some location))) ;;
         if success : bool then
           keyboard <- menu_keyboard user_id ;;
           emit (EditText (Fmt "🎉 *Регистрация завершена!*" [name; location])
                   (Some keyboard)) ;;;
           notification_system
             (AdminPanel.send_admin_notification "user_registered"
                (u "Новый солдат зарегистрирован вне части (" ++ location
                 ++ u ")") (Some name)) ;;;
           emit (CallbackAnswer (Some (Lit "✅ Регистрация завершена!"))) ;;;
           finish user_id
         else emit (CallbackAnswer (Some (Lit "❌ Ошибка установки статуса"))))
    (error_alert ;;; finish user_id)%bot.

(** [handle_location_callback] *)
Definition handle_location_callback (user_id : Z) (action : str) : M unit :=
  try_except
    (current_state <- get_state user_id ;;
     if bool_decide (current_state = Some waiting_for_initial_status) then
       handle_initial_location_callback user_id action
     else
       status <- admin_panel (query (Db.get_soldier_status user_id)) ;;
       match status with
       | None =>
         emit (CallbackAnswer (Some (Lit "❌ Вы не зарегистрированы")))
       | Some status =>
         if bool_decide (action = u "location_custom") then
           emit (EditText (Lit "✏️ *Введите локацию убытия:*")
                   (Some get_cancel_keyboard)) ;;;
           set_state user_id waiting_for_custom_location ;;;
           emit (CallbackAnswer None)
         else if bool_decide (action = u "cancel") then
           keyboard <- menu_keyboard user_id ;;
           emit (EditText (Lit "Выберите действие:") (Some keyboard)) ;;;
           finish user_id
         else
           let location := dict_get location_map action
                             (u "Неизвестная локация") in
           success <- admin_panel
                        (exec (Db.mark_soldier_departure user_id location)) ;;
           if success : bool then
             keyboard <- menu_keyboard user_id ;;
             emit (EditText (Fmt "❌ *Убытие зарегистрировано!*"
                               [Db.ss_name status; location])
                     (Some keyboard)) ;;;
             notification_system
               (AdminPanel.send_admin_notification "soldier_departed"
                  (u "Убыл в " ++ location) (Some (Db.ss_name status))) ;;;
             emit (CallbackAnswer
                     (Some (Lit "❌ Убытие зарегистрировано!"))) ;;;
             finish user_id
           else emit (CallbackAnswer (Some (Lit "❌ Ошибка регистрации")))
       end)
    error_alert.

(** [handle_user_callback] *)
Definition handle_user_callback (user_id : Z) (data : str) : M unit :=
  let parts := split 58 data in
  let action := default [] (parts !! 1) in
  try_except
    (if bool_decide (action = u "back_to_main") then
       is_commander <- admin_panel (AdminPanel.is_admin user_id) ;;
       if is_commander : bool
       then emit (EditText (Lit "🎖️ *Меню командира*")
                    (Some get_commander_keyboard))
       else emit (EditText (Lit "🪖 *Меню солдата*")
                    (Some get_soldier_keyboard))
     else if bool_decide (action = u "arrived") then
       handle_arrival_callback user_id
     else if bool_decide (action = u "departed") then
       handle_departure_callback user_id
     else if bool_decide (action = u "my_status") then
       handle_my_status_callback user_id
     else if bool_decide (action = u "help") then
       emit (EditText (Lit "📖 *Справка по системе:*")
               (Some get_main_keyboard))
     else if startswith action (u "location_") then
       handle_location_callback user_id action
     else if bool_decide (action = u "initial_status_in_unit") then
       handle_initial_status_callback user_id IN_UNIT
     else if bool_decide (action = u "initial_status_away") then
       handle_initial_status_callback user_id AWAY
     else if bool_decide (action = u "cancel") then
       emit (EditText (Lit "❌ Действие отменено") (Some get_main_keyboard))
     else emit (CallbackAnswer (Some (Lit "❌ Неизвестное действие"))))
    error_alert.

(** [handle_callback_query]; the handlers it calls catch their own
    exceptions, so its [except] arm is not entered. *)
Definition handle_callback_query (user_id : Z) (data : str) : M unit :=
  (if startswith data (u "admin:") then handle_admin_callback user_id data
   else if startswith data (u "user:") then handle_user_callback user_id data
   else emit (CallbackAnswer (Some (Lit "❌ Неизвестный callback"))))%bot.

(** What a user sends to the bot. *)
Inductive Update :=
| Start
| TextMessage (username : option str) (text : str)
| CallbackQuery (data : str).

(** The three entry points of the module, called with an update. *)
Definition dispatch (user_id : Z) (upd : Update) : M unit :=
  match upd with
  | Start => uncaught (start_command user_id)
  | TextMessage username text => handle_text_message user_id username text
  | CallbackQuery data => handle_callback_query user_id data
  end.

(** The bot after a run of updates of one or several users. *)
Fixpoint run (l : list (Z * Update)) (b : Bot) : Bot :=
  match l with
  | [] => b
  | (user_id, upd) :: rest => run rest (dispatch user_id upd b).2
  end.

End Handlers.

End Handlers.

(** ** The status invariant and sample states *)

(** The location of a user is set exactly when the user is away. *)
Definition location_iff_away (row : UserRow) : Prop :=
  is_Some (u_location row) ↔ u_status row = AWAY.

Definition status_invariant (d : Database) : Prop :=
  map_Forall (λ _ row, location_iff_away row) (users d).

#[global] Instance location_iff_away_dec row : Decision (location_iff_away row).
Proof. unfold location_iff_away. apply _. Defined.

#[global] Instance status_invariant_dec d : Decision (status_invariant d).
Proof. unfold status_invariant. apply _. Defined.

(** A handler keeps the invariant of the store. *)
Definition preserves {A} (m : M A) : Prop :=
  ∀ b, status_invariant (db b) → status_invariant (db (m b).2).

(** A handler leaves the store as it is. *)
Definition leaves_store {A} (m : M A) : Prop := ∀ b, db (m b).2 = db b.

(** The soldiers the personnel listing pages through, and their number. *)
Definition soldiers (d : Database) : list (Z * UserRow) :=
  List.filter (λ user : Z * UserRow, negb (u_is_admin user.2))
    (Db.get_all_users d).

Definition soldiers_count (d : Database) : Z :=
  Z.of_nat (length (soldiers d)).

(** The events written by the two clearing operations. *)
Definition journal_cleared_event (period : str) : EventRow :=
  {| e_user_id := None; e_action := u "journal_cleared";
     e_details := Some (Text (u "Очищен журнал за период: " ++ period)) |}.

Definition clear_all_data_event : EventRow :=
  {| e_user_id := None; e_action := u "clear_all_data";
     e_details := Some (Text (u "Очищены все данные")) |}.

(** [b'] is [b] with one event appended to the journal and nothing else
    changed in the store, the FSM storage or the admin list. *)
Definition only_appends (ev : EventRow) (b b' : Bot) : Prop :=
  users (db b') = users (db b)
  ∧ events (db b') = events (db b) ++ [ev]
  ∧ notification_settings (db b') = notification_settings (db b)
  ∧ commander_permissions (db b') = commander_permissions (db b)
  ∧ attendance (db b') = attendance (db b)
  ∧ storage b' = storage b
  ∧ ADMIN_IDS b' = ADMIN_IDS b.

(** The two validation errors of the custom location. *)
Definition location_errors : list Msg :=
  [ Lit "❌ Локация слишком короткая. Минимум 4 символа.";
    Lit "❌ Используйте только кириллицу для названия локации." ].

Module Sample.
Import Handlers.

(** A panel whose outer sections answer with an empty text. *)
Definition no_panel : str → str → M (Msg * Keyboard) :=
  λ _ _, ret (Lit "", get_back_keyboard).

(** A fresh bot with one admin, user 1. *)
Definition bot0 : Bot :=
  {| db := empty_db; ADMIN_IDS := [1%Z]; today := 0%Z;
     storage := ∅; sent := [] |}.

(** User 42 is in the store, away at "Склад": the store after [add_user]
    and [mark_soldier_departure]. *)
Definition bot1 : Bot :=
  {| db := (Db.mark_soldier_departure 42 (u "Склад")
              (Db.add_user 42 (u "Иванов И.И.") None None empty_db).2).2;
     ADMIN_IDS := [1%Z]; today := 0%Z; storage := ∅; sent := [] |}.

(** Twenty soldiers, with the ids 101 to 120. *)
Definition db20 : Database :=
  foldl (λ d i, (Db.add_user (100 + Z.of_nat i)
                   (u "Боец " ++ [N.of_nat (1040 + i)]) None None d).2)
    empty_db (seq 1 20).

Definition bot20 : Bot :=
  {| db := db20; ADMIN_IDS := [1%Z]; today := 0%Z;
     storage := ∅; sent := [] |}.

(** User 42 is back in the unit, and the conversation of user 42 is at
    the step that waits for a typed location. *)
Definition bot_custom : Bot :=
  {| db := (Db.mark_soldier_arrival 42 (db bot1)).2;
     ADMIN_IDS := [1%Z]; today := 0%Z;
     storage := {[ 42%Z := {| fsm_state := Some waiting_for_custom_location;
                              fsm_data := no_data |} ]};
     sent := [] |}.

(** The start of a registration: the conversation of user 7 waits for
    the name. *)
Definition bot_naming : Bot :=
  {| db := empty_db; ADMIN_IDS := [1%Z]; today := 0%Z;
     storage := {[ 7%Z := {| fsm_state := Some waiting_for_name;
                             fsm_data := no_data |} ]};
     sent := [] |}.

(** Two dictionaries for [update_commander_permissions]: one with a
    capability and a key without the prefix, one with a capability and a
    prefixed key that is no column. *)
Definition permissions_with_note : gmap str bool :=
  {[ u "can_export_data" := true; u "note" := true ]}.

Definition permissions_with_can_fly : gmap str bool :=
  {[ u "can_export_data" := true; u "can_fly" := true ]}.

End Sample.


(** ** More of the store (src/database.py) *)

Module DbUsers.
Import Db.

(** [Database.update_user_name]; [cursor.rowcount > 0] exactly when a row
    has this [telegram_id]. *)
Definition update_user_name (telegram_id : Z) (new_name : str)
    (d : Database) : bool * Database :=
  match get_user telegram_id d with
  | None => (false, d)
  | Some _ =>
    let upd r := {| u_id := u_id r; u_name := new_name;
                    u_location := u_location r; u_status := u_status r;
                    u_is_admin := u_is_admin r;
                    u_username := u_username r |} in
    let d := with_users (alter upd telegram_id) d in
    match get_user telegram_id d with
    | Some user =>
      (true, log_event (Some (u_id user)) (u "name_changed")
               (Some (Text (u "Имя изменено на: " ++ new_name))) d)
    | None => (true, d)
    end
  end.

(** [Database.delete_user].  The connection never turns the enforcement of
    foreign keys on, so the rows of the other tables that refer to the user
    do not stop the [DELETE] and are not removed by it. *)
Definition delete_user (telegram_id : Z) (d : Database) : bool * Database :=
  match get_user telegram_id d with
  | None => (false, d)
  | Some user =>
    let d := with_users (delete telegram_id) d in
    (true, log_event None (u "user_deleted")
             (Some (Text (u "Удален пользователь: " ++ u_name user))) d)
  end.

(** [Database.get_total_users] *)
Definition get_total_users (d : Database) : Z := Z.of_nat (size (users d)).

(** [Database.get_present_users]: the attendance rows dated today. *)
Definition get_present_users (today : Z) (d : Database) : Z :=
  Z.of_nat (size (filter (λ kv : Z * Z * AttendanceRow, kv.1.2 = today)
                    (attendance d))).

(** [Database.get_absent_users_count] *)
Definition get_absent_users_count (today : Z) (d : Database) : Z :=
  (get_total_users d - get_present_users today d)%Z.

(** [Database.get_absent_users]: the users without an attendance row for
    today, by name. *)
Definition get_absent_users (today : Z) (d : Database)
    : list (Z * UserRow) :=
  List.filter (λ user : Z * UserRow,
                 bool_decide (attendance d !! (u_id user.2, today) = None))
    (get_all_users d).

End DbUsers.

Module DbStatus.
Import Db.

(** [Database.get_soldiers_by_status]: [WHERE status = ? AND is_admin =
    FALSE ORDER BY name]. *)
Definition get_soldiers_by_status (status : str) (d : Database)
    : list (Z * UserRow) :=
  List.filter (λ user : Z * UserRow,
                 bool_decide (u_status user.2 = status)
                 && negb (u_is_admin user.2))
    (get_all_users d).

(** [Database.get_soldiers_in_unit], [Database.get_soldiers_away] *)
Definition get_soldiers_in_unit (d : Database) :=
  get_soldiers_by_status IN_UNIT d.

Definition get_soldiers_away (d : Database) :=
  get_soldiers_by_status AWAY d.

(** [Database.get_soldiers_count_by_status] *)
Definition get_soldiers_count_by_status (status : str) (d : Database) : Z :=
  Z.of_nat (length (get_soldiers_by_status status d)).

(** The dictionary of lists built by [get_soldiers_away_by_location], in
    insertion order. *)
Fixpoint group_append (location : str) (soldier : Z * UserRow)
    (locations : list (str * list (Z * UserRow)))
    : list (str * list (Z * UserRow)) :=
  match locations with
  | [] => [(location, [soldier])]
  | (k, l) :: rest =>
    if bool_decide (k = location) then (k, l ++ [soldier]) :: rest
    else (k, l) :: group_append location soldier rest
  end.

(** [soldier.get('location') or 'не указано'] *)
Definition location_or_unspecified (soldier : Z * UserRow) : str :=
  if truthy (u_location soldier.2) then default [] (u_location soldier.2)
  else u "не указано".

(** [Database.get_soldiers_away_by_location] *)
Definition get_soldiers_away_by_location (d : Database)
    : list (str * list (Z * UserRow)) :=
  foldl (λ locations soldier,
           group_append (location_or_unspecified soldier) soldier locations)
    [] (get_soldiers_away d).

(** [Database.is_soldier_in_unit], [Database.is_soldier_away]: [None] is
    the [None] that [status and ...] gives for an unknown user. *)
Definition is_soldier_in_unit (telegram_id : Z) (d : Database)
    : option bool :=
  match get_soldier_status telegram_id d with
  | None => None
  | Some status => Some (bool_decide (ss_status status = IN_UNIT))
  end.

Definition is_soldier_away (telegram_id : Z) (d : Database) : option bool :=
  match get_soldier_status telegram_id d with
  | None => None
  | Some status => Some (bool_decide (ss_status status = AWAY))
  end.

End DbStatus.

(** The statuses the bot writes. *)
Definition known_statuses (d : Database) : Prop :=
  map_Forall (λ _ row, u_status row = IN_UNIT ∨ u_status row = AWAY)
    (users d).

Module DbNotify.
Import Db.

(** [Database.get_notification_settings]: [None] is the empty
    dictionary. *)
Definition get_notification_settings (telegram_id : Z) (d : Database)
    : option NotificationSettings :=
  match get_user telegram_id d with
  | None => None
  | Some user => notification_settings d !! u_id user
  end.

(** [Database.update_notification_settings]: every column is written,
    with the default of [settings.get] for a missing key. *)
Definition update_notification_settings (telegram_id : Z)
    (settings : gmap str bool) (d : Database) : bool * Database :=
  match get_user telegram_id d with
  | None => (false, d)
  | Some user =>
    let row := {| ns_enabled := default true (settings !! u "enabled");
                  ns_daily_summary :=
                    default true (settings !! u "daily_summary");
                  ns_reminders := default true (settings !! u "reminders");
                  ns_silent_mode :=
                    default false (settings !! u "silent_mode") |} in
    (true, with_notification_settings (alter (λ _, row) (u_id user)) d)
  end.

End DbNotify.

(** ** More of the admin panel (src/admin.py) *)




Module Admins.




(** [AdminPanel.change_user_name] *)
Definition change_user_name (telegram_id : Z) (new_name : str) : M bool :=
  success <- exec (DbUsers.update_user_name telegram_id new_name) ;;
  (if success : bool
   then AdminPanel.send_admin_notification "name_changed"
          (u "Имя изменено на: " ++ new_name) (Some new_name)
   else pass) ;;;
  ret success.

(** [AdminPanel.delete_user] *)
Definition delete_user (telegram_id : Z) : M bool :=
  user <- query (Db.get_user telegram_id) ;;
  match user with
  | None => ret false
  | Some user =>
    success <- exec (DbUsers.delete_user telegram_id) ;;
    (if success : bool
     then AdminPanel.send_admin_notification "user_deleted"
            (u "Удален боец: " ++ u_name user) (Some (u_name user))
     else pass) ;;;
    ret success
  end.

End Admins.

(** ** Configuration (src/config.py) *)

(** [x.isdigit()] *)
Definition str_isdigit (x : str) : bool :=
  match x with
  | [] => false
  | _ :: _ => forallb Py.unicode_digit x
  end.

(** [Config._parse_admin_ids] on the value of [ADMIN_IDS].  One entry that
    passes [isdigit] and that [int()] refuses makes the comprehension
    raise [ValueError], and the function returns the empty list. *)
Definition parse_admin_ids (admin_ids_str : str) : list Z :=
  if bool_decide (admin_ids_str = [])
     || bool_decide (admin_ids_str = u "YOUR_ADMIN_ID")
  then []
  else
    match mapM (λ x, Py.int (strip x))
            (List.filter (λ x, str_isdigit (strip x))
               (split 44 admin_ids_str)) with
    | Some ids => ids
    | None => []
    end.

(** ** Text helpers (src/utils.py) *)

Module Utils.

Definition LOCATIONS : list (str * str) :=
  [
    (u "🏥 Поликлиника", u "🏥");
    (u "⚓ ОБРМП", u "⚓");
    (u "🌆 Калининград", u "🌆");
    (u "🛒 Магазин", u "🛒");
    (u "🍲 Столовая", u "🍲");
    (u "🏨 Госпиталь", u "🏨");
    (u "⚙️ Рабочка", u "⚙️");
    (u "🩺 ВВК", u "🩺");
    (u "🏛️ МФЦ", u "🏛️");
    (u "🚓 Патруль", u "🚓");
    (u "📝 Другое", u "📝") ].

(** [LOCATIONS.get(location, "📍")] *)
Definition get_location_emoji (location : str) : str :=
  dict_get LOCATIONS location (u "📍").

(** [clean_location_name]: the loop over [LOCATIONS.items()]. *)
Fixpoint clean_location_loop (items : list (str * str)) (location : str)
    : str :=
  match items with
  | [] => location
  | (loc_name, emoji) :: rest =>
    if bool_decide (location = loc_name) then loc_name
    else clean_location_loop rest location
  end.

Definition clean_location_name (location : str) : str :=
  clean_location_loop LOCATIONS location.

(** [text.replace(char, by)] for a one-character [char]. *)
Definition replace_char (char : N) (by_text : str) (text : str) : str :=
  flat_map (λ x, if (x =? char)%N then by_text else [x]) text.

Definition chars_to_escape : list N :=
  [ 95; 42; 91; 93; 40; 41; 126; 96; 62; 35; 43; 45; 61; 124; 123; 125;
    46; 33 ]%N.   (* _ * [ ] ( ) ~ ` > # + - = | { } . ! *)

(** [escape_markdown] *)
Definition escape_markdown (text : str) : str :=
  foldl (λ text char, replace_char char [92%N; char] text) text
    chars_to_escape.

(** [truncate_text] *)
Definition truncate_text (text : str) (max_length : Z) : str :=
  if (Z.of_nat (length text) <=? max_length)%Z then text
  else Py.slice text 0 (max_length - 3) ++ u "...".

End Utils.


(** * Properties *)

(** ** The store *)

Lemma log_event_users uid a det d : users (Db.log_event uid a det d) = users d.
Proof. reflexivity. Qed.

Lemma log_event_events uid a det d :
  events (Db.log_event uid a det d)
  = events d ++ [ {| e_user_id := uid; e_action := a; e_details := det |} ].
Proof. reflexivity. Qed.

Lemma add_user_users telegram_id name location username d :
  users (Db.add_user telegram_id name location username d).2
  = <[telegram_id := {| u_id := next_rowid (users d); u_name := name;
                        u_location := location; u_status := IN_UNIT;
                        u_is_admin := false; u_username := username |}]>
      (users d).
Proof. reflexivity. Qed.

(** C9.  [add_user] on a registered [telegram_id] succeeds and replaces the
    row: the stored name and location are the ones supplied, the status is
    back to the default [IN_UNIT] whatever the old row held, no row is
    added and the rows of the other users stay as they were. *)
Theorem add_user_replaces_existing_row
    (d : Database) (telegram_id : Z) (name : str)
    (location username : option str) (old : UserRow) :
  Db.get_user telegram_id d = Some old →
  (Db.add_user telegram_id name location username d).1 = true
  ∧ Db.get_user telegram_id (Db.add_user telegram_id name location username d).2
    = Some {| u_id := next_rowid (users d); u_name := name;
              u_location := location; u_status := IN_UNIT;
              u_is_admin := false; u_username := username |}
  ∧ dom (users (Db.add_user telegram_id name location username d).2)
    = dom (users d)
  ∧ ∀ other, other ≠ telegram_id →
      Db.get_user other (Db.add_user telegram_id name location username d).2
      = Db.get_user other d.
Proof.
  unfold Db.get_user. intros Hold. rewrite add_user_users.
  split; [reflexivity|]. split; [apply lookup_insert_eq|].
  split.
  - rewrite dom_insert_L. apply (elem_of_dom_2 (D := gset Z)) in Hold.
    apply subseteq_union_1_L. by apply singleton_subseteq_l.
  - intros other Hne. by apply lookup_insert_ne.
Qed.

Lemma add_user_replaces_existing_row_witness :
  Db.get_user 42 (db Sample.bot1)
  = Some {| u_id := 1; u_name := u "Иванов И.И.";
            u_location := Some (u "Склад"); u_status := AWAY;
            u_is_admin := false; u_username := None |}
  ∧ Db.get_user 42
      (Db.add_user 42 (u "Петров П.П.") None None (db Sample.bot1)).2
    = Some {| u_id := next_rowid (users (db Sample.bot1));
              u_name := u "Петров П.П."; u_location := None;
              u_status := IN_UNIT; u_is_admin := false;
              u_username := None |}.
Proof.
  assert (H : Db.get_user 42 (db Sample.bot1)
              = Some {| u_id := 1; u_name := u "Иванов И.И.";
                        u_location := Some (u "Склад"); u_status := AWAY;
                        u_is_admin := false; u_username := None |}).
  { vm_compute. reflexivity. }
  split; [exact H|].
  exact (proj1 (proj2 (add_user_replaces_existing_row (db Sample.bot1) 42
                         (u "Петров П.П.") None None _ H))).
Defined.

(** C10.  [clear_events] and [clear_all_data] change nothing but the
    journal, to which each appends one event describing the clearing: the
    user rows and the earlier events are all still there, unchanged. *)
Theorem clear_operations_only_append_one_event (b : Bot) (period : str) :
  only_appends (journal_cleared_event period) b
    (AdminPanel.clear_events period b).2
  ∧ only_appends clear_all_data_event b (AdminPanel.clear_all_data b).2.
Proof. split; repeat split; reflexivity. Qed.

Lemma get_commander_permissions_creates (d : Database) (telegram_id : Z)
    (user : UserRow) :
  Db.get_user telegram_id d = Some user →
  ∃ d', DbPerm.get_commander_permissions telegram_id d
        = (Some (default default_commander_permissions
                   (commander_permissions d !! u_id user)), d')
        ∧ users d' = users d ∧ events d' = events d
        ∧ commander_permissions d'
          = insert_or_ignore (u_id user) default_commander_permissions
              (commander_permissions d).
Proof.
  intros Hu. unfold DbPerm.get_commander_permissions. rewrite Hu.
  destruct (commander_permissions d !! u_id user) as [row|] eqn:Hrow.
  - exists d. unfold insert_or_ignore. by rewrite Hrow.
  - exists (DbPerm.create_default_commander_permissions (u_id user) d).2.
    split; [|split; [reflexivity|split; [reflexivity|]]].
    + unfold DbPerm.create_default_commander_permissions,
        with_commander_permissions, insert_or_ignore.
      simpl commander_permissions. rewrite Hrow, lookup_insert_eq.
      reflexivity.
    + reflexivity.
Qed.

(** C8, as the code has it.  The keys that start with [can_] are the ones
    applied.  When there is at least one and each of them is a capability
    column, the update succeeds, sets exactly those flags to the values
    given, leaves every other flag (also those named by keys without the
    prefix) as it was, and appends exactly one [permissions_updated]
    event. *)
Theorem update_permissions_applies_prefixed_keys
    (d : Database) (telegram_id : Z) (permissions : gmap str bool)
    (user : UserRow) :
  Db.get_user telegram_id d = Some user →
  DbPerm.update_fields permissions ≠ ∅ →
  map_Forall (λ k _, Is_true (is_capability_column k))
    (DbPerm.update_fields permissions) →
  (DbPerm.update_commander_permissions telegram_id permissions d).1
  = Some true
  ∧ events (DbPerm.update_commander_permissions telegram_id permissions d).2
    = events d ++ [ {| e_user_id := Some (u_id user);
                       e_action := u "permissions_updated";
                       e_details := Some (PermissionsText permissions) |} ]
  ∧ ∃ after,
      commander_permissions
        (DbPerm.update_commander_permissions telegram_id permissions d).2
        !! u_id user = Some after
      ∧ (∀ k v, permissions !! k = Some v →
           startswith k (u "can_") = true → after !! k = Some v)
      ∧ (∀ k, permissions !! k = None ∨ startswith k (u "can_") = false →
           after !! k
           = default default_commander_permissions
               (commander_permissions d !! u_id user) !! k).
Proof.
  intros Hu Hne Hcols.
  unfold DbPerm.update_commander_permissions. rewrite Hu.
  destruct (get_commander_permissions_creates d telegram_id user Hu)
    as (d' & -> & Husers & Hev & Hperm).
  rewrite bool_decide_eq_false_2 by done.
  rewrite bool_decide_eq_true_2 by done.
  split; [reflexivity|]. split.
  { unfold snd. rewrite log_event_events. unfold with_commander_permissions.
    simpl events. by rewrite Hev. }
  exists (DbPerm.update_fields permissions
          ∪ default default_commander_permissions
              (commander_permissions d !! u_id user)).
  split.
  - unfold snd, Db.log_event, with_events, with_commander_permissions.
    simpl commander_permissions.
    rewrite lookup_alter_eq, Hperm. unfold insert_or_ignore.
    destruct (commander_permissions d !! u_id user) as [row|] eqn:Hrow.
    + by rewrite Hrow.
    + by rewrite lookup_insert_eq.
  - split.
    + intros k v Hk Hpre. apply lookup_union_Some_l.
      apply map_lookup_filter_Some. split; [done|].
      cbn [fst]. by rewrite Hpre.
    + intros k Hk. rewrite lookup_union_r; [done|].
      apply map_lookup_filter_None. destruct Hk as [Hk | Hk].
      * by left.
      * right. intros v _. cbn [fst]. rewrite Hk. intros H. exact H.
Qed.

Lemma update_permissions_applies_prefixed_keys_witness :
  (DbPerm.update_commander_permissions 42 Sample.permissions_with_note
     (db Sample.bot1)).1 = Some true
  ∧ events (DbPerm.update_commander_permissions 42
              Sample.permissions_with_note (db Sample.bot1)).2
    = events (db Sample.bot1)
      ++ [ {| e_user_id := Some 1%Z; e_action := u "permissions_updated";
              e_details := Some (PermissionsText
                                   Sample.permissions_with_note) |} ].
Proof.
  assert (Hu : Db.get_user 42 (db Sample.bot1)
               = Some {| u_id := 1; u_name := u "Иванов И.И.";
                         u_location := Some (u "Склад"); u_status := AWAY;
                         u_is_admin := false; u_username := None |}).
  { vm_compute. reflexivity. }
  assert (Hne : DbPerm.update_fields Sample.permissions_with_note ≠ ∅).
  { apply (bool_decide_eq_false _). vm_compute. reflexivity. }
  assert (Hcols : map_Forall (λ k _, Is_true (is_capability_column k))
                    (DbPerm.update_fields Sample.permissions_with_note)).
  { apply (bool_decide_unpack _). vm_compute. exact I. }
  pose proof (update_permissions_applies_prefixed_keys (db Sample.bot1) 42
                Sample.permissions_with_note _ Hu Hne Hcols) as (H1 & H2 & _).
  split; [exact H1 | exact H2].
Defined.

(** C8 as stated fails on a key that has the prefix but names no column:
    the update returns [False], the recognised key of the same dictionary
    is not applied and no event is appended. *)
Lemma unknown_capability_key_fails_the_update :
  (DbPerm.update_commander_permissions 42 Sample.permissions_with_can_fly
     (db Sample.bot1)).1 = Some false
  ∧ events (DbPerm.update_commander_permissions 42
              Sample.permissions_with_can_fly (db Sample.bot1)).2
    = events (db Sample.bot1)
  ∧ (commander_permissions
       (DbPerm.update_commander_permissions 42
          Sample.permissions_with_can_fly (db Sample.bot1)).2 !! 1%Z
     ≫= (.!! u "can_export_data")) = Some false.
Proof. vm_compute. repeat split. Qed.

(** ** The status invariant *)

Lemma in_unit_is_not_away : IN_UNIT ≠ AWAY.
Proof. intros H. vm_compute in H. discriminate. Qed.

Lemma in_unit_row_ok : ¬ is_Some (@None str) ∧ IN_UNIT ≠ AWAY.
Proof. split; [intros [? ?]; discriminate | exact in_unit_is_not_away]. Qed.

Lemma invariant_log_event uid a det d :
  status_invariant d → status_invariant (Db.log_event uid a det d).
Proof. intros H. exact H. Qed.

Lemma add_user_preserves (t : Z) (name : str) (username : option str) d :
  status_invariant d → status_invariant (Db.add_user t name None username d).2.
Proof.
  intros Hd. unfold status_invariant. rewrite add_user_users.
  apply map_Forall_insert_2; [|exact Hd].
  unfold location_iff_away. simpl u_location. simpl u_status.
  pose proof in_unit_row_ok as [H1 H2]. split; intros H; by exfalso; auto.
Qed.

Lemma set_soldier_status_users (t : Z) (status : str)
    (location : option str) d user :
  Db.get_user t d = Some user →
  users (Db.set_soldier_status t status location d).2
  = alter (λ r, {| u_id := u_id r; u_name := u_name r;
                   u_location := location; u_status := status;
                   u_is_admin := u_is_admin r;
                   u_username := u_username r |}) t (users d).
Proof. intros H. unfold Db.set_soldier_status. rewrite H. reflexivity. Qed.

Lemma set_soldier_status_unregistered (t : Z) (status : str)
    (location : option str) d :
  Db.get_user t d = None →
  Db.set_soldier_status t status location d = (false, d).
Proof. intros H. unfold Db.set_soldier_status. rewrite H. reflexivity. Qed.

Lemma set_soldier_status_preserves (t : Z) (status : str)
    (location : option str) d :
  (is_Some location ↔ status = AWAY) →
  status_invariant d →
  status_invariant (Db.set_soldier_status t status location d).2.
Proof.
  intros Hok Hd.
  destruct (Db.get_user t d) as [user|] eqn:Hu.
  - unfold status_invariant. rewrite (set_soldier_status_users _ _ _ _ _ Hu).
    apply map_Forall_lookup. intros i row Hi.
    apply lookup_alter_Some in Hi as [(-> & old & _ & ->) | (_ & Hi)].
    + exact Hok.
    + exact (map_Forall_lookup_1 _ _ _ _ Hd Hi).
  - rewrite (set_soldier_status_unregistered _ _ _ _ Hu). exact Hd.
Qed.

Lemma mark_arrival_preserves (t : Z) d :
  status_invariant d → status_invariant (Db.mark_soldier_arrival t d).2.
Proof.
  apply set_soldier_status_preserves.
  pose proof in_unit_row_ok as [H1 H2]. split; intros H; by exfalso; auto.
Qed.

Lemma mark_departure_preserves (t : Z) (location : str) d :
  status_invariant d →
  status_invariant (Db.mark_soldier_departure t location d).2.
Proof.
  apply set_soldier_status_preserves.
  split; [reflexivity | intros _; by eexists].
Qed.

Lemma mark_attendance_users today t location d :
  users (Db.mark_attendance today t location d).2 = users d.
Proof.
  unfold Db.mark_attendance. destruct (Db.get_user t d); reflexivity.
Qed.

Lemma mark_each_users today location l : ∀ count d,
  users (AdminPanel.mark_each today location l count d).2 = users d.
Proof.
  induction l as [|user rest IH]; intros count d; [reflexivity|].
  cbn [AdminPanel.mark_each].
  pose proof (mark_attendance_users today user.1 (Some location) d) as Hu.
  destruct (Db.mark_attendance today user.1 (Some location) d) as [ok d'].
  rewrite IH. exact Hu.
Qed.

(** *** The handlers and the store

    No call of the handlers reaches the store: each lies behind one of the
    unbound names. *)

Lemma leaves_store_ret {A} (a : A) : leaves_store (ret a).
Proof. by intros b. Qed.

Lemma leaves_store_bind {A B} (m : M A) (k : A → M B) :
  leaves_store m → (∀ a, leaves_store (k a)) → leaves_store (bind m k).
Proof.
  intros Hm Hk b. unfold bind. specialize (Hm b).
  destruct (m b) as [a b']. cbn [snd] in Hm. rewrite <- Hm. apply Hk.
Qed.

Lemma leaves_store_emit e : leaves_store (emit e).
Proof. by intros b. Qed.

Lemma leaves_store_get_state user_id : leaves_store (get_state user_id).
Proof. by intros b. Qed.

Lemma leaves_store_get_data user_id : leaves_store (get_data user_id).
Proof. by intros b. Qed.

Lemma leaves_store_set_state user_id s : leaves_store (set_state user_id s).
Proof. by intros b. Qed.

Lemma leaves_store_update_data user_id f :
  leaves_store (update_data user_id f).
Proof. by intros b. Qed.

Lemma leaves_store_finish user_id : leaves_store (finish user_id).
Proof. by intros b. Qed.

Lemma leaves_store_returns {A} (m : M A) :
  leaves_store m → @leaves_store (Exn + A) (returns m).
Proof.
  intros Hm b. unfold returns. specialize (Hm b).
  by destruct (m b) as [a b'].
Qed.

Lemma leaves_store_raise {A} (e : Exn) : @leaves_store (Exn + A) (raise e).
Proof. by intros b. Qed.

Lemma leaves_store_bind_exn {A B} (m : E A) (k : A → E B) :
  @leaves_store (Exn + A) m → (∀ a, @leaves_store (Exn + B) (k a)) →
  @leaves_store (Exn + B) (bind_exn m k).
Proof.
  intros Hm Hk b. unfold bind_exn. specialize (Hm b).
  destruct (m b) as [[e|a] b']; cbn [snd] in *; [exact Hm|].
  rewrite <- Hm. apply Hk.
Qed.

Lemma leaves_store_try_except (body : E unit) (handler : M unit) :
  @leaves_store (Exn + unit) body → leaves_store handler →
  leaves_store (try_except body handler).
Proof.
  intros Hb Hh b. unfold try_except. specialize (Hb b).
  destruct (body b) as [[e|a] b']; cbn [snd] in *; [|exact Hb].
  rewrite <- Hb. apply Hh.
Qed.

Lemma leaves_store_uncaught (body : E unit) :
  @leaves_store (Exn + unit) body → leaves_store (uncaught body).
Proof.
  intros Hb b. unfold uncaught. specialize (Hb b).
  by destruct (body b) as [[e|a] b'].
Qed.

(** One step of such a proof: follow the structure of the handler. *)
Ltac leave_step :=
  match goal with
  | |- leaves_store (try_except _ _) => apply leaves_store_try_except
  | |- leaves_store (uncaught _) => apply leaves_store_uncaught
  | |- leaves_store (bind_exn _ _) =>
      apply leaves_store_bind_exn; [|intros ?]
  | |- leaves_store (returns _) => apply leaves_store_returns
  | |- leaves_store (raise _) => apply leaves_store_raise
  | |- leaves_store (admin_panel _) => apply leaves_store_raise
  | |- leaves_store (notification_system _) => apply leaves_store_raise
  | |- leaves_store (dp _) => apply leaves_store_raise
  | |- leaves_store (ret _) => apply leaves_store_ret
  | |- leaves_store pass => apply leaves_store_ret
  | |- leaves_store (bind _ _) => apply leaves_store_bind; [|intros ?]
  | |- leaves_store (emit _) => apply leaves_store_emit
  | |- leaves_store Handlers.error_alert => apply leaves_store_emit
  | |- leaves_store (get_state _) => apply leaves_store_get_state
  | |- leaves_store (get_data _) => apply leaves_store_get_data
  | |- leaves_store (set_state _ _) => apply leaves_store_set_state
  | |- leaves_store (update_data _ _) => apply leaves_store_update_data
  | |- leaves_store (finish _) => apply leaves_store_finish
  | |- leaves_store (if ?c then _ else _) => destruct c
  | |- leaves_store (match ?x with _ => _ end) => destruct x
  end.

Lemma handle_name_input_leaves_store user_id username name :
  leaves_store (Handlers.handle_name_input user_id username name).
Proof. unfold Handlers.handle_name_input. repeat leave_step. Qed.

Lemma handle_custom_location_input_leaves_store user_id location :
  leaves_store (Handlers.handle_custom_location_input user_id location).
Proof.
  unfold Handlers.handle_custom_location_input, Handlers.menu_keyboard.
  cbv zeta. repeat leave_step.
Qed.

Lemma handle_danger_confirmation_input_leaves_store user_id text :
  leaves_store (Handlers.handle_danger_confirmation_input user_id text).
Proof.
  unfold Handlers.handle_danger_confirmation_input. cbv zeta.
  repeat leave_step.
Qed.

Lemma handle_filter_input_leaves_store user_id text :
  @leaves_store (Exn + unit) (Handlers.handle_filter_input user_id text).
Proof. unfold Handlers.handle_filter_input. repeat leave_step. Qed.

Lemma handle_text_message_leaves_store user_id username text :
  leaves_store (Handlers.handle_text_message user_id username text).
Proof.
  unfold Handlers.handle_text_message.
  repeat first
    [ apply handle_name_input_leaves_store
    | apply handle_custom_location_input_leaves_store
    | apply handle_danger_confirmation_input_leaves_store
    | apply handle_filter_input_leaves_store
    | leave_step ].
Qed.

Lemma handle_admin_callback_leaves_store panel_section user_id data :
  leaves_store (Handlers.handle_admin_callback panel_section user_id data).
Proof.
  unfold Handlers.handle_admin_callback. cbv zeta. repeat leave_step.
Qed.

Lemma handle_arrival_callback_leaves_store user_id :
  leaves_store (Handlers.handle_arrival_callback user_id).
Proof.
  unfold Handlers.handle_arrival_callback, Handlers.menu_keyboard.
  repeat leave_step.
Qed.

Lemma handle_departure_callback_leaves_store user_id :
  leaves_store (Handlers.handle_departure_callback user_id).
Proof. unfold Handlers.handle_departure_callback. repeat leave_step. Qed.

Lemma handle_my_status_callback_leaves_store user_id :
  leaves_store (Handlers.handle_my_status_callback user_id).
Proof.
  unfold Handlers.handle_my_status_callback, Handlers.menu_keyboard.
  repeat leave_step.
Qed.

Lemma handle_initial_status_callback_leaves_store user_id status :
  leaves_store (Handlers.handle_initial_status_callback user_id status).
Proof.
  unfold Handlers.handle_initial_status_callback, Handlers.menu_keyboard.
  cbv zeta. repeat leave_step.
Qed.

Lemma handle_initial_location_callback_leaves_store user_id action :
  leaves_store (Handlers.handle_initial_location_callback user_id action).
Proof.
  unfold Handlers.handle_initial_location_callback, Handlers.menu_keyboard.
  cbv zeta. repeat leave_step.
Qed.

Lemma handle_location_callback_leaves_store user_id action :
  leaves_store (Handlers.handle_location_callback user_id action).
Proof.
  unfold Handlers.handle_location_callback, Handlers.menu_keyboard.
  cbv zeta.
  repeat first
    [ apply handle_initial_location_callback_leaves_store | leave_step ].
Qed.

Lemma handle_user_callback_leaves_store user_id data :
  leaves_store (Handlers.handle_user_callback user_id data).
Proof.
  unfold Handlers.handle_user_callback. cbv zeta.
  repeat first
    [ apply handle_arrival_callback_leaves_store
    | apply handle_departure_callback_leaves_store
    | apply handle_my_status_callback_leaves_store
    | apply handle_location_callback_leaves_store
    | apply handle_initial_status_callback_leaves_store
    | leave_step ].
Qed.

Lemma dispatch_leaves_store panel_section user_id upd :
  leaves_store (Handlers.dispatch panel_section user_id upd).
Proof.
  destruct upd as [|username text|data]; cbn [Handlers.dispatch].
  - unfold Handlers.start_command. repeat leave_step.
  - apply handle_text_message_leaves_store.
  - unfold Handlers.handle_callback_query.
    repeat first
      [ apply handle_admin_callback_leaves_store
      | apply handle_user_callback_leaves_store
      | leave_step ].
Qed.

(** Every update the bot handles keeps the status invariant. *)
Lemma preserves_dispatch panel_section user_id upd :
  (∀ a s, preserves (panel_section a s)) →
  preserves (Handlers.dispatch panel_section user_id upd).
Proof.
  intros _ b Hb. by rewrite dispatch_leaves_store.
Qed.

(** C2, as the code has it.  The invariant "location set iff away" is kept
    by every update the bot handles (registration, arrival, departure and
    every other handler path), and in the store by [add_user] without a
    location, [mark_soldier_arrival], [mark_soldier_departure] and by
    [set_soldier_status] when its location is set exactly for [AWAY]. *)
Theorem status_invariant_is_kept
    (panel_section : str → str → M (Msg * Keyboard))
    (user_id : Z) (upd : Handlers.Update) (b : Bot) :
  (∀ a s, preserves (panel_section a s)) →
  status_invariant (db b) →
  status_invariant (db (Handlers.dispatch panel_section user_id upd b).2)
  ∧ (∀ name username,
       status_invariant (Db.add_user user_id name None username (db b)).2)
  ∧ status_invariant (Db.mark_soldier_arrival user_id (db b)).2
  ∧ (∀ location,
       status_invariant (Db.mark_soldier_departure user_id location (db b)).2)
  ∧ (∀ status location,
       (is_Some location ↔ status = AWAY) →
       status_invariant
         (Db.set_soldier_status user_id status location (db b)).2).
Proof.
  intros Hp Hb. split; [by apply preserves_dispatch|].
  split; [intros; by apply add_user_preserves|].
  split; [by apply mark_arrival_preserves|].
  split; [intros; by apply mark_departure_preserves|].
  intros; by apply set_soldier_status_preserves.
Qed.

Lemma status_invariant_is_kept_witness :
  status_invariant (db Sample.bot1)
  ∧ status_invariant
      (db (Handlers.dispatch Sample.no_panel 42
             (Handlers.CallbackQuery (u "user:arrived")) Sample.bot1).2).
Proof.
  assert (H : status_invariant (db Sample.bot1)).
  { apply (bool_decide_unpack _). vm_compute. exact I. }
  split; [exact H|].
  refine (proj1 (status_invariant_is_kept Sample.no_panel 42
                   (Handlers.CallbackQuery (u "user:arrived")) Sample.bot1
                   _ H)).
  intros a s b Hb. exact Hb.
Defined.

(** C2 as stated fails for [add_user] with a location: the row is stored
    with the default status [IN_UNIT] and the location given. *)
Lemma add_user_with_location_breaks_invariant :
  status_invariant (db Sample.bot0)
  ∧ Db.get_user 5
      (db (AdminPanel.add_user 5 (u "Иванов И.И.") (Some (u "Штаб"))
             Sample.bot0).2)
    = Some {| u_id := 1; u_name := u "Иванов И.И.";
              u_location := Some (u "Штаб"); u_status := IN_UNIT;
              u_is_admin := false; u_username := None |}
  ∧ ¬ status_invariant
        (db (AdminPanel.add_user 5 (u "Иванов И.И.") (Some (u "Штаб"))
               Sample.bot0).2).
Proof.
  split; [apply (bool_decide_unpack _); vm_compute; exact I|].
  split; [vm_compute; reflexivity|].
  apply (bool_decide_eq_false _). vm_compute. reflexivity.
Qed.

(** ** The personnel listing *)

Lemma get_users_list_default (page : Z) (d : Database) :
  AdminPanel.get_users_list page AdminPanel.per_page d
  = (Py.slice (soldiers d) ((page - 1) * 8) ((page - 1) * 8 + 8), page,
     if (0 <? soldiers_count d)%Z
     then ((soldiers_count d + 8 - 1) `div` 8)%Z else 1%Z).
Proof.
  unfold AdminPanel.get_users_list, AdminPanel.per_page, soldiers_count,
    soldiers.
  change (8 =? 0)%Z with false. rewrite andb_false_r. reflexivity.
Qed.

Lemma total_pages_is_ceiling (n : Z) :
  (0 ≤ n)%Z →
  let total_pages := (if (0 <? n)%Z then (n + 8 - 1) `div` 8 else 1)%Z in
  (1 ≤ total_pages)%Z
  ∧ (n = 0 → total_pages = 1)%Z
  ∧ (0 < n → 8 * (total_pages - 1) < n ≤ 8 * total_pages)%Z.
Proof.
  intros Hn total_pages. subst total_pages.
  destruct (Z.ltb_spec 0 n) as [Hpos | Hzero].
  - pose proof (Z.div_mod (n + 8 - 1) 8 ltac:(lia)) as Hdm.
    pose proof (Z.mod_pos_bound (n + 8 - 1) 8 ltac:(lia)) as Hmod.
    repeat split; lia.
  - repeat split; lia.
Qed.

Lemma handle_callback_personnel
    (panel_section : str → str → M (Msg * Keyboard))
    (subaction : str) (user_id : Z) (b : Bot) :
  user_id ∈ ADMIN_IDS b →
  AdminPanel.handle_callback panel_section (u "personnel:" ++ subaction)
    user_id b
  = (if bool_decide (subaction = u "list_users") then AdminPanel.users_page 1
     else if startswith subaction (u "list_users_") then
       match Py.int (List.last (split 95 subaction) []) with
       | Some page_num => AdminPanel.users_page page_num
       | None => AdminPanel.users_page 1
       end
     else ret (Lit "👥 *Управление личным составом*",
               get_personnel_keyboard)) b.
Proof.
  intros Hadmin. unfold AdminPanel.handle_callback.
  change (split_once 58 (u "personnel:" ++ subaction))
    with (Some (u "personnel", subaction)).
  unfold bind, AdminPanel.is_admin.
  rewrite (bool_decide_eq_true_2 _ Hadmin). cbn [negb].
  rewrite (bool_decide_eq_true_2 (u "personnel" = u "personnel") eq_refl).
  reflexivity.
Qed.

Lemma users_page_result (page_num : Z) (b : Bot) :
  AdminPanel.users_page page_num b
  = (let total_pages :=
       (if (0 <? soldiers_count (db b))%Z
        then ((soldiers_count (db b) + 8 - 1) `div` 8)%Z else 1%Z) in
     (UsersListText
        (Py.slice (soldiers (db b)) ((page_num - 1) * 8)
           ((page_num - 1) * 8 + 8)) page_num total_pages,
      get_users_pagination_keyboard page_num total_pages), b).
Proof.
  unfold AdminPanel.users_page, bind, query.
  rewrite get_users_list_default. reflexivity.
Qed.

(** C3, as the code has it.  For an admin and a [list_users_<suffix>]
    subaction: the number of pages is the ceiling of soldiers over the page
    size of 8, and 1 when there is no soldier (so 3 for 20 soldiers),
    whatever page is asked; a suffix that [int()] rejects shows page 1;
    a suffix that parses shows the page asked for, unchecked: the page
    number is passed through and the slice of soldiers taken by its
    bounds. *)
Theorem personnel_listing_pages
    (panel_section : str → str → M (Msg * Keyboard))
    (user_id : Z) (subaction : str) (b : Bot) :
  user_id ∈ ADMIN_IDS b →
  startswith subaction (u "list_users_") = true →
  let n := soldiers_count (db b) in
  let total_pages :=
    (AdminPanel.get_users_list 1 AdminPanel.per_page (db b)).2 in
  let token := List.last (split 95 subaction) [] in
  ((1 ≤ total_pages)%Z
   ∧ (n = 0 → total_pages = 1)%Z
   ∧ (0 < n → 8 * (total_pages - 1) < n ≤ 8 * total_pages)%Z
   ∧ (n = 20 → total_pages = 3)%Z)
  ∧ (∀ page,
       (AdminPanel.get_users_list page AdminPanel.per_page (db b)).2
       = total_pages)
  ∧ (Py.int token = None →
       AdminPanel.handle_callback panel_section
         (u "personnel:" ++ subaction) user_id b
       = AdminPanel.handle_callback panel_section
           (u "personnel:list_users") user_id b)
  ∧ (∀ page, Py.int token = Some page →
       AdminPanel.handle_callback panel_section
         (u "personnel:" ++ subaction) user_id b
       = (UsersListText
            (Py.slice (soldiers (db b)) ((page - 1) * 8)
               ((page - 1) * 8 + 8)) page total_pages,
          get_users_pagination_keyboard page total_pages, b)).
Proof.
  intros Hadmin Hpre n total_pages token.
  assert (Htp : total_pages
                = (if (0 <? n)%Z then (n + 8 - 1) `div` 8 else 1)%Z).
  { unfold total_pages. rewrite get_users_list_default. reflexivity. }
  assert (Hn : (0 ≤ n)%Z) by (unfold n, soldiers_count; lia).
  destruct (total_pages_is_ceiling n Hn) as (H1 & H0 & Hceil).
  rewrite <- Htp in H1, H0, Hceil.
  assert (Hnot : bool_decide (subaction = u "list_users") = false).
  { apply bool_decide_eq_false_2. intros ->. vm_compute in Hpre.
    discriminate. }
  split.
  { repeat split; try assumption; try (apply Hceil; assumption).
    intros H20. rewrite Htp, H20. reflexivity. }
  split.
  { intros page. rewrite get_users_list_default. symmetry. exact Htp. }
  split.
  - intros Hint.
    rewrite (handle_callback_personnel _ _ _ _ Hadmin).
    change (u "personnel:list_users") with (u "personnel:" ++ u "list_users").
    rewrite (handle_callback_personnel _ _ _ _ Hadmin).
    rewrite Hnot, Hpre. fold token. rewrite Hint.
    rewrite (bool_decide_eq_true_2 (u "list_users" = u "list_users") eq_refl).
    reflexivity.
  - intros page Hint.
    rewrite (handle_callback_personnel _ _ _ _ Hadmin).
    rewrite Hnot, Hpre. fold token. rewrite Hint.
    rewrite users_page_result. cbv zeta. unfold n in Htp. rewrite <- Htp.
    reflexivity.
Qed.

Lemma personnel_listing_pages_witness :
  (AdminPanel.get_users_list 1 AdminPanel.per_page (db Sample.bot20)).2
  = 3%Z
  ∧ AdminPanel.handle_callback Sample.no_panel
      (u "personnel:" ++ u "list_users_info") 1 Sample.bot20
    = AdminPanel.handle_callback Sample.no_panel
        (u "personnel:list_users") 1 Sample.bot20
  ∧ AdminPanel.handle_callback Sample.no_panel
      (u "personnel:" ++ (u "list_users_" ++ [28; 50]%N)) 1 Sample.bot20
    = AdminPanel.handle_callback Sample.no_panel
        (u "personnel:list_users") 1 Sample.bot20.
Proof.
  assert (Hadmin : (1 : Z) ∈ ADMIN_IDS Sample.bot20).
  { apply (bool_decide_unpack _). vm_compute. exact I. }
  assert (Hpre : startswith (u "list_users_info") (u "list_users_") = true).
  { vm_compute. reflexivity. }
  assert (Hpre' : startswith (u "list_users_" ++ [28; 50]%N)
                    (u "list_users_") = true).
  { vm_compute. reflexivity. }
  pose proof (personnel_listing_pages Sample.no_panel 1
                (u "list_users_info") Sample.bot20 Hadmin Hpre)
    as ((_ & _ & _ & H20) & _ & Hfallback & _).
  pose proof (personnel_listing_pages Sample.no_panel 1
                (u "list_users_" ++ [28; 50]%N) Sample.bot20 Hadmin Hpre')
    as (_ & _ & Hseparator & _).
  split; [apply H20; vm_compute; reflexivity|].
  split; [apply Hfallback; vm_compute; reflexivity|].
  apply Hseparator. vm_compute. reflexivity.
Defined.

(** C3 as stated fails for the numeric pages out of range: with 20
    soldiers, page 99 and page 0 are shown as asked, with no soldier on
    them, and not as page 1. *)
Lemma out_of_range_page_is_not_page_1 :
  soldiers_count (db Sample.bot20) = 20%Z
  ∧ (AdminPanel.handle_callback Sample.no_panel
       (u "personnel:list_users_99") 1 Sample.bot20).1
    = (UsersListText [] 99 3, get_users_pagination_keyboard 99 3)
  ∧ (AdminPanel.handle_callback Sample.no_panel
       (u "personnel:list_users_0") 1 Sample.bot20).1
    = (UsersListText [] 0 3, get_users_pagination_keyboard 0 3)
  ∧ (AdminPanel.handle_callback Sample.no_panel
       (u "personnel:list_users") 1 Sample.bot20).1.2
    = get_users_pagination_keyboard 1 3.
Proof. vm_compute. repeat split. Qed.

(** ** Arrival *)

Lemma set_soldier_status_registered (t : Z) (status : str)
    (location : option str) (d : Database) (user : UserRow) :
  Db.get_user t d = Some user →
  Db.set_soldier_status t status location d
  = (true,
     Db.log_event (Some (u_id user)) status
       (match location with
        | Some (c :: l) => Some (Text (u "Локация: " ++ c :: l))
        | _ => None
        end)
       (with_users
          (alter (λ r, {| u_id := u_id r; u_name := u_name r;
                          u_location := location; u_status := status;
                          u_is_admin := u_is_admin r;
                          u_username := u_username r |}) t) d)).
Proof. intros Hu. unfold Db.set_soldier_status. by rewrite Hu. Qed.

Lemma mark_arrival_result (user_id : Z) (d : Database) (row : UserRow) :
  Db.get_user user_id d = Some row →
  events (Db.mark_soldier_arrival user_id d).2
  = events d ++ [ {| e_user_id := Some (u_id row); e_action := IN_UNIT;
                     e_details := None |} ]
  ∧ Db.get_user user_id (Db.mark_soldier_arrival user_id d).2
    = Some {| u_id := u_id row; u_name := u_name row; u_location := None;
              u_status := IN_UNIT; u_is_admin := u_is_admin row;
              u_username := u_username row |}.
Proof.
  intros Hu. unfold Db.mark_soldier_arrival. split.
  - unfold Db.set_soldier_status. rewrite Hu. reflexivity.
  - unfold Db.get_user in *.
    rewrite (set_soldier_status_users _ _ _ _ _ Hu).
    rewrite lookup_alter_eq, Hu. reflexivity.
Qed.

(** The arrival button ends in the handler's [except] arm for every
    caller: the status is asked through [admin_panel]. *)
Lemma arrival_callback_alerts (user_id : Z) (b : Bot) :
  Handlers.handle_arrival_callback user_id b
  = (tt, with_sent
           (λ l, l ++ [CallbackAnswer (Some (Lit "❌ Произошла ошибка"))])
           b).
Proof. reflexivity. Qed.

(** C5 on the code.  The arrival action is [handle_arrival_callback]; it
    answers every caller with the error alert and writes nothing, so a
    soldier who is already in the unit gets no already-in-unit notice,
    and two arrivals in a row of a soldier who is away write no event at
    all instead of one: user 42 is away before and after.  The check that
    would make the second arrival a notice is in the handler only:
    [mark_soldier_arrival] itself writes one event on every call. *)
Theorem arrival_button_only_alerts :
  (∀ user_id b,
     Handlers.handle_arrival_callback user_id b
     = (tt, with_sent
              (λ l, l ++ [CallbackAnswer
                            (Some (Lit "❌ Произошла ошибка"))]) b))
  ∧ Db.get_soldier_status 42 (db Sample.bot1)
    = Some {| Db.ss_name := u "Иванов И.И."; Db.ss_status := AWAY;
              Db.ss_location := Some (u "Склад");
              Db.ss_telegram_id := 42 |}
  ∧ Handlers.run Sample.no_panel
      [ (42, Handlers.CallbackQuery (u "user:arrived"));
        (42, Handlers.CallbackQuery (u "user:arrived")) ]%Z Sample.bot1
    = with_sent
        (λ l, l ++ [ CallbackAnswer (Some (Lit "❌ Произошла ошибка"));
                     CallbackAnswer (Some (Lit "❌ Произошла ошибка")) ])
        Sample.bot1
  ∧ (∀ user_id d row,
       Db.get_user user_id d = Some row →
       events (Db.mark_soldier_arrival user_id
                 (Db.mark_soldier_arrival user_id d).2).2
       = events d
         ++ [ {| e_user_id := Some (u_id row); e_action := IN_UNIT;
                 e_details := None |};
              {| e_user_id := Some (u_id row); e_action := IN_UNIT;
                 e_details := None |} ]).
Proof.
  split; [exact arrival_callback_alerts|].
  split; [vm_compute; reflexivity|].
  split; [vm_compute; reflexivity|].
  intros user_id d row Hu.
  destruct (mark_arrival_result user_id d row Hu) as [Hev Hrow].
  destruct (mark_arrival_result user_id _ _ Hrow) as [Hev' _].
  rewrite Hev', Hev. cbn [u_id]. by rewrite <- (assoc_L (++)).
Qed.

(** ** Text input *)

Lemma bad_character_fails_pattern (location : str) (c : N) :
  c ∈ location → location_char c = false →
  location_pattern location = false.
Proof.
  intros Hin Hc. unfold location_pattern.
  destruct location as [|x l]; [reflexivity|].
  apply not_true_is_false. intros Hall.
  rewrite forallb_forall in Hall.
  apply list_elem_of_In in Hin. rewrite (Hall c Hin) in Hc. discriminate.
Qed.

(** C7, as the code has it.  While the bot waits for a custom location, a
    text shorter than 4 characters or holding a character outside the
    class of the pattern (Cyrillic letters, white space of any kind,
    hyphen) is answered with one of the two validation errors and the
    cancel keyboard; the store is not touched and the conversation stays
    at the same step with the same data. *)
Theorem invalid_custom_location_is_rejected
    (user_id : Z) (username : option str) (location : str) (b : Bot) :
  fsm_state (context user_id b) = Some waiting_for_custom_location →
  length location < 4 ∨ (∃ c, c ∈ location ∧ location_char c = false) →
  ∃ error, error ∈ location_errors
    ∧ Handlers.handle_text_message user_id username location b
      = (tt, with_sent
               (λ l, (l ++ [MessageDelete])
                     ++ [MessageAnswer error (Some get_cancel_keyboard)]) b)
    ∧ db (Handlers.handle_text_message user_id username location b).2 = db b
    ∧ context user_id
        (Handlers.handle_text_message user_id username location b).2
      = context user_id b.
Proof.
  intros Hstate Hbad.
  assert (Hrun : ∃ error, error ∈ location_errors
    ∧ Handlers.handle_text_message user_id username location b
      = (tt, with_sent
               (λ l, (l ++ [MessageDelete])
                     ++ [MessageAnswer error (Some get_cancel_keyboard)]) b)).
  { unfold Handlers.handle_text_message, bind, get_state.
    rewrite Hstate.
    unfold Handlers.handle_custom_location_input, try_except, bind_exn,
      returns, emit.
    cbn [snd fst].
    destruct (bool_decide_reflect (length location < 4)) as [Hshort | Hlong].
    - eexists. split; [|reflexivity]. apply list_elem_of_here.
    - destruct Hbad as [Hshort | (c & Hin & Hc)]; [contradiction|].
      rewrite (bad_character_fails_pattern _ _ Hin Hc). cbn [negb].
      eexists. split; [|reflexivity].
      apply list_elem_of_further, list_elem_of_here. }
  destruct Hrun as (error & Herr & Hrun).
  exists error. rewrite Hrun. repeat split; assumption.
Qed.

Lemma invalid_custom_location_is_rejected_witness :
  fsm_state (context 42 Sample.bot_custom)
  = Some waiting_for_custom_location
  ∧ db (Handlers.handle_text_message 42 None (u " Штаб123")
          Sample.bot_custom).2 = db Sample.bot_custom
  ∧ context 42
      (Handlers.handle_text_message 42 None (u " Штаб123")
         Sample.bot_custom).2
    = context 42 Sample.bot_custom.
Proof.
  assert (Hstate : fsm_state (context 42 Sample.bot_custom)
                   = Some waiting_for_custom_location).
  { vm_compute. reflexivity. }
  assert (Hbad : length (u " Штаб123") < 4
                 ∨ ∃ c, c ∈ u " Штаб123" ∧ location_char c = false).
  { right. exists 49%N. split; [|vm_compute; reflexivity].
    apply (bool_decide_unpack _). vm_compute. exact I. }
  destruct (invalid_custom_location_is_rejected 42 None (u " Штаб123")
              Sample.bot_custom Hstate Hbad) as (error & _ & _ & Hdb & Hctx).
  split; [exact Hstate|]. split; [exact Hdb | exact Hctx].
Defined.

(** C7 as stated fails for white space that is no space.  The text
    "Шта<TAB>б" holds a tabulator, which is neither a letter, nor a space,
    nor a hyphen; it passes both checks of the handler, and the answer is
    not one of the two validation errors. *)
Lemma tabulator_passes_the_location_checks :
  (9%N ∈ u "Шта" ++ [9%N] ++ u "б")
  ∧ bool_decide (length (u "Шта" ++ [9%N] ++ u "б") < 4) = false
  ∧ location_pattern (u "Шта" ++ [9%N] ++ u "б") = true
  ∧ Handlers.handle_text_message 42 None (u "Шта" ++ [9%N] ++ u "б")
      Sample.bot_custom
    = (tt, with_sent
             (λ l, l ++ [ MessageDelete;
                          MessageAnswer
                            (Lit "❌ Произошла ошибка. Попробуйте еще раз.")
                            (Some get_cancel_keyboard) ])
             Sample.bot_custom)
  ∧ (Lit "❌ Произошла ошибка. Попробуйте еще раз." ∉ location_errors).
Proof.
  split; [apply (bool_decide_unpack _); vm_compute; exact I|].
  split; [vm_compute; reflexivity|].
  split; [vm_compute; reflexivity|].
  split; [vm_compute; reflexivity|].
  intros H. unfold location_errors in H.
  repeat (apply elem_of_cons in H as [H|H]; [discriminate|]).
  by apply elem_of_nil in H.
Qed.

(** ** Authorization *)

(** [AdminPanel.handle_callback] checks the caller before anything else: a
    caller outside [ADMIN_IDS] gets the denial and the back keyboard, and
    the bot is left as it was. *)
Lemma handle_callback_denies_non_admin
    (panel_section : str → str → M (Msg * Keyboard))
    (callback_data : str) (user_id : Z) (b : Bot) :
  user_id ∉ ADMIN_IDS b →
  AdminPanel.handle_callback panel_section callback_data user_id b
  = (Lit "❌ У вас нет доступа к админ-панели", get_back_keyboard, b).
Proof.
  intros Hno. unfold AdminPanel.handle_callback.
  destruct (match split_once 58 callback_data with
            | Some p => p
            | None => (callback_data, [])
            end) as [action subaction].
  unfold bind, AdminPanel.is_admin.
  rewrite (bool_decide_eq_false_2 _ Hno). reflexivity.
Qed.

(** What [handle_admin_callback] does, for every caller and every callback
    data.  Each of its four branches meets a name that is bound nowhere in
    the module ([dp] in the first three, [admin_panel] in the last), so the
    handler ends in its [except] arm: the two prompts that are sent before
    [dp] is looked up are still shown, and then the error alert.  The
    handler changes neither the store nor a conversation, and
    [AdminPanel.handle_callback] is not entered. *)
Lemma admin_callback_result
    (panel_section : str → str → M (Msg * Keyboard))
    (user_id : Z) (data : str) (b : Bot) :
  let parts := split 58 data in
  let action := default [] (parts !! 1) in
  let subaction := if bool_decide (3 ≤ length parts)
                   then default [] (parts !! 2) else [] in
  Handlers.handle_admin_callback panel_section user_id data b
  = (tt, with_sent
           (λ l, l ++ (if bool_decide (action = u "journal_filter")
                          && bool_decide
                               (subaction ∈ [u "by_name"; u "by_action"])
                       then [EditText (Fmt "🔍 **Фильтр журнала**" [subaction])
                               None]
                       else if bool_decide
                                 (action ++ u ":" ++ subaction
                                  ∈ dangerous_actions)
                       then [EditText
                               (Fmt "⚠️ **ОПАСНАЯ ОПЕРАЦИЯ**"
                                  [dict_get action_names subaction
                                     (u "Неизвестная операция")])
                               (Some (get_danger_confirmation_keyboard
                                        subaction))]
                       else [])
                      ++ [CallbackAnswer (Some (Lit "❌ Произошла ошибка"))])
           b).
Proof.
  intros parts action subaction.
  unfold Handlers.handle_admin_callback. cbv zeta.
  fold parts. fold action. fold subaction.
  destruct (bool_decide (action = u "journal_filter")
            && bool_decide (subaction ∈ [u "by_name"; u "by_action"])).
  { unfold try_except, bind_exn, returns, dp, raise, Handlers.error_alert.
    unfold emit, with_sent. cbn [fst snd sent db ADMIN_IDS today storage].
    by rewrite <- (assoc_L (++)). }
  destruct (bool_decide (action ++ u ":" ++ subaction ∈ dangerous_actions)).
  { unfold try_except, bind_exn, returns, dp, raise, Handlers.error_alert.
    unfold emit, with_sent. cbn [fst snd sent db ADMIN_IDS today storage].
    by rewrite <- (assoc_L (++)). }
  destruct (bool_decide (action = u "confirm_text")); reflexivity.
Qed.

(** C1 on the code.  A command of the admin namespace is routed to
    [handle_admin_callback], whoever sends it.  The caller's admin flag is
    checked in [AdminPanel.handle_callback] only, and the handler never
    gets there: it is answered with the error alert, after the filter
    prompt or the prompt of the dangerous operation where the command asks
    for one.  So a caller who is no admin is not sent the denial with the
    back keyboard, although the panel would return exactly that; the
    store, and with it the journal, and the conversations are as
    before. *)
Theorem admin_command_is_answered_with_the_error_alert
    (panel_section : str → str → M (Msg * Keyboard))
    (user_id : Z) (data : str) (b : Bot) :
  startswith data (u "admin:") = true →
  user_id ∉ ADMIN_IDS b →
  let parts := split 58 data in
  let action := default [] (parts !! 1) in
  let subaction := if bool_decide (3 ≤ length parts)
                   then default [] (parts !! 2) else [] in
  let prompt :=
    if bool_decide (action = u "journal_filter")
       && bool_decide (subaction ∈ [u "by_name"; u "by_action"])
    then [EditText (Fmt "🔍 **Фильтр журнала**" [subaction]) None]
    else if bool_decide (action ++ u ":" ++ subaction ∈ dangerous_actions)
    then [EditText
            (Fmt "⚠️ **ОПАСНАЯ ОПЕРАЦИЯ**"
               [dict_get action_names subaction (u "Неизвестная операция")])
            (Some (get_danger_confirmation_keyboard subaction))]
    else [] in
  Handlers.dispatch panel_section user_id (Handlers.CallbackQuery data) b
  = (tt, with_sent
           (λ l, l ++ prompt
                   ++ [CallbackAnswer (Some (Lit "❌ Произошла ошибка"))]) b)
  ∧ (EditText (Lit "❌ У вас нет доступа к админ-панели")
       (Some get_back_keyboard)
     ∉ sent (Handlers.dispatch panel_section user_id
               (Handlers.CallbackQuery data) (with_sent (λ _, []) b)).2)
  ∧ AdminPanel.handle_callback panel_section data user_id b
    = (Lit "❌ У вас нет доступа к админ-панели", get_back_keyboard, b)
  ∧ events (db (Handlers.dispatch panel_section user_id
                  (Handlers.CallbackQuery data) b).2)
    = events (db b).
Proof.
  intros Hadmin Hno parts action subaction prompt.
  assert (Hrun : ∀ b',
    Handlers.dispatch panel_section user_id (Handlers.CallbackQuery data) b'
    = (tt, with_sent
             (λ l, l ++ prompt
                     ++ [CallbackAnswer (Some (Lit "❌ Произошла ошибка"))])
             b')).
  { intros b'. unfold Handlers.dispatch, Handlers.handle_callback_query.
    rewrite Hadmin. apply admin_callback_result. }
  split; [apply Hrun|].
  split.
  - rewrite Hrun. cbn [snd sent with_sent app].
    intros Hin. apply elem_of_app in Hin as [Hin | Hin].
    + subst prompt.
      destruct (bool_decide (action = u "journal_filter")
                && bool_decide (subaction ∈ [u "by_name"; u "by_action"])).
      { apply list_elem_of_singleton in Hin. discriminate. }
      destruct (bool_decide
                  (action ++ u ":" ++ subaction ∈ dangerous_actions)).
      { apply list_elem_of_singleton in Hin. discriminate. }
      by apply elem_of_nil in Hin.
    + apply list_elem_of_singleton in Hin. discriminate.
  - split; [exact (handle_callback_denies_non_admin _ _ _ _ Hno)|].
    rewrite Hrun. reflexivity.
Qed.

Lemma admin_command_is_answered_with_the_error_alert_witness :
  startswith (u "admin:personnel:list_users") (u "admin:") = true
  ∧ ((7 : Z) ∉ ADMIN_IDS Sample.bot1)
  ∧ Handlers.dispatch Sample.no_panel 7
      (Handlers.CallbackQuery (u "admin:personnel:list_users")) Sample.bot1
    = (tt, with_sent
             (λ l, l ++ [CallbackAnswer (Some (Lit "❌ Произошла ошибка"))])
             Sample.bot1)
  ∧ AdminPanel.handle_callback Sample.no_panel
      (u "admin:personnel:list_users") 7 Sample.bot1
    = (Lit "❌ У вас нет доступа к админ-панели", get_back_keyboard,
       Sample.bot1).
Proof.
  assert (Hadmin : startswith (u "admin:personnel:list_users") (u "admin:")
                   = true).
  { vm_compute. reflexivity. }
  assert (Hno : (7 : Z) ∉ ADMIN_IDS Sample.bot1).
  { apply (bool_decide_unpack _). vm_compute. exact I. }
  pose proof (admin_command_is_answered_with_the_error_alert Sample.no_panel
                7 (u "admin:personnel:list_users") Sample.bot1 Hadmin Hno)
    as Hthm.
  cbv zeta in Hthm. destruct Hthm as (Hrun & _ & Hpanel & _).
  split; [exact Hadmin|]. split; [exact Hno|].
  split; [|exact Hpanel].
  rewrite Hrun. vm_compute. reflexivity.
Defined.

(** ** Registration *)

(** [handle_name_input] asks [admin_panel] for the store first, for every
    text: the handler ends in its [except] arm. *)
Lemma name_input_result
    (user_id : Z) (username : option str) (name : str) (b : Bot) :
  Handlers.handle_name_input user_id username name b
  = (tt, with_sent
           (λ l, l ++ [MessageAnswer
                         (Lit "❌ Произошла ошибка при регистрации. Попробуйте еще раз.")
                         (Some get_cancel_keyboard)]) b).
Proof. reflexivity. Qed.

(** C4.  At the name step a text that does not match the name format
    creates no user and does not move the conversation: the text is
    answered with the registration error and the cancel keyboard, the
    store is the same, and the conversation still waits for the name with
    the same data. *)
Theorem malformed_name_creates_no_user
    (user_id : Z) (username : option str) (name : str) (b : Bot) :
  fsm_state (context user_id b) = Some waiting_for_name →
  validate_full_name name = false →
  Handlers.handle_text_message user_id username name b
  = (tt, with_sent
           (λ l, l ++ [MessageAnswer
                         (Lit "❌ Произошла ошибка при регистрации. Попробуйте еще раз.")
                         (Some get_cancel_keyboard)]) b)
  ∧ db (Handlers.handle_text_message user_id username name b).2 = db b
  ∧ Db.get_user user_id
      (db (Handlers.handle_text_message user_id username name b).2)
    = Db.get_user user_id (db b)
  ∧ context user_id
      (Handlers.handle_text_message user_id username name b).2
    = context user_id b.
Proof.
  intros Hstate _.
  assert (Hrun : Handlers.handle_text_message user_id username name b
                 = Handlers.handle_name_input user_id username name b).
  { unfold Handlers.handle_text_message, bind, get_state.
    rewrite Hstate. reflexivity. }
  rewrite Hrun, name_input_result. repeat split.
Qed.

Lemma malformed_name_creates_no_user_witness :
  fsm_state (context 7 Sample.bot_naming) = Some waiting_for_name
  ∧ validate_full_name (u "abc") = false
  ∧ Db.get_user 7
      (db (Handlers.handle_text_message 7 None (u "abc")
             Sample.bot_naming).2)
    = None
  ∧ context 7
      (Handlers.handle_text_message 7 None (u "abc") Sample.bot_naming).2
    = context 7 Sample.bot_naming.
Proof.
  assert (Hstate : fsm_state (context 7 Sample.bot_naming)
                   = Some waiting_for_name).
  { vm_compute. reflexivity. }
  assert (Hname : validate_full_name (u "abc") = false).
  { vm_compute. reflexivity. }
  destruct (malformed_name_creates_no_user 7 None (u "abc")
              Sample.bot_naming Hstate Hname) as (_ & _ & Huser & Hctx).
  split; [exact Hstate|]. split; [exact Hname|].
  split; [|exact Hctx].
  rewrite Huser. vm_compute. reflexivity.
Defined.

(** ** The dangerous-operation flow *)

Lemma context_insert (user_id : Z) (c : FSMContext) (b : Bot) :
  context user_id (with_storage (insert user_id c) b) = c.
Proof.
  unfold context, with_storage. cbn [storage].
  rewrite lookup_insert_eq. reflexivity.
Qed.

Lemma context_delete (user_id : Z) (b : Bot) :
  context user_id (with_storage (delete user_id) b) = IDLE.
Proof.
  unfold context, with_storage. cbn [storage].
  rewrite lookup_delete_eq. reflexivity.
Qed.

(** Step 1: any text that is not the confirmation ends the flow; nothing
    is run and the conversation is back to [IDLE]. *)
Lemma other_text_cancels_danger_flow
    (user_id : Z) (username : option str) (text : str) (b : Bot) :
  fsm_state (context user_id b) = Some waiting_for_danger_confirmation →
  is_confirmation text = false →
  db (Handlers.handle_text_message user_id username text b).2 = db b
  ∧ context user_id (Handlers.handle_text_message user_id username text b).2
    = IDLE.
Proof.
  intros Hstate Htext. unfold Handlers.handle_text_message, bind, get_state.
  rewrite Hstate.
  cbv beta iota zeta delta
    [Handlers.handle_danger_confirmation_input bind emit get_data finish
     fst snd].
  rewrite Htext. split; [reflexivity|]. apply context_delete.
Qed.

(** Step 1: the confirmation keeps the step and records it. *)
Lemma confirmation_text_is_recorded
    (user_id : Z) (username : option str) (text : str) (b : Bot) :
  fsm_state (context user_id b) = Some waiting_for_danger_confirmation →
  is_confirmation text = true →
  db (Handlers.handle_text_message user_id username text b).2 = db b
  ∧ fsm_state
      (context user_id (Handlers.handle_text_message user_id username text b).2)
    = Some waiting_for_danger_confirmation
  ∧ text_confirmed
      (fsm_data
         (context user_id
            (Handlers.handle_text_message user_id username text b).2))
    = true.
Proof.
  intros Hstate Htext. unfold Handlers.handle_text_message, bind, get_state.
  rewrite Hstate.
  cbv beta iota zeta delta
    [Handlers.handle_danger_confirmation_input bind emit get_data
     update_data fst snd].
  rewrite Htext. split; [reflexivity|].
  rewrite context_insert. split; [exact Hstate | reflexivity].
Qed.

(** Step 2: a button of the confirmation keyboard is answered with the
    error alert only, whatever the conversation holds: the branch starts
    with [dp]. *)
Lemma confirm_button_result
    (panel_section : str → str → M (Msg * Keyboard))
    (user_id : Z) (button : str) (b : Bot) :
  Handlers.handle_admin_callback panel_section user_id
    (u "admin:confirm_text:" ++ button) b
  = (tt, with_sent
           (λ l, l ++ [CallbackAnswer (Some (Lit "❌ Произошла ошибка"))]) b).
Proof.
  pose proof (admin_callback_result panel_section user_id
                (u "admin:confirm_text:" ++ button) b) as H.
  cbv zeta in H.
  change (split 58 (u "admin:confirm_text:" ++ button))
    with (u "admin" :: u "confirm_text" :: split 58 button) in H.
  change (default [] ((u "admin" :: u "confirm_text" :: split 58 button)
                      !! 1))
    with (u "confirm_text") in H.
  change (bool_decide (u "confirm_text" = u "journal_filter")) with false
    in H.
  cbn [andb] in H.
  rewrite bool_decide_eq_false_2 in H.
  2:{ unfold dangerous_actions. intros Hin.
      repeat (apply elem_of_cons in Hin as [Hin | Hin];
              [vm_compute in Hin; discriminate|]).
      by apply elem_of_nil in Hin. }
  exact H.
Qed.

(** C6 on the code.  Step 1 is as described: at the confirmation step a
    text that is not the confirmation runs nothing and ends the
    conversation, and the confirmation is recorded.  Step 2 is not: each
    button of the confirmation keyboard, cancel as well as confirm, is
    answered with the error alert and changes nothing, so cancel does not
    bring a conversation at the confirmation step back to [IDLE] and
    confirm runs nothing.  The step itself is not reached: the command
    that opens the flow shows the prompt and is answered with the error
    alert before the step is set.  An admin who opens "clear all data",
    types the confirmation and presses confirm has run the operation not
    once but never: the journal is as before. *)
Theorem confirmed_operation_is_never_run :
  (∀ user_id username text b,
     fsm_state (context user_id b) = Some waiting_for_danger_confirmation →
     is_confirmation text = false →
     db (Handlers.handle_text_message user_id username text b).2 = db b
     ∧ context user_id
         (Handlers.handle_text_message user_id username text b).2 = IDLE)
  ∧ (∀ user_id username text b,
       fsm_state (context user_id b) = Some waiting_for_danger_confirmation →
       is_confirmation text = true →
       db (Handlers.handle_text_message user_id username text b).2 = db b
       ∧ fsm_state
           (context user_id
              (Handlers.handle_text_message user_id username text b).2)
         = Some waiting_for_danger_confirmation
       ∧ text_confirmed
           (fsm_data
              (context user_id
                 (Handlers.handle_text_message user_id username text b).2))
         = true)
  ∧ (∀ panel_section user_id button b,
       Handlers.dispatch panel_section user_id
         (Handlers.CallbackQuery (u "admin:confirm_text:" ++ button)) b
       = (tt, with_sent
                (λ l, l ++ [CallbackAnswer
                              (Some (Lit "❌ Произошла ошибка"))]) b))
  ∧ (∀ panel_section user_id b,
       Handlers.dispatch panel_section user_id
         (Handlers.CallbackQuery (u "admin:danger_zone:clear_all_data")) b
       = (tt, with_sent
                (λ l, l ++ [ EditText
                               (Fmt "⚠️ **ОПАСНАЯ ОПЕРАЦИЯ**"
                                  [u "Очистка всех данных"])
                               (Some (get_danger_confirmation_keyboard
                                        (u "clear_all_data")));
                             CallbackAnswer
                               (Some (Lit "❌ Произошла ошибка")) ]) b))
  ∧ bool_decide ((1 : Z) ∈ ADMIN_IDS Sample.bot1) = true
  ∧ is_confirmation (u "Да") = true
  ∧ Handlers.run Sample.no_panel
      [ (1, Handlers.CallbackQuery (u "admin:danger_zone:clear_all_data"));
        (1, Handlers.TextMessage None (u "Да"));
        (1, Handlers.CallbackQuery (u "admin:confirm_text:yes")) ]%Z
      Sample.bot1
    = with_sent
        (λ l, l ++ [ EditText
                       (Fmt "⚠️ **ОПАСНАЯ ОПЕРАЦИЯ**"
                          [u "Очистка всех данных"])
                       (Some (get_danger_confirmation_keyboard
                                (u "clear_all_data")));
                     CallbackAnswer (Some (Lit "❌ Произошла ошибка"));
                     CallbackAnswer (Some (Lit "❌ Произошла ошибка")) ])
        Sample.bot1
  ∧ events
      (db (Handlers.run Sample.no_panel
             [ (1, Handlers.CallbackQuery
                     (u "admin:danger_zone:clear_all_data"));
               (1, Handlers.TextMessage None (u "Да"));
               (1, Handlers.CallbackQuery (u "admin:confirm_text:yes")) ]%Z
             Sample.bot1))
    = events (db Sample.bot1).
Proof.
  split; [exact other_text_cancels_danger_flow|].
  split; [exact confirmation_text_is_recorded|].
  split.
  { intros panel_section user_id button b.
    exact (confirm_button_result panel_section user_id button b). }
  split.
  { intros panel_section user_id b.
    transitivity
      (tt, with_sent
             (λ l, (l ++ [ EditText
                             (Fmt "⚠️ **ОПАСНАЯ ОПЕРАЦИЯ**"
                                [u "Очистка всех данных"])
                             (Some (get_danger_confirmation_keyboard
                                      (u "clear_all_data"))) ])
                   ++ [CallbackAnswer (Some (Lit "❌ Произошла ошибка"))])
             b).
    - vm_compute. reflexivity.
    - unfold with_sent. by rewrite <- (assoc_L (++)). }
  split; [vm_compute; reflexivity|].
  split; [vm_compute; reflexivity|].
  split; vm_compute; reflexivity.
Qed.

(** * Further properties *)

(** ** Users in the store *)

Lemma update_user_name_registered (telegram_id : Z) (new_name : str)
    (d : Database) (row : UserRow) :
  Db.get_user telegram_id d = Some row →
  DbUsers.update_user_name telegram_id new_name d
  = (true,
     Db.log_event (Some (u_id row)) (u "name_changed")
       (Some (Text (u "Имя изменено на: " ++ new_name)))
       (with_users
          (alter (λ r, {| u_id := u_id r; u_name := new_name;
                          u_location := u_location r;
                          u_status := u_status r;
                          u_is_admin := u_is_admin r;
                          u_username := u_username r |}) telegram_id) d)).
Proof.
  intros Hu. unfold DbUsers.update_user_name. rewrite Hu.
  cbv zeta. unfold Db.get_user at 1, with_users at 1. cbn [users].
  unfold Db.get_user in Hu. rewrite lookup_alter_eq, Hu. reflexivity.
Qed.

(** X1.  [update_user_name] for an unknown user returns [False] and leaves
    the store alone.  For a registered user it returns [True], replaces
    the name and nothing else of the row (id, status and location stay),
    leaves the other users as they were and appends one [name_changed]
    event under the user's id. *)
Theorem update_user_name_changes_only_the_name
    (d : Database) (telegram_id : Z) (new_name : str) :
  match Db.get_user telegram_id d with
  | None => DbUsers.update_user_name telegram_id new_name d = (false, d)
  | Some row =>
    (DbUsers.update_user_name telegram_id new_name d).1 = true
    ∧ Db.get_user telegram_id
        (DbUsers.update_user_name telegram_id new_name d).2
      = Some {| u_id := u_id row; u_name := new_name;
                u_location := u_location row; u_status := u_status row;
                u_is_admin := u_is_admin row;
                u_username := u_username row |}
    ∧ delete telegram_id
        (users (DbUsers.update_user_name telegram_id new_name d).2)
      = delete telegram_id (users d)
    ∧ events (DbUsers.update_user_name telegram_id new_name d).2
      = events d
        ++ [ {| e_user_id := Some (u_id row); e_action := u "name_changed";
                e_details := Some (Text (u "Имя изменено на: "
                                         ++ new_name)) |} ]
  end.
Proof.
  destruct (Db.get_user telegram_id d) as [row|] eqn:Hu.
  - rewrite (update_user_name_registered _ _ _ _ Hu).
    split; [reflexivity|]. unfold Db.get_user in *. cbn [snd].
    split; [|split; [|reflexivity]].
    + unfold Db.log_event, with_events, with_users. cbn [users].
      rewrite lookup_alter_eq, Hu. reflexivity.
    + unfold Db.log_event, with_events, with_users. cbn [users].
      apply delete_alter_eq.
  - unfold DbUsers.update_user_name. rewrite Hu. reflexivity.
Qed.

Lemma delete_user_registered (telegram_id : Z) (d : Database)
    (row : UserRow) :
  Db.get_user telegram_id d = Some row →
  DbUsers.delete_user telegram_id d
  = (true,
     Db.log_event None (u "user_deleted")
       (Some (Text (u "Удален пользователь: " ++ u_name row)))
       (with_users (delete telegram_id) d)).
Proof. intros Hu. unfold DbUsers.delete_user. rewrite Hu. reflexivity. Qed.

(** X2.  [delete_user] for an unknown user returns [False] and leaves the
    store alone.  For a registered user it returns [True], removes the row
    and only that row, and appends one [user_deleted] event that belongs
    to no user; the earlier events and the notification settings and
    permissions recorded under the user's id stay in the store. *)
Theorem delete_user_removes_only_the_row
    (d : Database) (telegram_id : Z) :
  match Db.get_user telegram_id d with
  | None => DbUsers.delete_user telegram_id d = (false, d)
  | Some row =>
    (DbUsers.delete_user telegram_id d).1 = true
    ∧ users (DbUsers.delete_user telegram_id d).2
      = delete telegram_id (users d)
    ∧ Db.get_user telegram_id (DbUsers.delete_user telegram_id d).2 = None
    ∧ events (DbUsers.delete_user telegram_id d).2
      = events d
        ++ [ {| e_user_id := None; e_action := u "user_deleted";
                e_details := Some (Text (u "Удален пользователь: "
                                         ++ u_name row)) |} ]
    ∧ notification_settings (DbUsers.delete_user telegram_id d).2
      = notification_settings d
    ∧ commander_permissions (DbUsers.delete_user telegram_id d).2
      = commander_permissions d
    ∧ DbUsers.delete_user telegram_id (DbUsers.delete_user telegram_id d).2
      = (false, (DbUsers.delete_user telegram_id d).2)
  end.
Proof.
  destruct (Db.get_user telegram_id d) as [row|] eqn:Hu.
  - rewrite (delete_user_registered _ _ _ Hu). cbn [fst snd].
    assert (Hgone : Db.get_user telegram_id
                      (Db.log_event None (u "user_deleted")
                         (Some (Text (u "Удален пользователь: "
                                      ++ u_name row)))
                         (with_users (delete telegram_id) d)) = None).
    { unfold Db.get_user, Db.log_event, with_events, with_users.
      cbn [users]. apply lookup_delete_eq. }
    repeat split; try reflexivity; try exact Hgone.
    unfold DbUsers.delete_user. rewrite Hgone. reflexivity.
  - unfold DbUsers.delete_user. rewrite Hu. reflexivity.
Qed.

(** ** Status of a soldier *)

Lemma get_soldier_status_after_set (t : Z) (status : str)
    (location : option str) (d : Database) (user : UserRow) :
  Db.get_user t d = Some user →
  Db.get_soldier_status t (Db.set_soldier_status t status location d).2
  = Some {| Db.ss_name := u_name user; Db.ss_status := status;
            Db.ss_location := location; Db.ss_telegram_id := t |}.
Proof.
  intros Hu. unfold Db.get_soldier_status, Db.get_user.
  rewrite (set_soldier_status_users _ _ _ _ _ Hu).
  rewrite lookup_alter_eq. unfold Db.get_user in Hu. rewrite Hu.
  reflexivity.
Qed.

Lemma get_soldier_status_other (t other : Z) (status : str)
    (location : option str) (d : Database) :
  other ≠ t →
  Db.get_soldier_status other (Db.set_soldier_status t status location d).2
  = Db.get_soldier_status other d.
Proof.
  intros Hne. unfold Db.get_soldier_status, Db.get_user.
  destruct (Db.get_user t d) as [user|] eqn:Hu.
  - rewrite (set_soldier_status_users _ _ _ _ _ Hu).
    rewrite lookup_alter_ne by done. reflexivity.
  - rewrite (set_soldier_status_unregistered _ _ _ _ Hu). reflexivity.
Qed.

(** X3.  What is read after a departure and after an arrival.  For an
    unknown user [mark_soldier_departure] returns [False], leaves the
    store alone, and [get_soldier_status], [is_soldier_away] and
    [is_soldier_in_unit] all answer [None].  For a registered user the
    departure is read back as [AWAY] at the given location with the name
    unchanged, so [is_soldier_away] holds and [is_soldier_in_unit] does
    not; an arrival after it is read back as [IN_UNIT] with no location;
    and nobody else's status changes. *)
Theorem status_is_read_back_as_written
    (d : Database) (telegram_id : Z) (location : str) :
  match Db.get_user telegram_id d with
  | None =>
    Db.mark_soldier_departure telegram_id location d = (false, d)
    ∧ Db.get_soldier_status telegram_id d = None
    ∧ DbStatus.is_soldier_away telegram_id d = None
    ∧ DbStatus.is_soldier_in_unit telegram_id d = None
  | Some user =>
    let departed := (Db.mark_soldier_departure telegram_id location d).2 in
    (Db.mark_soldier_departure telegram_id location d).1 = true
    ∧ Db.get_soldier_status telegram_id departed
      = Some {| Db.ss_name := u_name user; Db.ss_status := AWAY;
                Db.ss_location := Some location;
                Db.ss_telegram_id := telegram_id |}
    ∧ DbStatus.is_soldier_away telegram_id departed = Some true
    ∧ DbStatus.is_soldier_in_unit telegram_id departed = Some false
    ∧ Db.get_soldier_status telegram_id
        (Db.mark_soldier_arrival telegram_id departed).2
      = Some {| Db.ss_name := u_name user; Db.ss_status := IN_UNIT;
                Db.ss_location := None;
                Db.ss_telegram_id := telegram_id |}
    ∧ ∀ other, other ≠ telegram_id →
        Db.get_soldier_status other departed
        = Db.get_soldier_status other d
  end.
Proof.
  destruct (Db.get_user telegram_id d) as [user|] eqn:Hu; cbv zeta.
  - unfold Db.mark_soldier_departure, Db.mark_soldier_arrival,
      DbStatus.is_soldier_away, DbStatus.is_soldier_in_unit.
    pose proof (get_soldier_status_after_set telegram_id AWAY
                  (Some location) d user Hu) as Hs.
    split; [by rewrite (set_soldier_status_registered _ _ _ _ _ Hu)|].
    split; [exact Hs|]. rewrite Hs. cbn [Db.ss_status].
    split; [reflexivity|]. split; [reflexivity|].
    split; [|intros other Hne; by apply get_soldier_status_other].
    unfold Db.get_soldier_status in Hs.
    destruct (Db.get_user telegram_id
                (Db.set_soldier_status telegram_id AWAY (Some location) d).2)
      as [user'|] eqn:Hu'; [|discriminate].
    rewrite (get_soldier_status_after_set _ _ _ _ _ Hu').
    injection Hs as Hn _ _. by rewrite Hn.
  - unfold DbStatus.is_soldier_away, DbStatus.is_soldier_in_unit.
    assert (Hs : Db.get_soldier_status telegram_id d = None)
      by (unfold Db.get_soldier_status; by rewrite Hu).
    rewrite Hs. split; [|done].
    exact (set_soldier_status_unregistered _ _ _ _ Hu).
Qed.

(** ** Lists of soldiers *)

Lemma get_all_users_Permutation (d : Database) :
  Db.get_all_users d ≡ₚ map_to_list (users d).
Proof. unfold Db.get_all_users. apply merge_sort_Permutation. Qed.

Lemma elem_of_get_all_users (d : Database) (t : Z) (row : UserRow) :
  (t, row) ∈ Db.get_all_users d ↔ users d !! t = Some row.
Proof.
  rewrite (get_all_users_Permutation d). apply elem_of_map_to_list.
Qed.

Lemma filter_split_length {A} (p q : A → bool) (l : list A) :
  (∀ x, x ∈ l → p x = negb (q x)) →
  length (List.filter p l) + length (List.filter q l) = length l.
Proof.
  induction l as [|x l IH]; intros H; [reflexivity|].
  cbn [List.filter]. rewrite (H x) by apply list_elem_of_here.
  assert (IHl := IH (λ y Hy, H y (list_elem_of_further _ _ _ Hy))).
  destruct (q x); cbn [negb length]; lia.
Qed.

(** X4.  [get_soldiers_by_status] lists exactly the rows of the users
    table that have the status and are not admins, each once; so when
    every row is in one of the two statuses, the soldiers in the unit and
    the soldiers away together are all the non-admin users. *)
Theorem soldiers_by_status_are_the_matching_rows
    (d : Database) (status : str) :
  (∀ t row, (t, row) ∈ DbStatus.get_soldiers_by_status status d
            ↔ users d !! t = Some row ∧ u_status row = status
              ∧ u_is_admin row = false)
  ∧ NoDup (DbStatus.get_soldiers_by_status status d)
  ∧ (known_statuses d →
     (DbStatus.get_soldiers_count_by_status IN_UNIT d
      + DbStatus.get_soldiers_count_by_status AWAY d
      = soldiers_count d)%Z).
Proof.
  split; [|split].
  - intros t row. unfold DbStatus.get_soldiers_by_status.
    rewrite list_elem_of_In, filter_In, <- list_elem_of_In.
    rewrite elem_of_get_all_users. cbn [snd].
    rewrite andb_true_iff, negb_true_iff, bool_decide_eq_true. tauto.
  - unfold DbStatus.get_soldiers_by_status. apply NoDup_ListNoDup.
    apply List.NoDup_filter. apply NoDup_ListNoDup.
    rewrite (get_all_users_Permutation d). apply NoDup_map_to_list.
  - intros Hk.
    unfold DbStatus.get_soldiers_count_by_status,
      DbStatus.get_soldiers_by_status, soldiers_count, soldiers.
    rewrite <- Nat2Z.inj_add. f_equal.
    set (all := Db.get_all_users d).
    assert (Hall : ∀ x, x ∈ all → u_status x.2 = IN_UNIT
                                  ∨ u_status x.2 = AWAY).
    { intros [t row] Hx. apply elem_of_get_all_users in Hx.
      exact (Hk t row Hx). }
    clearbody all. induction all as [|x l IH]; [reflexivity|].
    assert (IHl := IH (λ y Hy, Hall y (list_elem_of_further _ _ _ Hy))).
    destruct (Hall x (list_elem_of_here _ _)) as [Hs|Hs];
      cbn [List.filter]; rewrite Hs.
    + rewrite (bool_decide_eq_true_2 _ eq_refl).
      rewrite (bool_decide_eq_false_2 _ in_unit_is_not_away).
      cbn [andb]. destruct (u_is_admin x.2); cbn [negb length]; lia.
    + rewrite (bool_decide_eq_true_2 (AWAY = AWAY) eq_refl).
      rewrite (bool_decide_eq_false_2 (AWAY = IN_UNIT)
                 (λ H, in_unit_is_not_away (eq_sym H))).
      cbn [andb]. destruct (u_is_admin x.2); cbn [negb length]; lia.
Qed.

Lemma group_append_keys (k : str) (s : Z * UserRow)
    (g : list (str * list (Z * UserRow))) :
  (DbStatus.group_append k s g).*1
  = if bool_decide (k ∈ g.*1) then g.*1 else g.*1 ++ [k].
Proof.
  induction g as [|[k' l] g IH]; [reflexivity|].
  cbn [DbStatus.group_append fmap list_fmap fst].
  destruct (bool_decide_reflect (k' = k)) as [->|Hne].
  - rewrite bool_decide_eq_true_2 by apply list_elem_of_here. reflexivity.
  - cbn [fmap list_fmap fst]. fold (fmap (M:=list) (@fst str (list (Z * UserRow)))).
    rewrite IH.
    destruct (bool_decide_reflect (k ∈ g.*1)) as [Hin|Hnin].
    + rewrite bool_decide_eq_true_2
        by (apply list_elem_of_further; exact Hin). reflexivity.
    + rewrite bool_decide_eq_false_2; [reflexivity|].
      intros Hin. apply elem_of_cons in Hin as [->|Hin]; tauto.
Qed.

Lemma group_append_concat (k : str) (s : Z * UserRow)
    (g : list (str * list (Z * UserRow))) :
  concat (DbStatus.group_append k s g).*2 ≡ₚ s :: concat g.*2.
Proof.
  induction g as [|[k' l] g IH]; [reflexivity|].
  cbn [DbStatus.group_append].
  destruct (bool_decide (k' = k)).
  - cbn [fmap list_fmap snd concat].
    fold (fmap (M:=list) (@snd str (list (Z * UserRow)))).
    rewrite <- (assoc_L (++)). cbn [app].
    by rewrite <- Permutation_middle.
  - cbn [fmap list_fmap snd concat].
    fold (fmap (M:=list) (@snd str (list (Z * UserRow)))).
    rewrite IH. by rewrite Permutation_middle.
Qed.

Lemma group_append_members (loc : Z * UserRow → str) (s : Z * UserRow)
    (g : list (str * list (Z * UserRow))) :
  Forall (λ kl, kl.2 ≠ [] ∧ Forall (λ x, loc x = kl.1) kl.2) g →
  Forall (λ kl, kl.2 ≠ [] ∧ Forall (λ x, loc x = kl.1) kl.2)
    (DbStatus.group_append (loc s) s g).
Proof.
  induction g as [|[k' l] g IH]; intros Hg.
  - cbn [DbStatus.group_append]. repeat constructor. discriminate.
  - cbn [DbStatus.group_append]. inversion Hg as [|? ? [Hne Hl] Hg']; subst.
    destruct (bool_decide_reflect (k' = loc s)) as [->|Hk].
    + constructor; [|exact Hg']. cbn [fst snd] in *. split.
      * intros H. by apply app_eq_nil in H as [_ H].
      * apply Forall_app. split; [exact Hl|]. by constructor.
    + constructor; [by split|]. by apply IH.
Qed.

Lemma group_fold (loc : Z * UserRow → str) (l : list (Z * UserRow)) :
  ∀ (g : list (str * list (Z * UserRow))) (seen : list (Z * UserRow)),
  NoDup g.*1 →
  Forall (λ kl, kl.2 ≠ [] ∧ Forall (λ x, loc x = kl.1) kl.2) g →
  concat g.*2 ≡ₚ seen →
  let g' := foldl (λ locations soldier,
                     DbStatus.group_append (loc soldier) soldier locations)
              g l in
  NoDup g'.*1
  ∧ Forall (λ kl, kl.2 ≠ [] ∧ Forall (λ x, loc x = kl.1) kl.2) g'
  ∧ concat g'.*2 ≡ₚ seen ++ l.
Proof.
  induction l as [|s l IH]; intros g seen Hnd Hg Hc; cbv zeta.
  - cbn [foldl]. by rewrite app_nil_r.
  - cbn [foldl].
    destruct (IH (DbStatus.group_append (loc s) s g) (seen ++ [s]))
      as (H1 & H2 & H3).
    + rewrite group_append_keys.
      destruct (bool_decide_reflect (loc s ∈ g.*1)) as [Hin|Hnin];
        [exact Hnd|].
      apply NoDup_app. split; [exact Hnd|]. split.
      * intros x Hx Hx'. apply list_elem_of_singleton in Hx'. by subst.
      * apply NoDup_singleton.
    + by apply group_append_members.
    + rewrite group_append_concat, Hc. apply Permutation_cons_append.
    + split; [exact H1|]. split; [exact H2|].
      rewrite H3. by rewrite <- (assoc_L (++)).
Qed.

(** X5.  [get_soldiers_away_by_location] puts every soldier who is away
    into exactly one group: the keys are distinct, no group is empty, a
    group holds only soldiers whose location (or the words for a missing
    one) is its key, and the groups together are the away list. *)
Theorem away_soldiers_are_grouped_by_location (d : Database) :
  NoDup (DbStatus.get_soldiers_away_by_location d).*1
  ∧ (∀ k l, (k, l) ∈ DbStatus.get_soldiers_away_by_location d →
            l ≠ []
            ∧ ∀ s, s ∈ l → DbStatus.location_or_unspecified s = k)
  ∧ concat (DbStatus.get_soldiers_away_by_location d).*2
    ≡ₚ DbStatus.get_soldiers_away d.
Proof.
  destruct (group_fold DbStatus.location_or_unspecified
              (DbStatus.get_soldiers_away d) [] [])
    as (H1 & H2 & H3); [constructor|constructor|reflexivity|].
  split; [exact H1|]. split; [|exact H3].
  intros k l Hkl. rewrite Forall_forall in H2.
  destruct (H2 (k, l) Hkl) as [Hne Hl]. split; [exact Hne|].
  intros s Hs. rewrite Forall_forall in Hl. exact (Hl s Hs).
Qed.

(** ** Commander permissions, read and written *)

(** The value [check_commander_permission] hands back for a name, given
    the capability flags of the row. *)
Lemma check_commander_permission_registered (d : Database)
    (telegram_id : Z) (permission : str) (user : UserRow) :
  Db.get_user telegram_id d = Some user →
  DbPerm.check_commander_permission telegram_id permission d
  = (if bool_decide (permission = u "id") then DbPerm.RowId
     else if bool_decide (permission = u "user_id")
     then DbPerm.UserId (u_id user)
     else if bool_decide (permission ∈ [u "created_at"; u "updated_at"])
     then DbPerm.Timestamp permission
     else DbPerm.Flag
            (default false
               (default default_commander_permissions
                  (commander_permissions d !! u_id user) !! permission)),
     with_commander_permissions
       (insert_or_ignore (u_id user) default_commander_permissions) d).
Proof.
  intros Hu.
  unfold DbPerm.check_commander_permission, DbPerm.get_commander_permissions.
  rewrite Hu.
  destruct (commander_permissions d !! u_id user) as [row|] eqn:Hrow.
  - cbn [from_option id]. f_equal. destruct d.
    unfold with_commander_permissions, insert_or_ignore.
    cbn [commander_permissions] in *. by rewrite Hrow.
  - unfold DbPerm.create_default_commander_permissions. cbn [snd].
    unfold with_commander_permissions at 1. cbn [commander_permissions].
    unfold insert_or_ignore at 1. rewrite Hrow, lookup_insert_eq.
    reflexivity.
Qed.

(** A name outside the four other columns is read from the flags. *)
Lemma check_commander_permission_flag (d : Database)
    (telegram_id : Z) (permission : str) (user : UserRow) :
  Db.get_user telegram_id d = Some user →
  permission ∉ DbPerm.other_permission_columns →
  DbPerm.check_commander_permission telegram_id permission d
  = (DbPerm.Flag
       (default false
          (default default_commander_permissions
             (commander_permissions d !! u_id user) !! permission)),
     with_commander_permissions
       (insert_or_ignore (u_id user) default_commander_permissions) d).
Proof.
  intros Hu Hother.
  rewrite (check_commander_permission_registered _ _ _ _ Hu).
  unfold DbPerm.other_permission_columns in Hother.
  rewrite !not_elem_of_cons in Hother.
  destruct Hother as (Hid & Huid & Hc & Hup & _).
  rewrite (bool_decide_eq_false_2 _ Hid), (bool_decide_eq_false_2 _ Huid).
  rewrite bool_decide_eq_false_2; [reflexivity|].
  rewrite !not_elem_of_cons. repeat split; try assumption.
  apply not_elem_of_nil.
Qed.

(** No capability key is one of the four other columns. *)
Lemma capability_key_is_no_other_column (k : str) :
  startswith k (u "can_") = true → k ∉ DbPerm.other_permission_columns.
Proof.
  intros Hpre Hin. unfold DbPerm.other_permission_columns in Hin.
  repeat (apply elem_of_cons in Hin as [-> | Hin];
          [vm_compute in Hpre; discriminate|]).
  by apply elem_of_nil in Hin.
Qed.

Lemma insert_or_ignore_twice {V} (k : Z) (v : V) (t : gmap Z V) :
  insert_or_ignore k v (insert_or_ignore k v t) = insert_or_ignore k v t.
Proof.
  unfold insert_or_ignore.
  destruct (t !! k) as [x|] eqn:Hk; [by rewrite Hk|].
  by rewrite lookup_insert_eq.
Qed.

Lemma insert_or_ignore_lookup {V} (k : Z) (v : V) (t : gmap Z V) :
  insert_or_ignore k v t !! k = Some (default v (t !! k)).
Proof.
  unfold insert_or_ignore.
  destruct (t !! k) as [x|] eqn:Hk; [by rewrite Hk|].
  by rewrite lookup_insert_eq.
Qed.

(** X6.  What [check_commander_permission] reads.  For an unknown user it
    is [False] and the store is untouched.  For a registered user the
    value depends on the name: the row's [id], the user's id under
    [user_id], a timestamp under [created_at] and [updated_at], and for
    every other name the flag of the stored row, or of the default row
    that the read creates when there is none.  So the read fails closed
    for a name that is no column, which reads [False], but not for [id]
    and the two timestamps, which read as true.  The read writes no event
    and touches no user, the row exists afterwards, and a second read
    gives the same answer and changes nothing more. *)
Theorem check_permission_reads_the_row
    (d : Database) (telegram_id : Z) (permission : str) :
  match Db.get_user telegram_id d with
  | None =>
    DbPerm.check_commander_permission telegram_id permission d
    = (DbPerm.Flag false, d)
  | Some user =>
    let row := default default_commander_permissions
                 (commander_permissions d !! u_id user) in
    let read := DbPerm.check_commander_permission telegram_id permission d in
    read.1
    = (if bool_decide (permission = u "id") then DbPerm.RowId
       else if bool_decide (permission = u "user_id")
       then DbPerm.UserId (u_id user)
       else if bool_decide (permission ∈ [u "created_at"; u "updated_at"])
       then DbPerm.Timestamp permission
       else DbPerm.Flag (default false (row !! permission)))
    ∧ (permission ∉ DbPerm.other_permission_columns →
       row !! permission = None → read.1 = DbPerm.Flag false)
    ∧ (permission ∈ [u "id"; u "created_at"; u "updated_at"] →
       DbPerm.permission_truth read.1 = true)
    ∧ users read.2 = users d ∧ events read.2 = events d
    ∧ commander_permissions read.2 !! u_id user = Some row
    ∧ DbPerm.check_commander_permission telegram_id permission read.2
      = read
  end.
Proof.
  destruct (Db.get_user telegram_id d) as [user|] eqn:Hu; cbv zeta.
  - split.
    { by rewrite (check_commander_permission_registered _ _ _ _ Hu). }
    split.
    { intros Hother Hnone.
      rewrite (check_commander_permission_flag _ _ _ _ Hu Hother).
      cbn [fst]. by rewrite Hnone. }
    split.
    { intros Hin.
      rewrite (check_commander_permission_registered _ _ _ _ Hu).
      cbn [fst].
      repeat (apply elem_of_cons in Hin as [-> | Hin];
              [vm_compute; reflexivity|]).
      by apply elem_of_nil in Hin. }
    rewrite (check_commander_permission_registered _ _ _ _ Hu).
    cbn [fst snd]. split; [reflexivity|]. split; [reflexivity|].
    split.
    + unfold with_commander_permissions. cbn [commander_permissions].
      apply insert_or_ignore_lookup.
    + assert (Hu' : Db.get_user telegram_id
                (with_commander_permissions
                   (insert_or_ignore (u_id user)
                      default_commander_permissions) d) = Some user)
        by exact Hu.
      rewrite (check_commander_permission_registered _ _ _ _ Hu').
      unfold with_commander_permissions. cbn [commander_permissions users
        events notification_settings attendance].
      rewrite insert_or_ignore_twice, insert_or_ignore_lookup.
      reflexivity.
  - unfold DbPerm.check_commander_permission,
      DbPerm.get_commander_permissions. by rewrite Hu.
Qed.

Lemma update_commander_permissions_applied (d : Database) (telegram_id : Z)
    (permissions : gmap str bool) (user : UserRow) :
  Db.get_user telegram_id d = Some user →
  DbPerm.update_fields permissions ≠ ∅ →
  map_Forall (λ k _, Is_true (is_capability_column k))
    (DbPerm.update_fields permissions) →
  ∃ d', DbPerm.update_commander_permissions telegram_id permissions d
        = (Some true, d')
        ∧ users d' = users d
        ∧ commander_permissions d' !! u_id user
          = Some (DbPerm.update_fields permissions
                  ∪ default default_commander_permissions
                      (commander_permissions d !! u_id user)).
Proof.
  intros Hu Hne Hcols.
  unfold DbPerm.update_commander_permissions. rewrite Hu.
  destruct (get_commander_permissions_creates d telegram_id user Hu)
    as (d' & -> & Husers & Hev & Hperm).
  rewrite bool_decide_eq_false_2 by done.
  rewrite bool_decide_eq_true_2 by done.
  eexists. split; [reflexivity|]. split.
  - unfold Db.log_event, with_events, with_commander_permissions.
    cbn [users]. exact Husers.
  - unfold Db.log_event, with_events, with_commander_permissions.
    cbn [commander_permissions].
    rewrite lookup_alter_eq, Hperm, insert_or_ignore_lookup. reflexivity.
Qed.

(** X7.  A permission written by [update_commander_permissions] is the
    one [check_commander_permission] reads afterwards: after a successful
    update every key of the dictionary that starts with [can_] reads as
    the value given, and every other name that is none of the columns
    [id], [user_id], [created_at] and [updated_at] reads as it did before
    the update. *)
Theorem updated_permission_is_read_back
    (d : Database) (telegram_id : Z) (permissions : gmap str bool)
    (user : UserRow) :
  Db.get_user telegram_id d = Some user →
  DbPerm.update_fields permissions ≠ ∅ →
  map_Forall (λ k _, Is_true (is_capability_column k))
    (DbPerm.update_fields permissions) →
  let updated :=
    (DbPerm.update_commander_permissions telegram_id permissions d).2 in
  (∀ k v, permissions !! k = Some v → startswith k (u "can_") = true →
     DbPerm.check_commander_permission telegram_id k updated
     = (DbPerm.Flag v, updated))
  ∧ (∀ k, k ∉ DbPerm.other_permission_columns →
       permissions !! k = None ∨ startswith k (u "can_") = false →
       (DbPerm.check_commander_permission telegram_id k updated).1
       = (DbPerm.check_commander_permission telegram_id k d).1).
Proof.
  intros Hu Hne Hcols.
  destruct (update_commander_permissions_applied d telegram_id permissions
              user Hu Hne Hcols) as (d' & Heq & Husers & Hrow).
  cbv zeta. rewrite Heq. cbn [snd].
  assert (Hu' : Db.get_user telegram_id d' = Some user).
  { unfold Db.get_user in *. by rewrite Husers. }
  split.
  - intros k v Hk Hpre.
    rewrite (check_commander_permission_flag _ _ _ _ Hu'
               (capability_key_is_no_other_column k Hpre)).
    rewrite Hrow. cbn [from_option id].
    rewrite (lookup_union_Some_l _ _ k v).
    + cbn [from_option id]. f_equal. destruct d'.
      unfold with_commander_permissions, insert_or_ignore.
      cbn [commander_permissions] in *. by rewrite Hrow.
    + apply map_lookup_filter_Some. split; [done|].
      cbn [fst]. by rewrite Hpre.
  - intros k Hother Hk.
    rewrite (check_commander_permission_flag _ _ _ _ Hu' Hother).
    rewrite (check_commander_permission_flag _ _ _ _ Hu Hother).
    cbn [fst]. rewrite Hrow. cbn [from_option id].
    rewrite lookup_union_r; [done|].
    apply map_lookup_filter_None. destruct Hk as [Hk | Hk].
    + by left.
    + right. intros v _. cbn [fst]. rewrite Hk. intros H. exact H.
Qed.

Lemma updated_permission_is_read_back_witness :
  DbPerm.check_commander_permission 42 (u "can_export_data")
    (DbPerm.update_commander_permissions 42 Sample.permissions_with_note
       (db Sample.bot1)).2
  = (DbPerm.Flag true,
     (DbPerm.update_commander_permissions 42 Sample.permissions_with_note
        (db Sample.bot1)).2).
Proof.
  assert (Hu : Db.get_user 42 (db Sample.bot1)
               = Some {| u_id := 1; u_name := u "Иванов И.И.";
                         u_location := Some (u "Склад"); u_status := AWAY;
                         u_is_admin := false; u_username := None |}).
  { vm_compute. reflexivity. }
  assert (Hne : DbPerm.update_fields Sample.permissions_with_note ≠ ∅).
  { apply (bool_decide_eq_false _). vm_compute. reflexivity. }
  assert (Hcols : map_Forall (λ k _, Is_true (is_capability_column k))
                    (DbPerm.update_fields Sample.permissions_with_note)).
  { apply (bool_decide_unpack _). vm_compute. exact I. }
  refine (proj1 (updated_permission_is_read_back (db Sample.bot1) 42
                   Sample.permissions_with_note _ Hu Hne Hcols)
            (u "can_export_data") true _ _);
    vm_compute; reflexivity.
Defined.

(** X8.  The two ways [update_commander_permissions] does nothing.  For an
    unknown user it returns [False] and leaves the store alone.  For a
    registered user and a dictionary without a key that starts with
    [can_] it returns nothing (Python's [None]) and writes no event, but
    the user's permission row exists afterwards (the default row when
    there was none). *)
Theorem update_permissions_without_fields
    (d : Database) (telegram_id : Z) (permissions : gmap str bool) :
  match Db.get_user telegram_id d with
  | None =>
    DbPerm.update_commander_permissions telegram_id permissions d
    = (Some false, d)
  | Some user =>
    DbPerm.update_fields permissions = ∅ →
    let updated :=
      DbPerm.update_commander_permissions telegram_id permissions d in
    updated.1 = None
    ∧ events updated.2 = events d ∧ users updated.2 = users d
    ∧ commander_permissions updated.2 !! u_id user
      = Some (default default_commander_permissions
                (commander_permissions d !! u_id user))
  end.
Proof.
  destruct (Db.get_user telegram_id d) as [user|] eqn:Hu.
  - intros Hempty. cbv zeta.
    unfold DbPerm.update_commander_permissions. rewrite Hu.
    destruct (get_commander_permissions_creates d telegram_id user Hu)
      as (d' & -> & Husers & Hev & Hperm).
    rewrite (bool_decide_eq_true_2 _ Hempty). cbn [fst snd].
    split; [reflexivity|]. split; [exact Hev|]. split; [exact Husers|].
    rewrite Hperm. apply insert_or_ignore_lookup.
  - unfold DbPerm.update_commander_permissions. by rewrite Hu.
Qed.

(** ** Notification settings and attendance *)

(** X9.  [update_notification_settings] writes all four flags at once.
    For an unknown user it returns [False] and leaves the store alone.
    For a registered user it returns [True] and writes no event; a stored
    row is replaced by the dictionary's values, with [enabled],
    [daily_summary], [reminders] back to [True] and [silent_mode] back to
    [False] where the dictionary has no key, whatever was stored; a user
    without a row still has none. *)
Theorem notification_update_overwrites_every_flag
    (d : Database) (telegram_id : Z) (settings : gmap str bool) :
  match Db.get_user telegram_id d with
  | None =>
    DbNotify.update_notification_settings telegram_id settings d = (false, d)
    ∧ DbNotify.get_notification_settings telegram_id d = None
  | Some user =>
    let updated :=
      DbNotify.update_notification_settings telegram_id settings d in
    updated.1 = true
    ∧ users updated.2 = users d ∧ events updated.2 = events d
    ∧ DbNotify.get_notification_settings telegram_id updated.2
      = (λ _, {| ns_enabled := default true (settings !! u "enabled");
                 ns_daily_summary :=
                   default true (settings !! u "daily_summary");
                 ns_reminders := default true (settings !! u "reminders");
                 ns_silent_mode :=
                   default false (settings !! u "silent_mode") |})
        <$> DbNotify.get_notification_settings telegram_id d
  end.
Proof.
  unfold DbNotify.update_notification_settings,
    DbNotify.get_notification_settings.
  destruct (Db.get_user telegram_id d) as [user|] eqn:Hu; cbv zeta.
  - cbn [fst snd]. split; [reflexivity|]. split; [reflexivity|].
    split; [reflexivity|].
    assert (Hu' : ∀ f, Db.get_user telegram_id
                         (with_notification_settings f d) = Some user)
      by (intros f; exact Hu).
    rewrite Hu'. unfold with_notification_settings.
    cbn [notification_settings]. apply lookup_alter_eq.
  - split; reflexivity.
Qed.

Lemma mark_attendance_registered (today telegram_id : Z)
    (location : option str) (d : Database) (user : UserRow) :
  Db.get_user telegram_id d = Some user →
  Db.mark_attendance today telegram_id location d
  = (true,
     Db.log_event (Some (u_id user)) (u "attendance_marked")
       (Some (Text (u "Отметка: " ++
                    (if truthy location then default [] location
                     else u "не указано"))))
       (with_attendance
          (insert (u_id user, today)
             {| a_location := location; a_status := u "present" |}) d)).
Proof. intros Hu. unfold Db.mark_attendance. by rewrite Hu. Qed.

(** X10.  [mark_attendance] keeps one row per user and day.  For an
    unknown user it returns [False] and leaves the store alone.  For a
    registered user the row of today holds the location given, the count
    of users present today grows by one when the user had no row today and
    stays as it was otherwise, the user is no longer listed as absent,
    and every call appends one event to the journal: [attendance_marked]
    under the user's id, with the location in its details. *)
Theorem attendance_has_one_row_per_user_and_day
    (d : Database) (today telegram_id : Z) (location : option str) :
  match Db.get_user telegram_id d with
  | None => Db.mark_attendance today telegram_id location d = (false, d)
  | Some user =>
    let marked := Db.mark_attendance today telegram_id location d in
    marked.1 = true
    ∧ attendance marked.2 !! (u_id user, today)
      = Some {| a_location := location; a_status := u "present" |}
    ∧ DbUsers.get_present_users today marked.2
      = (match attendance d !! (u_id user, today) with
         | Some _ => DbUsers.get_present_users today d
         | None => DbUsers.get_present_users today d + 1
         end)%Z
    ∧ ((telegram_id, user) ∉ DbUsers.get_absent_users today marked.2)
    ∧ events marked.2
      = events d
        ++ [ {| e_user_id := Some (u_id user);
                e_action := u "attendance_marked";
                e_details :=
                  Some (Text (u "Отметка: " ++
                              (if truthy location then default [] location
                               else u "не указано"))) |} ]
  end.
Proof.
  destruct (Db.get_user telegram_id d) as [user|] eqn:Hu; cbv zeta.
  - rewrite (mark_attendance_registered _ _ _ _ _ Hu). cbn [fst snd].
    unfold Db.log_event, with_events, with_attendance.
    split; [reflexivity|]. cbn [attendance events].
    split; [apply lookup_insert_eq|]. split; [|split].
    + unfold DbUsers.get_present_users. cbn [attendance].
      rewrite map_filter_insert_True by reflexivity.
      rewrite map_size_insert.
      destruct (attendance d !! (u_id user, today)) as [row|] eqn:Hrow.
      * assert (Hf : filter (λ kv : Z * Z * AttendanceRow, kv.1.2 = today)
                       (attendance d) !! (u_id user, today) = Some row)
          by (apply map_lookup_filter_Some; by split).
        rewrite Hf. reflexivity.
      * rewrite map_lookup_filter_None_2 by (by left). lia.
    + unfold DbUsers.get_absent_users. cbn [attendance].
      rewrite list_elem_of_In, filter_In. intros [_ H].
      cbn [snd] in H. apply bool_decide_eq_true_1 in H.
      by rewrite lookup_insert_eq in H.
    + reflexivity.
  - unfold Db.mark_attendance. by rewrite Hu.
Qed.

(** ** The admin panel behind the router *)

Lemma startswith_prefix (p rest : str) : startswith (p ++ rest) p = true.
Proof.
  induction p as [|c p IH]; [by destruct rest|].
  cbn [app startswith]. by rewrite N.eqb_refl.
Qed.

Lemma split_once_admin_prefix (rest : str) :
  split_once 58 (u "admin:" ++ rest) = Some (u "admin", rest).
Proof. vm_compute. reflexivity. Qed.

Lemma handle_callback_admin_prefix
    (panel_section : str → str → M (Msg * Keyboard))
    (rest : str) (user_id : Z) (b : Bot) :
  user_id ∈ ADMIN_IDS b →
  AdminPanel.handle_callback panel_section (u "admin:" ++ rest) user_id b
  = (Lit "❌ Неизвестное действие", get_back_keyboard, b).
Proof.
  intros Hadmin. unfold AdminPanel.handle_callback.
  rewrite split_once_admin_prefix.
  unfold bind, AdminPanel.is_admin.
  rewrite (bool_decide_eq_true_2 _ Hadmin). cbn [negb].
  change (bool_decide (u "admin" = u "personnel")) with false.
  change (bool_decide (u "admin" = u "danger_zone")) with false.
  change (bool_decide (u "admin" = u "confirm")) with false.
  change (bool_decide (u "admin" ∈ AdminPanel.outer_sections)) with false.
  reflexivity.
Qed.

(** X11.  The panel does not know the data of the router.
    [handle_callback_query] sends data that starts with [admin:] to
    [handle_admin_callback] as it is, and the call of the panel written
    there passes the whole data on.  [AdminPanel.handle_callback] takes
    the text before the first colon as the action, which is [admin] for
    such data and is none of its sections: for an admin the panel returns
    the unknown-action message with the back keyboard and leaves the bot
    as it is, whatever follows the prefix. *)
Theorem prefixed_command_is_unknown_to_the_panel
    (panel_section : str → str → M (Msg * Keyboard))
    (user_id : Z) (rest : str) (b : Bot) :
  user_id ∈ ADMIN_IDS b →
  AdminPanel.handle_callback panel_section (u "admin:" ++ rest) user_id b
  = (Lit "❌ Неизвестное действие", get_back_keyboard, b)
  ∧ Handlers.handle_callback_query panel_section user_id
      (u "admin:" ++ rest) b
    = Handlers.handle_admin_callback panel_section user_id
        (u "admin:" ++ rest) b.
Proof.
  intros Hadmin. split.
  - exact (handle_callback_admin_prefix _ _ _ _ Hadmin).
  - unfold Handlers.handle_callback_query.
    by rewrite startswith_prefix.
Qed.

Lemma prefixed_command_is_unknown_to_the_panel_witness :
  ((1 : Z) ∈ ADMIN_IDS Sample.bot20)
  ∧ AdminPanel.handle_callback Sample.no_panel
      (u "admin:personnel:list_users") 1 Sample.bot20
    = (Lit "❌ Неизвестное действие", get_back_keyboard, Sample.bot20).
Proof.
  assert (Hadmin : (1 : Z) ∈ ADMIN_IDS Sample.bot20).
  { apply (bool_decide_unpack _). vm_compute. exact I. }
  split; [exact Hadmin|].
  exact (proj1 (prefixed_command_is_unknown_to_the_panel Sample.no_panel 1
                  (u "personnel:list_users") Sample.bot20 Hadmin)).
Defined.

(** ** The list of admins *)







(** ** Marking everyone and paging *)

Lemma mark_each_result (today : Z) (location : str)
    (l : list (Z * UserRow)) : ∀ (count : Z) (d : Database),
  (∀ x, x ∈ l → users d !! x.1 = Some x.2) →
  (AdminPanel.mark_each today location l count d).1
  = (count + Z.of_nat (length l))%Z
  ∧ events (AdminPanel.mark_each today location l count d).2
    = events d
      ++ map (λ x : Z * UserRow,
               {| e_user_id := Some (u_id x.2);
                  e_action := u "attendance_marked";
                  e_details :=
                    Some (Text (u "Отметка: " ++
                                (if truthy (Some location) then location
                                 else u "не указано"))) |}) l
  ∧ ∀ k, (attendance d !! k
          = Some {| a_location := Some location; a_status := u "present" |}
          ∨ ∃ x, x ∈ l ∧ k = (u_id x.2, today)) →
         attendance (AdminPanel.mark_each today location l count d).2 !! k
         = Some {| a_location := Some location; a_status := u "present" |}.
Proof.
  induction l as [|x l IH]; intros count d Hreg.
  - cbn [AdminPanel.mark_each fst snd length map]. split; [lia|].
    split; [by rewrite app_nil_r|]. intros k [Hk|(x & Hx & _)]; [exact Hk|].
    by apply elem_of_nil in Hx.
  - cbn [AdminPanel.mark_each].
    assert (Hx : Db.get_user x.1 d = Some x.2)
      by (apply Hreg; apply list_elem_of_here).
    rewrite (mark_attendance_registered _ _ _ _ _ Hx).
    match goal with
    | |- context [AdminPanel.mark_each _ _ _ _ ?d1] =>
      destruct (IH (count + 1)%Z d1) as (H1 & H2 & H3)
    end.
    { intros y Hy. apply (Hreg y). by apply list_elem_of_further. }
    rewrite H1, H2. split; [cbn [length]; lia|]. split.
    { unfold Db.log_event, with_events, with_attendance.
      cbn [events map]. by rewrite <- (assoc_L (++)). }
    intros k Hk. apply H3.
    unfold Db.log_event, with_events, with_attendance. cbn [attendance].
    destruct (decide (k = (u_id x.2, today))) as [->|Hne].
    + left. apply lookup_insert_eq.
    + destruct Hk as [Hk|(y & Hy & Hky)].
      * left. by rewrite lookup_insert_ne.
      * apply elem_of_cons in Hy as [->|Hy]; [done|]. right. by exists y.
Qed.

(** X14.  [mark_all_arrived] returns the number of users, gives every user
    an attendance row for today at the location, appends to the journal
    one [attendance_marked] event per user, under the user's id and in the
    order of the list of users, and after them one [mark_all_arrived]
    event, and sends one notification to the admins.  It does not touch the users table: nobody's status or
    location changes, so a soldier who is away stays away. *)
Theorem mark_all_arrived_leaves_statuses (location : str) (b : Bot) :
  (AdminPanel.mark_all_arrived location b).1
  = DbUsers.get_total_users (db b)
  ∧ users (db (AdminPanel.mark_all_arrived location b).2) = users (db b)
  ∧ (∀ t row, users (db b) !! t = Some row →
       attendance (db (AdminPanel.mark_all_arrived location b).2)
         !! (u_id row, today b)
       = Some {| a_location := Some location; a_status := u "present" |})
  ∧ events (db (AdminPanel.mark_all_arrived location b).2)
    = events (db b)
      ++ map (λ x : Z * UserRow,
               {| e_user_id := Some (u_id x.2);
                  e_action := u "attendance_marked";
                  e_details :=
                    Some (Text (u "Отметка: " ++
                                (if truthy (Some location) then location
                                 else u "не указано"))) |})
           (Db.get_all_users (db b))
      ++ [ {| e_user_id := None; e_action := u "mark_all_arrived";
              e_details :=
                Some (Text (u "Все отмечены прибывшими в " ++ location)) |} ]
  ∧ sent (AdminPanel.mark_all_arrived location b).2
    = sent b
      ++ [AdminNotification "admin_action"
            (u "Все бойцы отмечены прибывшими в " ++ location) None]
  ∧ storage (AdminPanel.mark_all_arrived location b).2 = storage b.
Proof.
  assert (Hlen : length (Db.get_all_users (db b)) = size (users (db b))).
  { rewrite (get_all_users_Permutation (db b)). apply length_map_to_list. }
  destruct (mark_each_result (today b) location (Db.get_all_users (db b))
              0%Z (db b)) as (H1 & H2 & H3).
  { intros [t row] Hx. by apply elem_of_get_all_users. }
  pose proof (mark_each_users (today b) location
                (Db.get_all_users (db b)) 0%Z (db b)) as Hu.
  unfold AdminPanel.mark_all_arrived, bind, exec_, ret,
    AdminPanel.send_admin_notification, emit.
  destruct (AdminPanel.mark_each (today b) location
              (Db.get_all_users (db b)) 0%Z (db b)) as [count d'].
  cbn [fst snd] in *. unfold with_sent, with_db, Db.log_event, with_events.
  cbn [db users events attendance sent storage].
  split; [rewrite H1, Hlen; unfold DbUsers.get_total_users; lia|].
  split; [exact Hu|]. split.
  { intros t row Hrow. apply H3. right. exists (t, row).
    split; [by apply elem_of_get_all_users|reflexivity]. }
  split; [by rewrite H2, <- (assoc_L (++))|].
  split; reflexivity.
Qed.

Lemma slice_window {A} (l : list A) (lo k : Z) :
  (0 ≤ lo)%Z → (0 ≤ k)%Z →
  Py.slice l lo (lo + k) = take (Z.to_nat k) (drop (Z.to_nat lo) l).
Proof.
  intros Hlo Hk. unfold Py.slice, Py.slice_bound.
  destruct (Z.ltb_spec lo 0) as [?|_]; [lia|].
  destruct (Z.ltb_spec (lo + k) 0) as [?|_]; [lia|].
  destruct (Z_le_gt_dec lo (Z.of_nat (length l))) as [Hin|Hout].
  - rewrite (Z.min_l lo) by lia.
    destruct (Z_le_gt_dec (lo + k) (Z.of_nat (length l))) as [Hin'|Hout'].
    + rewrite Z.min_l by lia. f_equal. lia.
    + rewrite Z.min_r by lia.
      rewrite !take_ge; [reflexivity| |]; rewrite length_drop; lia.
  - rewrite !Z.min_r by lia. rewrite Z.sub_diag.
    change (Z.to_nat 0) with 0%nat. rewrite take_0.
    rewrite (drop_ge l (Z.to_nat lo)) by lia. by rewrite take_nil.
Qed.

Lemma concat_windows {A} (l : list A) (k : nat) : ∀ m,
  concat (map (λ i, take k (drop ((i - 1) * k) l)) (seq 1 m))
  = take (m * k) l.
Proof.
  induction m as [|m IH]; [by rewrite take_0|].
  rewrite seq_S, map_app, concat_app, IH. cbn [map concat plus].
  rewrite app_nil_r. replace (S m - 1) with m by lia.
  rewrite take_take_drop. f_equal. lia.
Qed.

(** X15.  The pages of [get_users_list] for a positive page size: the
    page of number [page >= 1] holds at most [per_page] soldiers, the ones
    from position [(page - 1) * per_page] of the list by name; the pages
    from 1 to the total are not empty when there are soldiers, the pages
    after the total are empty, and the pages from 1 to the total, one
    after the other, are the whole list. *)
Theorem users_pages_partition_the_soldiers (d : Database) (per_page : Z) :
  (0 < per_page)%Z →
  let total := (AdminPanel.get_users_list 1 per_page d).2 in
  let users_on page := (AdminPanel.get_users_list page per_page d).1.1 in
  (∀ page, (1 ≤ page)%Z →
     users_on page
     = take (Z.to_nat per_page)
         (drop (Z.to_nat ((page - 1) * per_page)) (soldiers d))
     ∧ (Z.of_nat (length (users_on page)) ≤ per_page)%Z)
  ∧ (∀ page, (1 ≤ page ≤ total)%Z → (0 < soldiers_count d)%Z →
       users_on page ≠ [])
  ∧ (∀ page, (total < page)%Z → users_on page = [])
  ∧ concat (map (λ i, users_on (Z.of_nat i)) (seq 1 (Z.to_nat total)))
    = soldiers d.
Proof.
  intros Hpp total users_on.
  assert (Hgen : ∀ page,
            AdminPanel.get_users_list page per_page d
            = (Py.slice (soldiers d) ((page - 1) * per_page)
                 ((page - 1) * per_page + per_page), page,
               if (0 <? soldiers_count d)%Z
               then ((soldiers_count d + per_page - 1) `div` per_page)%Z
               else 1%Z)).
  { intros page. unfold AdminPanel.get_users_list, soldiers_count, soldiers.
    destruct (Z.eqb_spec per_page 0) as [?|_]; [lia|].
    rewrite andb_false_r. reflexivity. }
  set (n := soldiers_count d) in *.
  assert (Hn : (0 ≤ n)%Z) by (unfold n, soldiers_count; lia).
  assert (Htot : total = if (0 <? n)%Z
                         then ((n + per_page - 1) `div` per_page)%Z
                         else 1%Z).
  { unfold total. by rewrite Hgen. }
  assert (Hceil : (0 < n → per_page * (total - 1) < n ≤ per_page * total)%Z).
  { intros Hpos. rewrite Htot.
    destruct (Z.ltb_spec 0 n) as [_|?]; [|lia].
    pose proof (Z.div_mod (n + per_page - 1) per_page ltac:(lia)).
    pose proof (Z.mod_pos_bound (n + per_page - 1) per_page Hpp). nia. }
  assert (Hzero : (n ≤ 0)%Z → total = 1%Z).
  { intros Hz. rewrite Htot. destruct (Z.ltb_spec 0 n); [lia|reflexivity]. }
  assert (Hpage : ∀ page, (1 ≤ page)%Z →
            users_on page
            = take (Z.to_nat per_page)
                (drop (Z.to_nat ((page - 1) * per_page)) (soldiers d))).
  { intros page H1. unfold users_on. rewrite Hgen. cbn [fst].
    apply slice_window; nia. }
  assert (Hlen : Z.of_nat (length (soldiers d)) = n) by reflexivity.
  split; [|split; [|split]].
  - intros page H1. split; [by apply Hpage|].
    rewrite (Hpage page H1), length_take. lia.
  - intros page [H1 H2] Hpos Hnil.
    rewrite (Hpage page H1) in Hnil.
    apply (f_equal length) in Hnil.
    rewrite length_take, length_drop in Hnil. cbn [length] in Hnil.
    specialize (Hceil Hpos). nia.
  - intros page Hgt.
    assert (H1 : (1 ≤ total)%Z).
    { destruct (Z_lt_le_dec 0 n) as [Hpos|Hz];
        [specialize (Hceil Hpos); nia|rewrite (Hzero Hz); lia]. }
    rewrite (Hpage page) by lia. rewrite drop_ge; [by rewrite take_nil|].
    destruct (Z_lt_le_dec 0 n) as [Hpos|Hz];
      [specialize (Hceil Hpos)|specialize (Hzero Hz)]; nia.
  - rewrite <- (take_ge (soldiers d)
                  (Z.to_nat total * Z.to_nat per_page)).
    + rewrite <- concat_windows. f_equal. apply map_ext_in.
      intros i Hi. apply in_seq in Hi. rewrite Hpage by lia.
      do 2 f_equal. rewrite Z2Nat.inj_mul by lia. f_equal. lia.
    + destruct (Z_lt_le_dec 0 n) as [Hpos|Hz];
        [specialize (Hceil Hpos)|specialize (Hzero Hz)]; nia.
Qed.

Lemma users_pages_partition_the_soldiers_witness :
  concat (map (λ i, (AdminPanel.get_users_list (Z.of_nat i) 8
                       (db Sample.bot20)).1.1) (seq 1 3))
  = soldiers (db Sample.bot20).
Proof.
  exact (proj2 (proj2 (proj2
           (users_pages_partition_the_soldiers (db Sample.bot20) 8
              eq_refl)))).
Defined.

(** X16.  The admin panel's [change_user_name] and [delete_user] notify
    the admins exactly when the store changed.  For an unknown user both
    return [False] and the bot is as before, with nothing sent.  For a
    registered user both return [True], the store is the one that
    [update_user_name] or [delete_user] of the database leaves, and one
    notification goes out, which for a deletion carries the name the user
    had. *)
Theorem panel_edits_notify_on_success
    (telegram_id : Z) (new_name : str) (b : Bot) :
  match Db.get_user telegram_id (db b) with
  | None =>
    Admins.change_user_name telegram_id new_name b = (false, b)
    ∧ Admins.delete_user telegram_id b = (false, b)
  | Some row =>
    Admins.change_user_name telegram_id new_name b
    = (true,
       with_sent
         (λ l, l ++ [AdminNotification "name_changed"
                       (u "Имя изменено на: " ++ new_name)
                       (Some new_name)])
         (with_db (λ d, (DbUsers.update_user_name telegram_id new_name d).2)
            b))
    ∧ Admins.delete_user telegram_id b
      = (true,
         with_sent
           (λ l, l ++ [AdminNotification "user_deleted"
                         (u "Удален боец: " ++ u_name row)
                         (Some (u_name row))])
           (with_db (λ d, (DbUsers.delete_user telegram_id d).2) b))
  end.
Proof.
  destruct (Db.get_user telegram_id (db b)) as [row|] eqn:Hu.
  - split.
    + unfold Admins.change_user_name, bind, exec, with_db. cbv beta.
      rewrite (update_user_name_registered _ _ _ _ Hu). reflexivity.
    + unfold Admins.delete_user, bind, query, exec, with_db. cbv beta.
      rewrite Hu. rewrite (delete_user_registered _ _ _ Hu). reflexivity.
  - split.
    + unfold Admins.change_user_name, bind, exec, DbUsers.update_user_name.
      rewrite Hu. by destruct b.
    + unfold Admins.delete_user, bind, query. rewrite Hu. reflexivity.
Qed.

(** ** Handlers *)

(** X17.  Text is read only inside a conversation step that asks for it:
    when the user's state is none of the four input states (no
    conversation, or a step that waits for a button), [handle_text_message]
    does nothing at all: no reply, no change of the store or of the
    conversation. *)
Theorem text_outside_an_input_step_is_ignored
    (user_id : Z) (username : option str) (text : str) (b : Bot) :
  fsm_state (context user_id b)
    ∉ [ Some waiting_for_name; Some waiting_for_custom_location;
        Some waiting_for_danger_confirmation;
        Some waiting_for_filter_input ] →
  Handlers.handle_text_message user_id username text b = (tt, b).
Proof.
  intros Hstate. unfold Handlers.handle_text_message, bind, get_state.
  destruct (fsm_state (context user_id b)) as [[]|];
    try reflexivity; exfalso; apply Hstate;
    repeat first [apply list_elem_of_here | apply list_elem_of_further].
Qed.

Lemma text_outside_an_input_step_is_ignored_witness :
  Handlers.handle_text_message 42 None (u "Склад") Sample.bot1
  = (tt, Sample.bot1).
Proof.
  apply text_outside_an_input_step_is_ignored.
  apply (bool_decide_unpack _). vm_compute. exact I.
Defined.

(** X18.  The callbacks that only show something.  [back_to_main],
    [my_status], [help] and [cancel] of the user menu change neither the
    store nor any conversation; in particular the [cancel] button does
    not end the step the user is in. *)
Theorem menu_callbacks_change_nothing
    (user_id : Z) (data : str) (b : Bot) :
  default [] (split 58 data !! 1)
    ∈ [u "back_to_main"; u "my_status"; u "help"; u "cancel"] →
  db (Handlers.handle_user_callback user_id data b).2 = db b
  ∧ storage (Handlers.handle_user_callback user_id data b).2
    = storage b
  ∧ ADMIN_IDS (Handlers.handle_user_callback user_id data b).2
    = ADMIN_IDS b.
Proof.
  intros Hin. unfold Handlers.handle_user_callback. cbv zeta.
  set (action := default [] (split 58 data !! 1)) in *.
  repeat (apply elem_of_cons in Hin as [Hin | Hin]);
    [| | | |by apply elem_of_nil in Hin]; rewrite Hin.
  - rewrite (bool_decide_eq_true_2 (u "back_to_main" = u "back_to_main")
               eq_refl).
    repeat split.
  - change (bool_decide (u "my_status" = u "back_to_main")) with false.
    change (bool_decide (u "my_status" = u "arrived")) with false.
    change (bool_decide (u "my_status" = u "departed")) with false.
    rewrite (bool_decide_eq_true_2 (u "my_status" = u "my_status") eq_refl).
    repeat split.
  - change (bool_decide (u "help" = u "back_to_main")) with false.
    change (bool_decide (u "help" = u "arrived")) with false.
    change (bool_decide (u "help" = u "departed")) with false.
    change (bool_decide (u "help" = u "my_status")) with false.
    rewrite (bool_decide_eq_true_2 (u "help" = u "help") eq_refl).
    repeat split.
  - change (bool_decide (u "cancel" = u "back_to_main")) with false.
    change (bool_decide (u "cancel" = u "arrived")) with false.
    change (bool_decide (u "cancel" = u "departed")) with false.
    change (bool_decide (u "cancel" = u "my_status")) with false.
    change (bool_decide (u "cancel" = u "help")) with false.
    change (startswith (u "cancel") (u "location_")) with false.
    change (bool_decide (u "cancel" = u "initial_status_in_unit"))
      with false.
    change (bool_decide (u "cancel" = u "initial_status_away")) with false.
    rewrite (bool_decide_eq_true_2 (u "cancel" = u "cancel") eq_refl).
    repeat split.
Qed.

Lemma menu_callbacks_change_nothing_witness :
  storage (Handlers.handle_user_callback 42
             (u "user:cancel") Sample.bot_custom).2
  = storage Sample.bot_custom.
Proof.
  refine (proj1 (proj2 (menu_callbacks_change_nothing 42
                          (u "user:cancel") Sample.bot_custom _))).
  apply (bool_decide_unpack _). vm_compute. exact I.
Defined.

(** X19.  A callback that names nothing the bot knows is only answered
    with an alert.  Data outside the two name spaces [admin:] and [user:]
    gets the unknown-callback alert, and [user:] data whose action is none
    of the menu's gets the unknown-action alert; nothing else is sent and
    neither the store nor the conversation changes. *)
Theorem unknown_callback_only_alerts
    (panel_section : str → str → M (Msg * Keyboard))
    (user_id : Z) (data : str) (b : Bot) :
  startswith data (u "admin:") = false →
  (startswith data (u "user:") = true →
   (default [] (split 58 data !! 1)
      ∉ [ u "back_to_main"; u "arrived"; u "departed"; u "my_status";
          u "help"; u "initial_status_in_unit"; u "initial_status_away";
          u "cancel" ])
   ∧ startswith (default [] (split 58 data !! 1)) (u "location_") = false) →
  Handlers.handle_callback_query panel_section user_id data b
  = (tt, with_sent
           (λ l, l ++ [CallbackAnswer
                         (Some (Lit (if startswith data (u "user:")
                                     then "❌ Неизвестное действие"
                                     else "❌ Неизвестный callback")))])
           b).
Proof.
  intros Hadmin Huser. unfold Handlers.handle_callback_query.
  rewrite Hadmin. destruct (startswith data (u "user:")); [|reflexivity].
  destruct (Huser eq_refl) as [Hnot Hloc].
  unfold Handlers.handle_user_callback. cbv zeta.
  set (action := default [] (split 58 data !! 1)) in *.
  rewrite Hloc.
  repeat (rewrite bool_decide_eq_false_2;
          [|intros Heq; apply Hnot; rewrite Heq;
            repeat first [apply list_elem_of_here
                         | apply list_elem_of_further]]).
  reflexivity.
Qed.

Lemma unknown_callback_only_alerts_witness :
  Handlers.handle_callback_query Sample.no_panel 42 (u "user:dance")
    Sample.bot1
  = (tt, with_sent
           (λ l, l ++ [CallbackAnswer
                         (Some (Lit "❌ Неизвестное действие"))])
           Sample.bot1).
Proof.
  refine (unknown_callback_only_alerts Sample.no_panel 42 (u "user:dance")
            Sample.bot1 _ _).
  - vm_compute. reflexivity.
  - intros _. split.
    + apply (bool_decide_unpack _). vm_compute. exact I.
    + vm_compute. reflexivity.
Defined.
(** X20.  The buttons of the soldier menu that ask the store.  The
    departure button shows no locations and opens no choice of a
    location, and the status button shows no status: both handlers, and
    with them the way back to the main menu, meet [admin_panel] first and
    are answered with the error alert, for every user; the bot is
    otherwise as it was. *)
Theorem departure_button_only_alerts (user_id : Z) (b : Bot) :
  Handlers.handle_departure_callback user_id b
  = (tt, with_sent
           (λ l, l ++ [CallbackAnswer (Some (Lit "❌ Произошла ошибка"))]) b)
  ∧ Handlers.handle_my_status_callback user_id b
    = (tt, with_sent
             (λ l, l ++ [CallbackAnswer (Some (Lit "❌ Произошла ошибка"))])
             b)
  ∧ Handlers.handle_user_callback user_id (u "user:departed") b
    = (tt, with_sent
             (λ l, l ++ [CallbackAnswer (Some (Lit "❌ Произошла ошибка"))])
             b)
  ∧ Handlers.handle_user_callback user_id (u "user:my_status") b
    = (tt, with_sent
             (λ l, l ++ [CallbackAnswer (Some (Lit "❌ Произошла ошибка"))])
             b)
  ∧ Handlers.handle_user_callback user_id (u "user:back_to_main") b
    = (tt, with_sent
             (λ l, l ++ [CallbackAnswer (Some (Lit "❌ Произошла ошибка"))])
             b).
Proof.
  split; [reflexivity|]. split; [reflexivity|].
  split; [vm_compute; reflexivity|].
  split; vm_compute; reflexivity.
Qed.

(** Outside the registration a location button is answered with the
    error alert. *)
Lemma location_callback_outside_registration
    (user_id : Z) (action : str) (b : Bot) :
  fsm_state (context user_id b) ≠ Some waiting_for_initial_status →
  Handlers.handle_location_callback user_id action b
  = (tt, with_sent
           (λ l, l ++ [CallbackAnswer (Some (Lit "❌ Произошла ошибка"))]) b).
Proof.
  intros Hstate.
  unfold Handlers.handle_location_callback, try_except, bind_exn, returns,
    get_state.
  cbn [fst snd]. rewrite (bool_decide_eq_false_2 _ Hstate). reflexivity.
Qed.

(** In the registration the button is served by
    [handle_initial_location_callback]. *)
Lemma location_callback_in_registration
    (user_id : Z) (action : str) (b : Bot) :
  fsm_state (context user_id b) = Some waiting_for_initial_status →
  Handlers.handle_location_callback user_id action b
  = Handlers.handle_initial_location_callback user_id action b.
Proof.
  intros Hstate.
  unfold Handlers.handle_location_callback, try_except at 1,
    bind_exn at 1, returns at 1, get_state.
  cbn [fst snd]. rewrite (bool_decide_eq_true_2 _ Hstate).
  unfold returns.
  by destruct (Handlers.handle_initial_location_callback user_id action b)
    as [[] b'].
Qed.

(** What [handle_initial_location_callback] does: the two arms that
    need no store run, and the arm of a named location ends in the
    [except] arm, which also ends the conversation. *)
Lemma initial_location_result (user_id : Z) (action : str) (b : Bot) :
  Handlers.handle_initial_location_callback user_id action b
  = let data := fsm_data (context user_id b) in
    let name := default [] (user_name data) in
    if negb (truthy (user_name data)) then
      emit (CallbackAnswer
              (Some (Lit "❌ Ошибка: имя пользователя не найдено"))) b
    else if bool_decide (action = u "location_custom") then
      (emit (EditText (Fmt "✏️ *Введите локацию:*" [name])
               (Some get_cancel_keyboard)) ;;;
       set_state user_id waiting_for_custom_location ;;;
       update_data user_id
         (λ data, {| user_name := user_name data;
                     is_registration := true;
                     danger_action := danger_action data;
                     text_confirmed := text_confirmed data;
                     filter_type := filter_type data |}))%bot b
    else if bool_decide (action = u "cancel") then
      emit (EditText (Fmt "📍 *Выберите ваш текущий статус:*" [name])
              (Some get_initial_status_keyboard)) b
    else
      (Handlers.error_alert ;;; finish user_id)%bot b.
Proof.
  unfold Handlers.handle_initial_location_callback, try_except,
    bind_exn at 1, returns at 1, get_data.
  cbn [fst snd]. cbv zeta.
  destruct (truthy (user_name (fsm_data (context user_id b))));
    cbn [negb]; [|reflexivity].
  destruct (bool_decide (action = u "location_custom")); [reflexivity|].
  destruct (bool_decide (action = u "cancel")); reflexivity.
Qed.

(** X21.  A location button stores no location.  Outside the registration
    it is answered with the error alert.  In the registration, at the
    choice of the initial status, the button for a typed location asks
    for the text and moves the conversation to the custom-location step,
    marked as a registration; the button of a named location is answered
    with the error alert and ends the conversation, and the user is not
    registered.  The store is the same in every case. *)
Theorem location_button_stores_nothing
    (user_id : Z) (action : str) (b : Bot) :
  let data := fsm_data (context user_id b) in
  let name := default [] (user_name data) in
  let r := Handlers.handle_location_callback user_id action b in
  db r.2 = db b
  ∧ (if bool_decide (fsm_state (context user_id b)
                     = Some waiting_for_initial_status)
     then
       if negb (truthy (user_name data)) then
         r = (tt, with_sent
                    (λ l, l ++ [CallbackAnswer
                                  (Some (Lit "❌ Ошибка: имя пользователя не найдено"))])
                    b)
       else if bool_decide (action = u "location_custom") then
         sent r.2
         = sent b ++ [EditText (Fmt "✏️ *Введите локацию:*" [name])
                        (Some get_cancel_keyboard)]
         ∧ context user_id r.2
           = {| fsm_state := Some waiting_for_custom_location;
                fsm_data := {| user_name := user_name data;
                               is_registration := true;
                               danger_action := danger_action data;
                               text_confirmed := text_confirmed data;
                               filter_type := filter_type data |} |}
       else if bool_decide (action = u "cancel") then
         r = (tt, with_sent
                    (λ l, l ++ [EditText
                                  (Fmt "📍 *Выберите ваш текущий статус:*"
                                     [name])
                                  (Some get_initial_status_keyboard)]) b)
       else
         r = (tt, with_storage (delete user_id)
                    (with_sent
                       (λ l, l ++ [CallbackAnswer
                                     (Some (Lit "❌ Произошла ошибка"))]) b))
     else
       r = (tt, with_sent
                  (λ l, l ++ [CallbackAnswer
                                (Some (Lit "❌ Произошла ошибка"))]) b)).
Proof.
  cbv zeta. split; [apply handle_location_callback_leaves_store|].
  destruct (bool_decide_reflect
              (fsm_state (context user_id b)
               = Some waiting_for_initial_status)) as [Hstate | Hstate];
    [|exact (location_callback_outside_registration _ _ _ Hstate)].
  rewrite (location_callback_in_registration _ _ _ Hstate).
  rewrite initial_location_result. cbv zeta.
  destruct (truthy (user_name (fsm_data (context user_id b))));
    cbn [negb]; [|reflexivity].
  destruct (bool_decide (action = u "location_custom")).
  { unfold bind, emit, set_state, update_data.
    cbn [fst snd]. split; [reflexivity|].
    rewrite !context_insert. reflexivity. }
  destruct (bool_decide (action = u "cancel")); reflexivity.
Qed.

(** X22.  A custom location that passes the two checks is not stored.  At
    the custom-location step a text of at least 4 characters of the
    pattern's class is answered with the general error and the cancel
    keyboard (inside a registration whose name is missing, with the
    name-missing error); no status and no location is written and the
    conversation stays at the step with its data. *)
Theorem valid_custom_location_is_not_stored
    (user_id : Z) (username : option str) (location : str) (b : Bot) :
  fsm_state (context user_id b) = Some waiting_for_custom_location →
  4 ≤ length location →
  location_pattern location = true →
  let data := fsm_data (context user_id b) in
  let r := Handlers.handle_text_message user_id username location b in
  r = (tt, with_sent
             (λ l, l ++ [ MessageDelete;
                          if is_registration data
                             && negb (truthy (user_name data))
                          then MessageAnswer
                                 (Lit "❌ Ошибка: имя пользователя не найдено")
                                 None
                          else MessageAnswer
                                 (Lit "❌ Произошла ошибка. Попробуйте еще раз.")
                                 (Some get_cancel_keyboard) ]) b)
  ∧ db r.2 = db b
  ∧ context user_id r.2 = context user_id b.
Proof.
  intros Hstate Hlen Hpat. cbv zeta.
  assert (Hrun :
    Handlers.handle_text_message user_id username location b
    = (tt, with_sent
             (λ l, l ++ [ MessageDelete;
                          if is_registration (fsm_data (context user_id b))
                             && negb (truthy
                                        (user_name
                                           (fsm_data (context user_id b))))
                          then MessageAnswer
                                 (Lit "❌ Ошибка: имя пользователя не найдено")
                                 None
                          else MessageAnswer
                                 (Lit "❌ Произошла ошибка. Попробуйте еще раз.")
                                 (Some get_cancel_keyboard) ]) b)).
  { unfold Handlers.handle_text_message, bind, get_state. rewrite Hstate.
    unfold Handlers.handle_custom_location_input, try_except,
      bind_exn at 1, returns at 1, emit at 1.
    cbn [fst snd].
    rewrite bool_decide_eq_false_2 by lia. rewrite Hpat. cbn [negb].
    unfold bind_exn at 1, returns at 1, get_data.
    assert (Hctx : ∀ f, context user_id (with_sent f b) = context user_id b)
      by reflexivity.
    rewrite Hctx. cbn [fst snd].
    destruct (is_registration (fsm_data (context user_id b)));
      cbn [andb].
    - destruct (truthy (user_name (fsm_data (context user_id b))));
        cbn [negb].
      + unfold bind_exn, admin_panel, raise, emit, with_sent.
        cbn [fst snd sent db ADMIN_IDS today storage].
        by rewrite <- (assoc_L (++)).
      + unfold returns, emit, with_sent.
        cbn [fst snd sent db ADMIN_IDS today storage].
        by rewrite <- (assoc_L (++)).
    - unfold bind_exn, admin_panel, raise, emit, with_sent.
      cbn [fst snd sent db ADMIN_IDS today storage].
      by rewrite <- (assoc_L (++)). }
  rewrite Hrun. repeat split.
Qed.

Lemma valid_custom_location_is_not_stored_witness :
  fsm_state (context 42 Sample.bot_custom)
  = Some waiting_for_custom_location
  ∧ 4 ≤ length (u "Учебный центр")
  ∧ location_pattern (u "Учебный центр") = true
  ∧ Handlers.handle_text_message 42 None (u "Учебный центр")
      Sample.bot_custom
    = (tt, with_sent
             (λ l, l ++ [ MessageDelete;
                          MessageAnswer
                            (Lit "❌ Произошла ошибка. Попробуйте еще раз.")
                            (Some get_cancel_keyboard) ])
             Sample.bot_custom)
  ∧ Db.get_soldier_status 42
      (db (Handlers.handle_text_message 42 None (u "Учебный центр")
             Sample.bot_custom).2)
    = Db.get_soldier_status 42 (db Sample.bot_custom).
Proof.
  assert (H1 : fsm_state (context 42 Sample.bot_custom)
               = Some waiting_for_custom_location).
  { vm_compute. reflexivity. }
  assert (H2 : 4 ≤ length (u "Учебный центр")).
  { apply (bool_decide_unpack _). vm_compute. exact I. }
  assert (H3 : location_pattern (u "Учебный центр") = true).
  { vm_compute. reflexivity. }
  pose proof (valid_custom_location_is_not_stored 42 None
                (u "Учебный центр") Sample.bot_custom H1 H2 H3) as Hthm.
  cbv zeta in Hthm. destruct Hthm as (Hrun & Hdb & _).
  split; [exact H1|]. split; [exact H2|]. split; [exact H3|].
  split; [|by rewrite Hdb].
  rewrite Hrun. vm_compute. reflexivity.
Defined.

Lemma lower_char_target (c t : N) :
  (t = 1076 ∨ t = 1072)%N →
  lower_char c = t ↔ c = t ∨ c = (t - 32)%N.
Proof.
  intros Ht. unfold lower_char.
  destruct (N.leb_spec 65 c), (N.leb_spec c 90), (N.leb_spec 1040 c),
    (N.leb_spec c 1071), (N.leb_spec 1024 c), (N.leb_spec c 1039);
    cbn [andb]; lia.
Qed.

(** X23.  The typed confirmation of a dangerous operation is the word
    [да] in any mix of upper and lower case, with white space around it
    allowed: [is_confirmation] accepts exactly the texts that strip to
    one of the four spellings. *)
Theorem confirmation_is_da_in_any_case (text : str) :
  is_confirmation text = true
  ↔ strip text ∈ [u "да"; u "Да"; u "дА"; u "ДА"].
Proof.
  unfold is_confirmation. rewrite bool_decide_eq_true.
  change (u "да") with [1076; 1072]%N.
  change (u "Да") with [1044; 1072]%N.
  change (u "дА") with [1076; 1040]%N.
  change (u "ДА") with [1044; 1040]%N.
  generalize (strip text). intros s. split.
  - destruct s as [|a [|c [|? ?]]]; cbn [lower map]; intros H;
      try discriminate.
    injection H as Ha Hc.
    apply (lower_char_target a 1076) in Ha; [|by left].
    apply (lower_char_target c 1072) in Hc; [|by right].
    destruct Ha as [->| ->], Hc as [->| ->];
      repeat first [apply list_elem_of_here | apply list_elem_of_further].
  - intros H.
    repeat (apply elem_of_cons in H as [-> | H]; [reflexivity|]).
    by apply elem_of_nil in H.
Qed.

(** [start_command] leaves through the [NameError] of its second line. *)
Lemma start_command_result
    (panel_section : str → str → M (Msg * Keyboard))
    (user_id : Z) (b : Bot) :
  Handlers.start_command user_id b
  = (inl (NameError "admin_panel"),
     with_sent (λ l, l ++ [MessageDelete]) b)
  ∧ Handlers.dispatch panel_section user_id Handlers.Start b
    = (tt, with_sent
             (λ l, l ++ [MessageDelete; Uncaught (NameError "admin_panel")])
             b).
Proof.
  split; [reflexivity|].
  unfold Handlers.dispatch, uncaught, Handlers.start_command, bind_exn,
    returns, admin_panel, raise, emit, with_sent.
  cbn [fst snd sent db ADMIN_IDS today storage].
  by rewrite <- (assoc_L (++)).
Qed.

(** X24.  [start_command] answers nobody.  It deletes the message, inside
    a [try] of its own, and then asks [admin_panel] for the user outside
    any [try]: the [NameError] leaves the handler, for a registered user
    and for an unknown one alike.  No menu and no welcome text is sent,
    no conversation waits for a name, and the store is untouched. *)
Theorem start_command_fails_before_replying
    (panel_section : str → str → M (Msg * Keyboard))
    (user_id : Z) (b : Bot) :
  Handlers.start_command user_id b
  = (inl (NameError "admin_panel"),
     with_sent (λ l, l ++ [MessageDelete]) b)
  ∧ Handlers.dispatch panel_section user_id Handlers.Start b
    = (tt, with_sent
             (λ l, l ++ [MessageDelete; Uncaught (NameError "admin_panel")])
             b).
Proof. exact (start_command_result panel_section user_id b). Qed.

(** Without a conversation in progress an update only sends something. *)
Lemma context_empty (user_id : Z) (b : Bot) :
  storage b = ∅ → context user_id b = IDLE.
Proof. intros H. unfold context. by rewrite H, lookup_empty. Qed.

Lemma user_callback_without_conversation
    (user_id : Z) (data : str) (b : Bot) :
  storage b = ∅ →
  ∃ effects, Handlers.handle_user_callback user_id data b
             = (tt, with_sent (λ l, l ++ effects) b).
Proof.
  intros Hempty.
  assert (Hloc : ∀ action,
    Handlers.handle_location_callback user_id action b
    = (tt, with_sent
             (λ l, l ++ [CallbackAnswer (Some (Lit "❌ Произошла ошибка"))])
             b)).
  { intros action. apply location_callback_outside_registration.
    by rewrite (context_empty _ _ Hempty). }
  assert (Hinit : ∀ status,
    Handlers.handle_initial_status_callback user_id status b
    = (tt, with_sent
             (λ l, l ++ [CallbackAnswer
                           (Some (Lit "❌ Ошибка: имя пользователя не найдено"))])
             b)).
  { intros status.
    unfold Handlers.handle_initial_status_callback, try_except,
      bind_exn, returns, get_data.
    cbn [fst snd]. by rewrite (context_empty _ _ Hempty). }
  unfold Handlers.handle_user_callback. cbv zeta.
  generalize (default [] (split 58 data !! 1)). intros action.
  destruct (bool_decide (action = u "back_to_main"));
    [eexists; reflexivity|].
  destruct (bool_decide (action = u "arrived")); [eexists; reflexivity|].
  destruct (bool_decide (action = u "departed")); [eexists; reflexivity|].
  destruct (bool_decide (action = u "my_status")); [eexists; reflexivity|].
  destruct (bool_decide (action = u "help")); [eexists; reflexivity|].
  destruct (startswith action (u "location_")).
  { unfold try_except, returns. rewrite Hloc. eexists. reflexivity. }
  destruct (bool_decide (action = u "initial_status_in_unit")).
  { unfold try_except, returns. rewrite Hinit. eexists. reflexivity. }
  destruct (bool_decide (action = u "initial_status_away")).
  { unfold try_except, returns. rewrite Hinit. eexists. reflexivity. }
  destruct (bool_decide (action = u "cancel")); eexists; reflexivity.
Qed.

Lemma dispatch_without_conversation
    (panel_section : str → str → M (Msg * Keyboard))
    (user_id : Z) (upd : Handlers.Update) (b : Bot) :
  storage b = ∅ →
  ∃ effects, Handlers.dispatch panel_section user_id upd b
             = (tt, with_sent (λ l, l ++ effects) b).
Proof.
  intros Hempty. destruct upd as [|username text|data].
  - eexists.
    exact (proj2 (start_command_result panel_section user_id b)).
  - exists []. unfold Handlers.dispatch, Handlers.handle_text_message,
      bind, get_state.
    rewrite (context_empty _ _ Hempty). cbn [fsm_state IDLE].
    unfold pass, ret, with_sent. destruct b. cbn. by rewrite app_nil_r.
  - unfold Handlers.dispatch, Handlers.handle_callback_query.
    destruct (startswith data (u "admin:")).
    { eexists. apply admin_callback_result. }
    destruct (startswith data (u "user:")).
    { by apply user_callback_without_conversation. }
    eexists. reflexivity.
Qed.

Lemma run_without_conversation
    (panel_section : str → str → M (Msg * Keyboard))
    (l : list (Z * Handlers.Update)) : ∀ b,
  storage b = ∅ →
  ∃ effects, Handlers.run panel_section l b
             = with_sent (λ s, s ++ effects) b.
Proof.
  induction l as [|[user_id upd] l IH]; intros b Hempty.
  - exists []. cbn [Handlers.run]. unfold with_sent. destruct b. cbn.
    by rewrite app_nil_r.
  - cbn [Handlers.run].
    destruct (dispatch_without_conversation panel_section user_id upd b
                Hempty) as (e1 & ->).
    cbn [snd].
    destruct (IH (with_sent (λ s, s ++ e1) b) Hempty) as (e2 & ->).
    exists (e1 ++ e2). unfold with_sent.
    cbn [sent db ADMIN_IDS today storage]. by rewrite (assoc_L (++)).
Qed.

(** X25.  Nobody is registered through the handlers.  Starting from a bot
    in which no conversation is in progress, whatever the users send, in
    any order, the store is as before, so no user row and no event is
    written, and still no conversation is in progress: the registration
    is not begun, and no step of it is reached. *)
Theorem handlers_register_nobody
    (panel_section : str → str → M (Msg * Keyboard))
    (l : list (Z * Handlers.Update)) (b : Bot) :
  storage b = ∅ →
  db (Handlers.run panel_section l b) = db b
  ∧ storage (Handlers.run panel_section l b) = ∅
  ∧ ADMIN_IDS (Handlers.run panel_section l b) = ADMIN_IDS b.
Proof.
  intros Hempty.
  destruct (run_without_conversation panel_section l b Hempty)
    as (effects & ->).
  repeat split. exact Hempty.
Qed.

Lemma handlers_register_nobody_witness :
  storage Sample.bot0 = ∅
  ∧ Db.get_user 7
      (db (Handlers.run Sample.no_panel
             [ (7, Handlers.Start);
               (7, Handlers.TextMessage None (u "Петров П.П."));
               (7, Handlers.CallbackQuery
                     (u "user:initial_status_in_unit")) ]%Z
             Sample.bot0))
    = None
  ∧ storage
      (Handlers.run Sample.no_panel
         [ (7, Handlers.Start);
           (7, Handlers.TextMessage None (u "Петров П.П."));
           (7, Handlers.CallbackQuery
                 (u "user:initial_status_in_unit")) ]%Z
         Sample.bot0)
    = ∅.
Proof.
  assert (Hempty : storage Sample.bot0 = ∅) by reflexivity.
  destruct (handlers_register_nobody Sample.no_panel
              [ (7, Handlers.Start);
                (7, Handlers.TextMessage None (u "Петров П.П."));
                (7, Handlers.CallbackQuery
                      (u "user:initial_status_in_unit")) ]%Z
              Sample.bot0 Hempty) as (Hdb & Hstorage & _).
  split; [exact Hempty|]. split; [|exact Hstorage].
  rewrite Hdb. vm_compute. reflexivity.
Defined.

(** ** Text helpers and configuration *)

Lemma skip_app (p : N → bool) (l rest : str) :
  Forall (λ c, p c = true) l →
  match rest with [] => True | c :: _ => p c = false end →
  skip p (l ++ rest) = rest.
Proof.
  intros Hl Hrest. induction Hl as [|c l Hc _ IH].
  - destruct rest as [|c r]; [reflexivity|]. cbn [app skip]. by rewrite Hrest.
  - cbn [app skip]. by rewrite Hc.
Qed.

Lemma skip_split (p : N → bool) (s : str) :
  ∃ l, s = l ++ skip p s ∧ Forall (λ c, p c = true) l.
Proof.
  induction s as [|c s (l & Hs & Hl)].
  - exists []. by split.
  - cbn [skip]. destruct (p c) eqn:Hc.
    + exists (c :: l). split; [cbn [app]; by f_equal|by constructor].
    + exists []. by split.
Qed.

Lemma isspace_not_cyrillic_lower (c : N) :
  isspace c = true → cyrillic_lower c = false.
Proof.
  unfold isspace, cyrillic_lower. intros H.
  destruct (N.leb_spec 1072 c), (N.leb_spec c 1103), (N.eqb_spec c 1105);
    cbn [andb orb]; try reflexivity; exfalso;
    repeat (apply orb_prop in H as [H|H]);
    repeat match goal with
           | H : (_ && _)%bool = true |- _ => apply andb_prop in H as [? ?]
           end;
    repeat match goal with
           | H : (_ <=? _)%N = true |- _ => apply N.leb_le in H
           | H : (_ =? _)%N = true |- _ => apply N.eqb_eq in H
           end; lia.
Qed.

Lemma cyrillic_upper_not_isspace (c : N) :
  cyrillic_upper c = true → isspace c = false.
Proof.
  unfold isspace, cyrillic_upper. intros H.
  apply orb_prop in H as [H|H].
  - apply andb_prop in H as [H1 H2].
    apply N.leb_le in H1. apply N.leb_le in H2.
    repeat match goal with
           | |- context [(?a <=? ?b)%N] =>
             destruct (N.leb_spec a b); try lia
           | |- context [(?a =? ?b)%N] =>
             destruct (N.eqb_spec a b); try lia
           end; reflexivity.
  - apply N.eqb_eq in H. subst c. reflexivity.
Qed.

Lemma initials_shape (r2 : str) :
  match r2 with
  | [a; 46; b; 46]%N => cyrillic_upper a && cyrillic_upper b
  | _ => false
  end = true →
  ∃ a b, r2 = [a; 46; b; 46]%N
         ∧ cyrillic_upper a = true ∧ cyrillic_upper b = true.
Proof.
  destruct r2 as [|a [|d1 [|b [|d2 [|? ?]]]]]; try discriminate.
  - destruct d1 as [|p]; [discriminate|].
    do 6 (destruct p as [p|p|]; try discriminate).
  - destruct d1 as [|p]; [discriminate|].
    do 6 (destruct p as [p|p|]; try discriminate).
  - destruct d1 as [|p]; [discriminate|].
    do 6 (destruct p as [p|p|]; try discriminate).
    destruct d2 as [|q]; [discriminate|].
    do 6 (destruct q as [q|q|]; try discriminate).
    intros H. apply andb_prop in H as [Ha Hb]. by exists a, b.
  - destruct d1 as [|p]; [discriminate|].
    do 6 (destruct p as [p|p|]; try discriminate).
    destruct d2 as [|q]; [discriminate|].
    do 6 (destruct q as [q|q|]; try discriminate).
Qed.

(** X26.  [validate_full_name] accepts exactly the texts that, with the
    white space around them stripped, are one Cyrillic capital, one or
    more small Cyrillic letters, one or more white-space characters and
    two Cyrillic capitals each followed by a full stop, as in the
    pattern. *)
Theorem validate_full_name_matches_the_pattern (full_name : str) :
  validate_full_name full_name = true
  ↔ ∃ c small spaces a b,
      strip full_name = c :: small ++ spaces ++ [a; 46; b; 46]%N
      ∧ cyrillic_upper c = true
      ∧ small ≠ [] ∧ Forall (λ x, cyrillic_lower x = true) small
      ∧ spaces ≠ [] ∧ Forall (λ x, isspace x = true) spaces
      ∧ cyrillic_upper a = true ∧ cyrillic_upper b = true.
Proof.
  unfold validate_full_name. split.
  - destruct full_name as [|x0 rest0]; [discriminate|].
    destruct (strip (x0 :: rest0)) as [|c r]; [discriminate|].
    cbv zeta. intros H.
    apply andb_prop in H as [H Htail]. apply andb_prop in H as [H Hsp].
    apply andb_prop in H as [Hc Hsm].
    apply bool_decide_eq_true_1 in Hsp. apply bool_decide_eq_true_1 in Hsm.
    destruct (skip_split cyrillic_lower r) as (small & Hr & Hsmall).
    destruct (skip_split isspace (skip cyrillic_lower r))
      as (spaces & Hr1 & Hspaces).
    destruct (initials_shape _ Htail) as (a & b & Hr2 & Ha & Hb).
    rewrite Hr2 in Hr1, Hsp.
    exists c, small, spaces, a, b.
    split; [by rewrite Hr at 1; rewrite Hr1 at 1|].
    split; [exact Hc|]. split.
    { intros ->. cbn [app] in Hr. rewrite <- Hr in Hsm. lia. }
    split; [exact Hsmall|]. split.
    { intros ->. cbn [app] in Hr1. rewrite <- Hr1 in Hsp.
      cbn [length] in Hsp. lia. }
    split; [exact Hspaces|]. by split.
  - intros (c & small & spaces & a & b & Hstrip & Hc & Hsm & Hsmall & Hsp
            & Hspaces & Ha & Hb).
    destruct full_name as [|x0 rest0].
    { exfalso. vm_compute in Hstrip. discriminate. }
    rewrite Hstrip. cbv zeta.
    assert (Hspace1 : skip isspace (spaces ++ [a; 46; b; 46]%N)
                      = [a; 46; b; 46]%N).
    { apply skip_app; [exact Hspaces|].
      by apply cyrillic_upper_not_isspace. }
    assert (Hsmall1 : skip cyrillic_lower
                        (small ++ spaces ++ [a; 46; b; 46]%N)
                      = spaces ++ [a; 46; b; 46]%N).
    { apply skip_app; [exact Hsmall|].
      destruct spaces as [|s0 spaces]; [done|]. cbn [app].
      apply isspace_not_cyrillic_lower. by inversion Hspaces. }
    rewrite Hsmall1, Hspace1, Hc, Ha, Hb. cbn [andb].
    rewrite !bool_decide_eq_true_2; [reflexivity| |].
    + rewrite length_app. cbn [length].
      destruct spaces; [done|]. cbn [length]. lia.
    + rewrite !length_app. destruct small; [done|]. cbn [length]. lia.
Qed.

(** X27.  [clean_location_name] returns its argument whatever it is: the
    loop over the known locations can only return the location it was
    given. *)
Theorem clean_location_name_is_the_identity (location : str) :
  Utils.clean_location_name location = location.
Proof.
  unfold Utils.clean_location_name.
  induction Utils.LOCATIONS as [|[loc_name emoji] items IH]; [reflexivity|].
  cbn [Utils.clean_location_loop].
  destruct (bool_decide_reflect (location = loc_name)) as [->|_];
    [reflexivity|exact IH].
Qed.

Lemma replace_char_app (char : N) (by_text a b : str) :
  Utils.replace_char char by_text (a ++ b)
  = Utils.replace_char char by_text a ++ Utils.replace_char char by_text b.
Proof. unfold Utils.replace_char. apply flat_map_app. Qed.

Lemma escape_step (done_chars : list N) (char : N) (text : str) :
  char ≠ 92%N → char ∉ done_chars →
  Utils.replace_char char [92%N; char]
    (flat_map (λ x, if bool_decide (x ∈ done_chars) then [92%N; x] else [x])
       text)
  = flat_map (λ x, if bool_decide (x ∈ done_chars ++ [char])
                   then [92%N; x] else [x]) text.
Proof.
  intros Hbs Hnew. induction text as [|x text IH]; [reflexivity|].
  cbn [flat_map]. rewrite replace_char_app, IH. f_equal.
  destruct (bool_decide_reflect (x ∈ done_chars)) as [Hin|Hnin].
  - rewrite bool_decide_eq_true_2 by (apply elem_of_app; by left).
    unfold Utils.replace_char. cbn [flat_map app].
    destruct (N.eqb_spec 92 char) as [?|_]; [congruence|].
    destruct (N.eqb_spec x char) as [->|_]; [done|]. reflexivity.
  - unfold Utils.replace_char. cbn [flat_map app].
    destruct (N.eqb_spec x char) as [->|Hne].
    + rewrite bool_decide_eq_true_2; [reflexivity|].
      apply elem_of_app. right. apply list_elem_of_here.
    + rewrite bool_decide_eq_false_2; [reflexivity|].
      intros H. apply elem_of_app in H as [H|H]; [done|].
      apply list_elem_of_singleton in H. done.
Qed.

Lemma escape_fold (chars : list N) : ∀ (done_chars : list N) (text : str),
  92%N ∉ chars → NoDup (done_chars ++ chars) →
  foldl (λ text char, Utils.replace_char char [92%N; char] text)
    (flat_map (λ x, if bool_decide (x ∈ done_chars) then [92%N; x] else [x])
       text) chars
  = flat_map (λ x, if bool_decide (x ∈ done_chars ++ chars)
                   then [92%N; x] else [x]) text.
Proof.
  induction chars as [|char chars IH]; intros done_chars text Hbs Hnd.
  - cbn [foldl]. by rewrite app_nil_r.
  - cbn [foldl]. rewrite escape_step.
    + rewrite IH.
      * by rewrite <- (assoc_L (++)).
      * intros H. apply Hbs. by apply list_elem_of_further.
      * by rewrite <- (assoc_L (++)).
    + intros ->. apply Hbs. apply list_elem_of_here.
    + apply NoDup_app in Hnd as (_ & Hdis & _). intros Hin.
      apply (Hdis char Hin). apply list_elem_of_here.
Qed.

(** X28.  [escape_markdown] is one pass over the text: the replacements
    made one character after the other never touch each other's output,
    so every character of the list gets one backslash in front of it and
    every other character, the backslash included, stays as it is. *)
Theorem escape_markdown_is_one_pass (text : str) :
  Utils.escape_markdown text
  = flat_map (λ x, if bool_decide (x ∈ Utils.chars_to_escape)
                   then [92%N; x] else [x]) text.
Proof.
  unfold Utils.escape_markdown.
  assert (Hbs : 92%N ∉ Utils.chars_to_escape).
  { apply (bool_decide_unpack _). vm_compute. exact I. }
  assert (Hnd : NoDup ([] ++ Utils.chars_to_escape)).
  { apply (bool_decide_unpack _). vm_compute. exact I. }
  pose proof (escape_fold Utils.chars_to_escape [] text Hbs Hnd) as H.
  cbn [app] in H.
  assert (Hid : flat_map (λ x : N, if bool_decide (x ∈ @nil N)
                                   then [92%N; x] else [x]) text = text).
  { clear H. induction text as [|x text IH]; [reflexivity|].
    cbn [flat_map]. rewrite IH.
    rewrite (bool_decide_eq_false_2 (x ∈ []) (not_elem_of_nil x)).
    reflexivity. }
  rewrite Hid in H. exact H.
Qed.

(** X29.  [truncate_text] returns a text that fits as it is.  A longer
    text is cut to exactly [max_length] characters, the last three being
    dots, when [max_length] is at least 3; for a smaller [max_length] the
    result is longer than [max_length]. *)
Theorem truncate_text_length (text : str) (max_length : Z) :
  ((Z.of_nat (length text) ≤ max_length)%Z →
   Utils.truncate_text text max_length = text)
  ∧ ((max_length < Z.of_nat (length text))%Z →
     if (3 <=? max_length)%Z
     then Z.of_nat (length (Utils.truncate_text text max_length))
          = max_length
          ∧ Utils.truncate_text text max_length
            = take (Z.to_nat (max_length - 3)) text ++ u "..."
     else (max_length
           < Z.of_nat (length (Utils.truncate_text text max_length)))%Z).
Proof.
  unfold Utils.truncate_text. split.
  - intros Hfit. destruct (Z.leb_spec (Z.of_nat (length text)) max_length);
      [reflexivity|lia].
  - intros Hlong.
    destruct (Z.leb_spec (Z.of_nat (length text)) max_length); [lia|].
    rewrite length_app. change (length (u "...")) with 3.
    unfold Py.slice, Py.slice_bound.
    change (0 <? 0)%Z with false. cbv iota.
    rewrite (Z.min_l 0) by lia. rewrite Z.sub_0_r.
    change (Z.to_nat 0) with 0. rewrite drop_0.
    destruct (Z.leb_spec 3 max_length) as [H3|H3].
    + destruct (Z.ltb_spec (max_length - 3) 0) as [?|_]; [lia|].
      rewrite Z.min_l by lia. split; [|reflexivity].
      rewrite length_take. lia.
    + destruct (Z.ltb_spec (max_length - 3) 0) as [_|?]; [|lia].
      rewrite length_take. lia.
Qed.


(** *** [int()] on the texts that [isdigit] accepts *)

Lemma unicode_digit_range (c : N) :
  unicode_digit c = true →
  ∃ r : N * N, r ∈ digit_ranges ∧ (r.1 ≤ c)%N ∧ (c ≤ r.2)%N.
Proof.
  unfold unicode_digit. rewrite existsb_exists.
  intros (r & Hin & H). apply andb_prop in H as [H1 H2].
  exists r. rewrite list_elem_of_In. split; [exact Hin|].
  split; [by apply N.leb_le | by apply N.leb_le].
Qed.

(** A property of every digit follows from checking it on the ranges. *)
Lemma digit_ranges_check (Q : N → bool) :
  forallb (λ r : N * N,
             forallb (λ i, Q (r.1 + N.of_nat i)%N)
               (seq 0 (S (N.to_nat (r.2 - r.1))))) digit_ranges = true →
  ∀ c, unicode_digit c = true → Q c = true.
Proof.
  intros Hall c Hc.
  destruct (unicode_digit_range c Hc) as (r & Hin & Hlo & Hhi).
  rewrite forallb_forall in Hall.
  apply list_elem_of_In in Hin. specialize (Hall r Hin).
  rewrite forallb_forall in Hall.
  specialize (Hall (N.to_nat (c - r.1))).
  replace (r.1 + N.of_nat (N.to_nat (c - r.1)))%N with c in Hall by lia.
  apply Hall. apply in_seq. lia.
Qed.

(** On a digit, [int()] reads the decimal value; a digit that is no
    decimal, such as a superscript, is refused. *)
Lemma int_char_digit (c : N) :
  unicode_digit c = true →
  int_char c = (λ v, 48 + v)%N <$> decimal_value c.
Proof.
  intros Hc. apply (bool_decide_eq_true_1 _).
  revert c Hc.
  apply (digit_ranges_check
           (λ c, bool_decide
                   (int_char c = (λ v, 48 + v)%N <$> decimal_value c))).
  vm_compute. reflexivity.
Qed.

Lemma decimal_value_bound (c v : N) :
  decimal_value c = Some v → (v ≤ 9)%N.
Proof.
  unfold decimal_value.
  destruct (List.find _ decimal_zeros) as [z|] eqn:Hz; [|discriminate].
  apply find_some in Hz as [_ Hz]. apply andb_prop in Hz as [H1 H2].
  apply N.leb_le in H1. apply N.leb_le in H2.
  cbn [fmap option_fmap option_map]. intros [= <-]. lia.
Qed.

Lemma mapM_int_char_digits (y : str) :
  forallb unicode_digit y = true →
  mapM int_char y = mapM (λ c, (λ v, 48 + v)%N <$> decimal_value c) y.
Proof.
  induction y as [|c y IH]; [reflexivity|].
  cbn [forallb]. intros H. apply andb_prop in H as [Hc Hy].
  cbn [mapM]. by rewrite (int_char_digit c Hc), (IH Hy).
Qed.

Lemma mapM_decimal_isdigit (y t : str) :
  mapM (λ c, (λ v, 48 + v)%N <$> decimal_value c) y = Some t →
  forallb isdigit t = true ∧ length t = length y.
Proof.
  revert t. induction y as [|c y IH]; intros t.
  - cbn [mapM]. intros [= <-]. by split.
  - cbn [mapM]. unfold mbind, option_bind at 1.
    destruct (decimal_value c) as [v|] eqn:Hv; [|discriminate].
    cbn [fmap option_fmap option_map].
    unfold mbind, option_bind at 1.
    destruct (mapM _ y) as [t'|]; [|discriminate].
    cbn [mret option_ret]. intros [= <-].
    destruct (IH t' eq_refl) as [Hd Hl].
    pose proof (decimal_value_bound c v Hv) as Hb.
    cbn [forallb length]. rewrite Hd, Hl. split; [|reflexivity].
    rewrite andb_true_r. unfold isdigit.
    apply andb_true_intro. split; apply N.leb_le; lia.
Qed.

Lemma isdigit_not_int_space (c : N) :
  isdigit c = true → int_space c = false.
Proof.
  unfold isdigit, int_space. intros H. apply andb_prop in H as [H1 H2].
  apply N.leb_le in H1. apply N.leb_le in H2.
  destruct (N.leb_spec 9 c), (N.leb_spec c 13), (N.eqb_spec c 32);
    cbn; try reflexivity; lia.
Qed.

Lemma int_lstrip_digits (t : str) :
  forallb isdigit t = true → int_lstrip t = t.
Proof.
  destruct t as [|c r]; [reflexivity|]. cbn [forallb int_lstrip].
  intros H. apply andb_prop in H as [Hc _].
  by rewrite (isdigit_not_int_space c Hc).
Qed.

Lemma int_strip_digits (t : str) :
  forallb isdigit t = true → rev (int_lstrip (rev (int_lstrip t))) = t.
Proof.
  intros H. rewrite (int_lstrip_digits t H).
  rewrite int_lstrip_digits; [apply rev_involutive|].
  apply forallb_forall. intros x Hx. apply in_rev in Hx.
  rewrite forallb_forall in H. by apply H.
Qed.

Lemma grouped_digits (t : str) :
  t ≠ [] → forallb isdigit t = true → grouped t = true.
Proof.
  induction t as [|c r IH]; [done|]. intros _ H.
  cbn [forallb] in H. apply andb_prop in H as [Hc Hr].
  cbn [grouped]. rewrite Hc. cbn [andb].
  destruct r as [|c' r']; [reflexivity|].
  assert (Hg : grouped (c' :: r') = true) by (by apply IH).
  cbn [forallb] in Hr. apply andb_prop in Hr as [Hc' _].
  destruct c' as [|p]; [exact Hg|].
  do 7 (destruct p as [p|p|]; try exact Hg);
    vm_compute in Hc'; discriminate.
Qed.

Lemma filter_digits (t : str) :
  forallb isdigit t = true → List.filter isdigit t = t.
Proof.
  induction t as [|c r IH]; [reflexivity|]. cbn [forallb List.filter].
  intros H. apply andb_prop in H as [Hc Hr]. by rewrite Hc, (IH Hr).
Qed.

(** [int()] on a text that [isdigit] accepts: the value of its decimal
    digits when all its characters are decimal digits and there are at
    most [max_str_digits] of them, and [ValueError] otherwise. *)
Lemma int_of_digits (y : str) :
  str_isdigit y = true →
  Py.int y
  = match mapM (λ c, (λ v, 48 + v)%N <$> decimal_value c) y with
    | Some t => if (length y <=? max_str_digits)%nat
                then Some (digits_value 0 t) else None
    | None => None
    end.
Proof.
  unfold str_isdigit. destruct y as [|c0 y0] eqn:Hy; [discriminate|].
  rewrite <- Hy. intros H. unfold Py.int.
  rewrite (mapM_int_char_digits y H).
  destruct (mapM _ y) as [t|] eqn:Ht; [|reflexivity].
  destruct (mapM_decimal_isdigit y t Ht) as [Hd Hl].
  rewrite (int_strip_digits t Hd).
  assert (Hne : t ≠ []).
  { intros ->. rewrite Hy in Hl. discriminate. }
  assert (Hu : unsigned_int t
               = if (length y <=? max_str_digits)%nat
                 then Some (digits_value 0 t) else None).
  { unfold unsigned_int.
    by rewrite (grouped_digits t Hne Hd), (filter_digits t Hd), Hl. }
  rewrite <- Hu. clear Hu.
  destruct t as [|c r]; [done|].
  cbn [forallb] in Hd. apply andb_prop in Hd as [Hc _].
  destruct c as [|p]; [reflexivity|].
  do 6 (destruct p as [p|p|]; try reflexivity);
    vm_compute in Hc; discriminate.
Qed.

Lemma digits_value_nonneg (s : str) : ∀ acc,
  (0 ≤ acc)%Z → (0 ≤ digits_value acc s)%Z.
Proof.
  induction s as [|c r IH]; intros acc Hacc; [exact Hacc|].
  cbn [digits_value]. apply IH. lia.
Qed.

Lemma mapM_int_entries (entries : list str) :
  Forall (λ x, str_isdigit (strip x) = true) entries →
  mapM (λ x, Py.int (strip x)) entries
  = if forallb
         (λ x, forallb (λ c, bool_decide (is_Some (decimal_value c)))
                 (strip x)
               && (length (strip x) <=? max_str_digits)%nat) entries
    then Some ((λ x, digits_value 0
                       ((λ c, 48 + default 0 (decimal_value c))%N
                        <$> strip x)) <$> entries)
    else None.
Proof.
  assert (Hdec : ∀ y,
    mapM (λ c, (λ v, 48 + v)%N <$> decimal_value c) y
    = if forallb (λ c, bool_decide (is_Some (decimal_value c))) y
      then Some ((λ c, 48 + default 0 (decimal_value c))%N <$> y)
      else None).
  { induction y as [|c y IH]; [reflexivity|].
    cbn [mapM forallb fmap list_fmap]. rewrite IH.
    destruct (decimal_value c) as [v|]; [|reflexivity].
    rewrite (bool_decide_eq_true_2 _ (mk_is_Some _ _ eq_refl)).
    cbn [andb]. by destruct (forallb _ y). }
  induction 1 as [|x entries Hx _ IH]; [reflexivity|].
  cbn [mapM forallb fmap list_fmap]. rewrite IH.
  rewrite (int_of_digits _ Hx), Hdec.
  destruct (forallb _ (strip x)); [|reflexivity]. cbn [andb].
  destruct (length (strip x) <=? max_str_digits)%nat; [|reflexivity].
  cbn [andb]. by destruct (forallb _ entries).
Qed.

(** X30.  [_parse_admin_ids].  The empty value and the placeholder give
    no admin.  Otherwise the entries are the comma-separated parts that,
    stripped, pass [isdigit]; every other part, a negative number or an
    empty one for instance, is skipped without an error.  When every
    entry is made of decimal digits, at most 4300 of them, the admins are
    the values of the entries, in their order.  When one entry is not,
    because it holds a digit that is no decimal, such as a superscript
    two, or because it is longer, [int()] refuses it and the result is
    the empty list: one such entry removes every admin.  No id is
    negative. *)
Theorem parsed_admin_ids_are_the_digit_entries (admin_ids_str : str) :
  let entries := List.filter (λ x, str_isdigit (strip x))
                   (split 44 admin_ids_str) in
  (admin_ids_str = [] ∨ admin_ids_str = u "YOUR_ADMIN_ID" →
   parse_admin_ids admin_ids_str = [])
  ∧ (admin_ids_str ≠ [] → admin_ids_str ≠ u "YOUR_ADMIN_ID" →
     parse_admin_ids admin_ids_str
     = if forallb
            (λ x, forallb (λ c, bool_decide (is_Some (decimal_value c)))
                    (strip x)
                  && (length (strip x) <=? max_str_digits)%nat) entries
       then (λ x, digits_value 0
                    ((λ c, 48 + default 0 (decimal_value c))%N
                     <$> strip x)) <$> entries
       else [])
  ∧ (∀ n, n ∈ parse_admin_ids admin_ids_str → (0 ≤ n)%Z)
  ∧ parse_admin_ids (u "1, 22 ,x,-3,,4") = [1; 22; 4]%Z
  ∧ parse_admin_ids (u "1,²,3") = [].
Proof.
  intros entries.
  assert (Hentries : Forall (λ x, str_isdigit (strip x) = true) entries).
  { apply Forall_forall. intros x Hx. subst entries.
    apply list_elem_of_In, filter_In in Hx. exact (proj2 Hx). }
  pose proof (mapM_int_entries entries Hentries) as Hmap.
  unfold parse_admin_ids. fold entries.
  split; [|split; [|split; [|split; vm_compute; reflexivity]]].
  - intros [-> | ->]; [reflexivity|].
    rewrite (bool_decide_eq_true_2 (u "YOUR_ADMIN_ID" = u "YOUR_ADMIN_ID")
               eq_refl).
    by rewrite orb_true_r.
  - intros H1 H2.
    rewrite (bool_decide_eq_false_2 _ H1), (bool_decide_eq_false_2 _ H2).
    cbn [orb]. rewrite Hmap. by destruct (forallb _ entries).
  - intros n.
    destruct (bool_decide (admin_ids_str = [])
              || bool_decide (admin_ids_str = u "YOUR_ADMIN_ID")).
    { intros H. by apply elem_of_nil in H. }
    rewrite Hmap. destruct (forallb _ entries).
    + intros H. apply list_elem_of_fmap in H as (x & -> & _).
      apply digits_value_nonneg. lia.
    + intros H. by apply elem_of_nil in H.
Qed.
